(** * goviz1090: the decode-and-track core, embedded and verified

    The development follows the Go sources:
    - [Adsb]    : package adsb (message decoder, CPR resolver with the
                  threshold NL function, aircraft store keyed by ICAO);
    - [MapAdsb] : the adsb declarations carried by internal/map_system/map.go
                  (table-driven NL function, integer CPR timestamps,
                  DecodeCallsign / DecodeAltitude / DecodeVelocity);
    - [App]     : internal/app/app.go, processModeS and the sweep;
    - [Beast]   : the Beast frame encoder of the mock server, and the frame
                  decoder of internal/beast as the specification describes it.

    Conventions.  A Go [int] is a [Z]; every arithmetic expression on values
    extracted from bytes stays far below 2^63, and [wrap64] is written where a
    caller-supplied [int] could overflow.  A [byte] is [Byte.byte], read as a
    number with [u8].  A [float64] is a primitive binary64 float, with the
    operations in their program order and unfused.  A [time.Time] is an
    instant counted in nanoseconds from Go's zero time. *)

From Stdlib Require Import ZArith QArith Qabs Floats Lia.
From Stdlib.Strings Require Import String Ascii Byte.
From stdpp Require Import gmap list.

Set Warnings "-inexact-float".
Local Open Scope Z_scope.

(** ** Outcomes: a Go call returns or panics *)

Inductive outcome (A : Type) : Type :=
| Ok (a : A)
| Panic.
Arguments Ok {A} a.
Arguments Panic {A}.

#[global] Instance outcome_ret : MRet outcome := fun _ a => Ok a.
#[global] Instance outcome_bind : MBind outcome := fun _ _ f m =>
  match m with
  | Ok a => f a
  | Panic => Panic
  end.

(** ** Bytes and machine integers *)

Definition u8 (b : byte) : Z := Z.of_N (Byte.to_N b).

(** [byte(z)]: conversion of an integer to a byte keeps the low 8 bits. *)
Definition byte_of_Z (z : Z) : byte :=
  match Byte.of_N (Z.to_N (z mod 256)) with
  | Some b => b
  | None => x00
  end.

Definition wrap64 (z : Z) : Z := (z + 2 ^ 63) mod 2 ^ 64 - 2 ^ 63.

(** [data[i]] where a preceding length check keeps [i] in range. *)
Definition at_ (data : list byte) (i : nat) : Z := u8 (nth i data x00).

(** [data[i]] without a guard: an index at or past [len(data)] panics. *)
Definition index (data : list byte) (i : nat) : outcome Z :=
  match data !! i with
  | Some b => Ok (u8 b)
  | None => Panic
  end.

(** ** float64 *)

Module GoFloat.

(** [float64(z)]: round to nearest, ties to even. *)
Definition of_int (z : Z) : float :=
  SF2Prim (binary_normalize prec emax z 0 false).

(** The integer part of a finite float, towards zero. *)
Definition trunc (f : float) : option Z :=
  match Prim2SF f with
  | S754_zero _ => Some 0
  | S754_finite s m e =>
      let v := if 0 <=? e then Z.pos m * 2 ^ e else Z.pos m / 2 ^ (- e) in
      Some (if s then - v else v)
  | _ => None
  end.

(** [int(f)]: truncation; what does not fit an int64 (NaN and the
    infinities too) converts to the smallest int64, as on amd64. *)
Definition to_int (f : float) : Z :=
  match trunc f with
  | Some v => if (- 2 ^ 63 <=? v) && (v <? 2 ^ 63) then v else - 2 ^ 63
  | None => - 2 ^ 63
  end.

(** [math.Floor]. *)
Definition Floor (f : float) : float :=
  match Prim2SF f with
  | S754_finite s m e =>
      if 0 <=? e then f
      else
        let q := Z.pos m / 2 ^ (- e) in
        let r := Z.pos m mod 2 ^ (- e) in
        let up := if r =? 0 then q else q + 1 in
        if s then PrimFloat.opp (of_int up) else of_int q
  | _ => f
  end.

(** [math.Round]: nearest integer, halves away from zero. *)
Definition Round (f : float) : float :=
  match Prim2SF f with
  | S754_finite s m e =>
      if 0 <=? e then f
      else
        let q := Z.pos m / 2 ^ (- e) in
        let r := Z.pos m mod 2 ^ (- e) in
        let n := if 2 ^ (- e) <=? 2 * r then q + 1 else q in
        if s then PrimFloat.opp (of_int n) else of_int n
  | _ => f
  end.

(** The exact rational value of a finite float. *)
Definition toQ (f : float) : option Q :=
  match Prim2SF f with
  | S754_zero _ => Some 0%Q
  | S754_finite s m e =>
      let n := if s then Z.neg m else Z.pos m in
      Some (if 0 <=? e then (n * 2 ^ e) # 1
            else n # Z.to_pos (2 ^ (- e)))
  | _ => None
  end.

(** [f] is finite and within [tol] of [c], decided on exact rationals. *)
Definition near (f : float) (c tol : Q) : bool :=
  match toQ f with
  | Some q => Qle_bool (Qabs (q - c)) tol
  | None => false
  end.

End GoFloat.

(** ** time.Time and time.Duration *)

Module GoTime.

(** Nanoseconds since January 1, year 1, 00:00:00 UTC. *)
Definition instant : Type := Z.
(** A Duration is an int64 count of nanoseconds. *)
Definition Duration : Type := Z.

Definition minDuration : Duration := - 2 ^ 63.
Definition maxDuration : Duration := 2 ^ 63 - 1.
Definition Millisecond : Duration := 1000000.
Definition Second : Duration := 1000000000.

Definition zero : instant := 0.
Definition IsZero (t : instant) : bool := t =? 0.
Definition After (t u : instant) : bool := u <? t.

(** [t.Sub(u)]: the difference, saturated to the Duration range. *)
Definition Sub (t u : instant) : Duration :=
  let d := t - u in
  if d <? minDuration then minDuration
  else if maxDuration <? d then maxDuration
  else d.

(** [d.Milliseconds()]: integer division, towards zero. *)
Definition Milliseconds (d : Duration) : Z := Z.quot d 1000000.

End GoTime.

(** * Package adsb *)

Module Adsb.
Import GoFloat GoTime.

(** Downlink formats and the trail bound. *)
Definition DF0 : Z := 0.
Definition DF4 : Z := 4.
Definition DF5 : Z := 5.
Definition DF11 : Z := 11.
Definition DF16 : Z := 16.
Definition DF17 : Z := 17.
Definition DF18 : Z := 18.
Definition DF20 : Z := 20.
Definition DF21 : Z := 21.

Definition TrailLength : nat := 120.

Module Position.
Record t : Type := mk {
  Lat : float;
  Lon : float;
  Altitude : Z;
  Heading : Z;
  Timestamp : instant
}.
End Position.

Module Aircraft.
Record t : Type := mk {
  ICAO : Z;
  Flight : string;
  Altitude : Z;
  Speed : Z;
  Heading : Z;
  VertRate : Z;
  Lat : float;
  Lon : float;
  Seen : instant;
  SeenLatLon : instant;
  X : Z;
  Y : Z;
  OnGround : bool;
  SignalLevel : list byte;
  EvenCPRLat : Z;
  EvenCPRLon : Z;
  OddCPRLat : Z;
  OddCPRLon : Z;
  EvenCPRTime : instant;
  OddCPRTime : instant;
  Trail : list Position.t;
  LabelX : float;
  LabelY : float;
  LabelW : float;
  LabelH : float;
  LabelDX : float;
  LabelDY : float;
  LabelOpacity : float;
  LabelLevel : float;
  LastUpdateTime : instant
}.
Definition set_Trail (v : list Position.t) (r : t) : t :=
  mk (ICAO r) (Flight r) (Altitude r) (Speed r) (Heading r) (VertRate r)
    (Lat r) (Lon r) (Seen r) (SeenLatLon r) (X r) (Y r) (OnGround r)
    (SignalLevel r) (EvenCPRLat r) (EvenCPRLon r) (OddCPRLat r) (OddCPRLon r)
    (EvenCPRTime r) (OddCPRTime r) v (LabelX r) (LabelY r) (LabelW r)
    (LabelH r) (LabelDX r) (LabelDY r) (LabelOpacity r) (LabelLevel r)
    (LastUpdateTime r).
End Aircraft.

Module Message.
Record t : Type := mk {
  DF : Z;
  CA : Z;
  CF : Z;
  FS : Z;
  ModeA : Z;
  ICAO : Z;
  TypeCode : Z;
  SubType : Z;
  Flight : string;
  Altitude : Z;
  Speed : Z;
  Heading : Z;
  VertRate : Z;
  Lat : float;
  Lon : float;
  RawLat : Z;
  RawLon : Z;
  OddFlag : bool;
  OnGround : bool;
  SignalLevel : byte;
  Timestamp : instant;
  CRC : Z;
  IID : Z;
  Valid : bool
}.
Definition set_CA (v : Z) (r : t) : t :=
  mk (DF r) v (CF r) (FS r) (ModeA r) (ICAO r) (TypeCode r) (SubType r)
    (Flight r) (Altitude r) (Speed r) (Heading r) (VertRate r) (Lat r) (Lon r)
    (RawLat r) (RawLon r) (OddFlag r) (OnGround r) (SignalLevel r)
    (Timestamp r) (CRC r) (IID r) (Valid r).
Definition set_CF (v : Z) (r : t) : t :=
  mk (DF r) (CA r) v (FS r) (ModeA r) (ICAO r) (TypeCode r) (SubType r)
    (Flight r) (Altitude r) (Speed r) (Heading r) (VertRate r) (Lat r) (Lon r)
    (RawLat r) (RawLon r) (OddFlag r) (OnGround r) (SignalLevel r)
    (Timestamp r) (CRC r) (IID r) (Valid r).
Definition set_FS (v : Z) (r : t) : t :=
  mk (DF r) (CA r) (CF r) v (ModeA r) (ICAO r) (TypeCode r) (SubType r)
    (Flight r) (Altitude r) (Speed r) (Heading r) (VertRate r) (Lat r) (Lon r)
    (RawLat r) (RawLon r) (OddFlag r) (OnGround r) (SignalLevel r)
    (Timestamp r) (CRC r) (IID r) (Valid r).
Definition set_ModeA (v : Z) (r : t) : t :=
  mk (DF r) (CA r) (CF r) (FS r) v (ICAO r) (TypeCode r) (SubType r)
    (Flight r) (Altitude r) (Speed r) (Heading r) (VertRate r) (Lat r) (Lon r)
    (RawLat r) (RawLon r) (OddFlag r) (OnGround r) (SignalLevel r)
    (Timestamp r) (CRC r) (IID r) (Valid r).
Definition set_ICAO (v : Z) (r : t) : t :=
  mk (DF r) (CA r) (CF r) (FS r) (ModeA r) v (TypeCode r) (SubType r)
    (Flight r) (Altitude r) (Speed r) (Heading r) (VertRate r) (Lat r) (Lon r)
    (RawLat r) (RawLon r) (OddFlag r) (OnGround r) (SignalLevel r)
    (Timestamp r) (CRC r) (IID r) (Valid r).
Definition set_TypeCode (v : Z) (r : t) : t :=
  mk (DF r) (CA r) (CF r) (FS r) (ModeA r) (ICAO r) v (SubType r) (Flight r)
    (Altitude r) (Speed r) (Heading r) (VertRate r) (Lat r) (Lon r) (RawLat r)
    (RawLon r) (OddFlag r) (OnGround r) (SignalLevel r) (Timestamp r) (CRC r)
    (IID r) (Valid r).
Definition set_SubType (v : Z) (r : t) : t :=
  mk (DF r) (CA r) (CF r) (FS r) (ModeA r) (ICAO r) (TypeCode r) v (Flight r)
    (Altitude r) (Speed r) (Heading r) (VertRate r) (Lat r) (Lon r) (RawLat r)
    (RawLon r) (OddFlag r) (OnGround r) (SignalLevel r) (Timestamp r) (CRC r)
    (IID r) (Valid r).
Definition set_Flight (v : string) (r : t) : t :=
  mk (DF r) (CA r) (CF r) (FS r) (ModeA r) (ICAO r) (TypeCode r) (SubType r) v
    (Altitude r) (Speed r) (Heading r) (VertRate r) (Lat r) (Lon r) (RawLat r)
    (RawLon r) (OddFlag r) (OnGround r) (SignalLevel r) (Timestamp r) (CRC r)
    (IID r) (Valid r).
Definition set_Altitude (v : Z) (r : t) : t :=
  mk (DF r) (CA r) (CF r) (FS r) (ModeA r) (ICAO r) (TypeCode r) (SubType r)
    (Flight r) v (Speed r) (Heading r) (VertRate r) (Lat r) (Lon r) (RawLat r)
    (RawLon r) (OddFlag r) (OnGround r) (SignalLevel r) (Timestamp r) (CRC r)
    (IID r) (Valid r).
Definition set_Speed (v : Z) (r : t) : t :=
  mk (DF r) (CA r) (CF r) (FS r) (ModeA r) (ICAO r) (TypeCode r) (SubType r)
    (Flight r) (Altitude r) v (Heading r) (VertRate r) (Lat r) (Lon r)
    (RawLat r) (RawLon r) (OddFlag r) (OnGround r) (SignalLevel r)
    (Timestamp r) (CRC r) (IID r) (Valid r).
Definition set_Heading (v : Z) (r : t) : t :=
  mk (DF r) (CA r) (CF r) (FS r) (ModeA r) (ICAO r) (TypeCode r) (SubType r)
    (Flight r) (Altitude r) (Speed r) v (VertRate r) (Lat r) (Lon r)
    (RawLat r) (RawLon r) (OddFlag r) (OnGround r) (SignalLevel r)
    (Timestamp r) (CRC r) (IID r) (Valid r).
Definition set_VertRate (v : Z) (r : t) : t :=
  mk (DF r) (CA r) (CF r) (FS r) (ModeA r) (ICAO r) (TypeCode r) (SubType r)
    (Flight r) (Altitude r) (Speed r) (Heading r) v (Lat r) (Lon r) (RawLat r)
    (RawLon r) (OddFlag r) (OnGround r) (SignalLevel r) (Timestamp r) (CRC r)
    (IID r) (Valid r).
Definition set_RawLat (v : Z) (r : t) : t :=
  mk (DF r) (CA r) (CF r) (FS r) (ModeA r) (ICAO r) (TypeCode r) (SubType r)
    (Flight r) (Altitude r) (Speed r) (Heading r) (VertRate r) (Lat r) (Lon r)
    v (RawLon r) (OddFlag r) (OnGround r) (SignalLevel r) (Timestamp r)
    (CRC r) (IID r) (Valid r).
Definition set_RawLon (v : Z) (r : t) : t :=
  mk (DF r) (CA r) (CF r) (FS r) (ModeA r) (ICAO r) (TypeCode r) (SubType r)
    (Flight r) (Altitude r) (Speed r) (Heading r) (VertRate r) (Lat r) (Lon r)
    (RawLat r) v (OddFlag r) (OnGround r) (SignalLevel r) (Timestamp r)
    (CRC r) (IID r) (Valid r).
Definition set_OddFlag (v : bool) (r : t) : t :=
  mk (DF r) (CA r) (CF r) (FS r) (ModeA r) (ICAO r) (TypeCode r) (SubType r)
    (Flight r) (Altitude r) (Speed r) (Heading r) (VertRate r) (Lat r) (Lon r)
    (RawLat r) (RawLon r) v (OnGround r) (SignalLevel r) (Timestamp r) (CRC r)
    (IID r) (Valid r).
Definition set_OnGround (v : bool) (r : t) : t :=
  mk (DF r) (CA r) (CF r) (FS r) (ModeA r) (ICAO r) (TypeCode r) (SubType r)
    (Flight r) (Altitude r) (Speed r) (Heading r) (VertRate r) (Lat r) (Lon r)
    (RawLat r) (RawLon r) (OddFlag r) v (SignalLevel r) (Timestamp r) (CRC r)
    (IID r) (Valid r).
End Message.

(** A fresh [Message{DF: df, Timestamp: timestamp, Valid: true}]. *)
Definition newMessage (df : Z) (timestamp : instant) : Message.t :=
  Message.mk df 0 0 0 0 0 0 0 EmptyString 0 0 0 0 0%float 0%float 0 0
    false false x00 timestamp 0 0 true.

(** ** The aircraft store

    [am.data] maps an ICAO address to a pointer; [mem] holds the objects the
    pointers reach, so that two lookups of one address alias one track. *)

(** Pointers to aircraft objects. *)
Abbreviation loc := positive (only parsing).

Record AircraftMap : Type := mkAircraftMap {
  mem : gmap loc Aircraft.t;
  data : gmap Z loc
}.

Definition NewAircraftMap : AircraftMap := mkAircraftMap ∅ ∅.

Definition Get (icao : Z) (am : AircraftMap) : option loc := data am !! icao.

(** The object [GetOrCreate] allocates; [now1] and [now2] are its two
    readings of the clock, in program order. *)
Definition newAircraft (icao : Z) (now1 now2 : instant) : Aircraft.t :=
  Aircraft.mk icao EmptyString 0 0 0 0 0%float 0%float now1 zero 0 0 false
    (replicate 8 x00) 0 0 0 0 zero zero [] 0%float 0%float 0%float 0%float
    0%float 0%float 0%float 0%float now2.

Definition GetOrCreate (now1 now2 : instant) (icao : Z) (am : AircraftMap)
  : loc * AircraftMap :=
  match data am !! icao with
  | Some aircraft => (aircraft, am)
  | None =>
      let aircraft := fresh (dom (mem am)) in
      (aircraft,
       mkAircraftMap (<[aircraft := newAircraft icao now1 now2]> (mem am))
                     (<[icao := aircraft]> (data am)))
  end.

Definition Len (am : AircraftMap) : nat := size (data am).

(** Every pointer the map holds reaches an object (none is nil). *)
Definition validPointers (am : AircraftMap) : Prop :=
  forall icao p, data am !! icao = Some p -> is_Some (mem am !! p).

(** One iteration of the sweep: [aircraft.Seen] dereferences the pointer. *)
Definition sweepStep (m : gmap loc Aircraft.t) (now : instant) (ttl : Duration)
  (icao : Z) (aircraft : loc) (acc : outcome (gmap Z loc))
  : outcome (gmap Z loc) :=
  d ← acc;
  match m !! aircraft with
  | Some a =>
      if ttl <? Sub now (Aircraft.Seen a) then Ok (delete icao d) else Ok d
  | None => Panic
  end.

(** [RemoveStale]: [now] is the reading of the clock taken before the loop;
    the loop ranges over the map and deletes from it. *)
Definition RemoveStale (now : instant) (ttl : Duration) (am : AircraftMap)
  : outcome AircraftMap :=
  d ← map_fold (sweepStep (mem am) now ttl) (Ok (data am)) (data am);
  Ok (mkAircraftMap (mem am) d).

Definition Copy (am : AircraftMap) : gmap Z loc := data am.

(** ** Field decoders *)

Definition gillhamToAltitude (code : Z) : Z := wrap64 (code * 100).

Definition decodeAC12Field (ac12Field : Z) : Z :=
  if ac12Field =? 0 then 0
  else
    let qBit := Z.land ac12Field 0x10 in
    if negb (qBit =? 0) then
      let n := Z.lor (Z.shiftr (Z.land ac12Field 0x0FE0) 1)
                     (Z.land ac12Field 0x000F) in
      n * 25 - 1000
    else gillhamToAltitude ac12Field.

Definition decodeAC13Field (ac13Field : Z) : Z :=
  if ac13Field =? 0 then 0
  else
    let mBit := Z.land ac13Field 0x0040 in
    if mBit =? 0 then
      let qBit := Z.land ac13Field 0x0010 in
      if negb (qBit =? 0) then
        let n := Z.lor (Z.lor (Z.shiftr (Z.land ac13Field 0x1F80) 2)
                              (Z.shiftr (Z.land ac13Field 0x0020) 1))
                       (Z.land ac13Field 0x000F) in
        n * 25 - 1000
      else gillhamToAltitude ac13Field
    else 0.

(** [if id13Field&mask != 0 { hex |= bit }]. *)
Definition orIf (id13Field mask bit hex : Z) : Z :=
  if negb (Z.land id13Field mask =? 0) then Z.lor hex bit else hex.

Definition decodeID13Field (id13Field : Z) : Z :=
  let hex := 0 in
  let hex := orIf id13Field 0x1000 0x0010 hex in
  let hex := orIf id13Field 0x0800 0x1000 hex in
  let hex := orIf id13Field 0x0400 0x0020 hex in
  let hex := orIf id13Field 0x0200 0x2000 hex in
  let hex := orIf id13Field 0x0100 0x0040 hex in
  let hex := orIf id13Field 0x0080 0x4000 hex in
  let hex := orIf id13Field 0x0020 0x0100 hex in
  let hex := orIf id13Field 0x0010 0x0001 hex in
  let hex := orIf id13Field 0x0008 0x0200 hex in
  let hex := orIf id13Field 0x0004 0x0002 hex in
  let hex := orIf id13Field 0x0002 0x0400 hex in
  let hex := orIf id13Field 0x0001 0x0004 hex in
  hex.

Definition decodeGroundMovement (movement : Z) : Z :=
  if (movement <=? 0) || (125 <=? movement) then 0
  else if 123 <? movement then 199
  else if 108 <? movement then (movement - 108) * 5 + 100
  else if 93 <? movement then (movement - 93) * 2 + 70
  else if 38 <? movement then (movement - 38) + 15
  else if 12 <? movement then Z.shiftr (movement - 11) 1 + 2
  else if 8 <? movement then Z.shiftr (movement - 6) 2 + 1
  else 0.

(** ** Aircraft identification *)

Definition charset : string :=
  "?ABCDEFGHIJKLMNOPQRSTUVWXYZ????? ???????????????0123456789??????".

(** [charset[i]]; the callers mask [i] to six bits, so it is in range. *)
Definition charsetAt (i : Z) : ascii :=
  match String.get (Z.to_nat i) charset with
  | Some c => c
  | None => "?"%char
  end.

(** The trimming loop [i := 7; for i >= 0 && result[i] == ' ' { i-- }],
    counted by [n = i + 1]; it returns the final [i + 1]. *)
Fixpoint trimEnd (result : list ascii) (n : nat) : nat :=
  match n with
  | O => O
  | S i =>
      if Ascii.eqb (nth i result " "%char) " "%char then trimEnd result i
      else S i
  end.

Definition decodeAircraftID (data : list byte) : string :=
  if (length data <? 6)%nat then EmptyString
  else
    let bits := Z.lor (Z.lor (Z.shiftl (at_ data 0) 16)
                             (Z.shiftl (at_ data 1) 8)) (at_ data 2) in
    let r0 := charsetAt (Z.land (Z.shiftr bits 18) 0x3F) in
    let r1 := charsetAt (Z.land (Z.shiftr bits 12) 0x3F) in
    let r2 := charsetAt (Z.land (Z.shiftr bits 6) 0x3F) in
    let r3 := charsetAt (Z.land bits 0x3F) in
    let bits := Z.lor (Z.lor (Z.shiftl (at_ data 3) 16)
                             (Z.shiftl (at_ data 4) 8)) (at_ data 5) in
    let r4 := charsetAt (Z.land (Z.shiftr bits 18) 0x3F) in
    let r5 := charsetAt (Z.land (Z.shiftr bits 12) 0x3F) in
    let r6 := charsetAt (Z.land (Z.shiftr bits 6) 0x3F) in
    let r7 := charsetAt (Z.land bits 0x3F) in
    let result := [r0; r1; r2; r3; r4; r5; r6; r7] in
    string_of_list_ascii (take (trimEnd result 8) result).

(** ** CPR *)

(** [a % b] truncates towards zero and panics on [b = 0]. *)
Definition cprModFunction (a b : Z) : outcome Z :=
  if b =? 0 then Panic
  else
    let res := Z.rem a b in
    Ok (if res <? 0 then res + b else res).

Definition cprNLFunction (lat : float) : Z :=
  let lat := if (lat <? 0)%float then (- lat)%float else lat in
  if (lat <? 10.47047130)%float then 59
  else if (lat <? 14.82817437)%float then 58
  else if (lat <? 18.18626357)%float then 57
  else if (lat <? 21.02939493)%float then 56
  else if (lat <? 23.54504487)%float then 55
  else if (lat <? 25.82924707)%float then 54
  else if (lat <? 27.93898710)%float then 53
  else if (lat <? 29.91135686)%float then 52
  else if (lat <? 31.77209708)%float then 51
  else if (lat <? 33.53993436)%float then 50
  else if (lat <? 35.22899598)%float then 49
  else if (lat <? 36.85025108)%float then 48
  else if (lat <? 38.41241892)%float then 47
  else if (lat <? 39.92256684)%float then 46
  else if (lat <? 41.38651832)%float then 45
  else if (lat <? 42.80914012)%float then 44
  else if (lat <? 44.19454951)%float then 43
  else if (lat <? 45.54626723)%float then 42
  else if (lat <? 46.86733252)%float then 41
  else if (lat <? 48.16039128)%float then 40
  else if (lat <? 49.42776439)%float then 39
  else if (lat <? 50.67150166)%float then 38
  else if (lat <? 51.89342469)%float then 37
  else if (lat <? 53.09516153)%float then 36
  else if (lat <? 54.27817472)%float then 35
  else if (lat <? 55.44378444)%float then 34
  else if (lat <? 56.59318756)%float then 33
  else if (lat <? 57.72747354)%float then 32
  else if (lat <? 58.84763776)%float then 31
  else if (lat <? 59.95459277)%float then 30
  else if (lat <? 61.04917774)%float then 29
  else if (lat <? 62.13216659)%float then 28
  else if (lat <? 63.20427479)%float then 27
  else if (lat <? 64.26616523)%float then 26
  else if (lat <? 65.31845310)%float then 25
  else if (lat <? 66.36171008)%float then 24
  else if (lat <? 67.39646774)%float then 23
  else if (lat <? 68.42322022)%float then 22
  else if (lat <? 69.44242631)%float then 21
  else if (lat <? 70.45451075)%float then 20
  else if (lat <? 71.45986473)%float then 19
  else if (lat <? 72.45884545)%float then 18
  else if (lat <? 73.45177442)%float then 17
  else if (lat <? 74.43893416)%float then 16
  else if (lat <? 75.42056257)%float then 15
  else if (lat <? 76.39684391)%float then 14
  else if (lat <? 77.36789461)%float then 13
  else if (lat <? 78.33374083)%float then 12
  else if (lat <? 79.29428225)%float then 11
  else if (lat <? 80.24923213)%float then 10
  else if (lat <? 81.19801349)%float then 9
  else if (lat <? 82.13956981)%float then 8
  else if (lat <? 83.07199445)%float then 7
  else if (lat <? 83.99173563)%float then 6
  else if (lat <? 84.89166191)%float then 5
  else if (lat <? 85.75541621)%float then 4
  else if (lat <? 86.53536998)%float then 3
  else if (lat <? 87.00000000)%float then 2
  else 1.

Definition cprN (lat : float) (odd : bool) : Z :=
  let nl := cprNLFunction lat in
  if negb odd then nl else nl - 1.

Definition cprDlon (lat : float) (odd : bool) : float :=
  (360 / of_int (cprN lat odd))%float.

Definition DecodeCPRPosition (evenPos oddPos : Aircraft.t)
  : outcome (float * float * bool) :=
  if IsZero (Aircraft.EvenCPRTime evenPos) || IsZero (Aircraft.OddCPRTime oddPos)
  then Ok (0%float, 0%float, false)
  else if 10000 <? Z.abs (Milliseconds (Sub (Aircraft.EvenCPRTime evenPos)
                                            (Aircraft.OddCPRTime oddPos)))
  then Ok (0%float, 0%float, false)
  else
    let rlat0 := (of_int (Aircraft.EvenCPRLat evenPos) / 131072)%float in
    let rlat1 := (of_int (Aircraft.OddCPRLat oddPos) / 131072)%float in
    let rlon0 := (of_int (Aircraft.EvenCPRLon evenPos) / 131072)%float in
    let rlon1 := (of_int (Aircraft.OddCPRLon oddPos) / 131072)%float in
    let airDlat0 := (360 / 60)%float in
    let airDlat1 := (360 / 59)%float in
    let j := Floor (59 * rlat0 - 60 * rlat1 + 0.5)%float in
    m60 ← cprModFunction (to_int j) 60;
    m59 ← cprModFunction (to_int j) 59;
    let lat0 := (airDlat0 * (of_int m60 + rlat0))%float in
    let lat1 := (airDlat1 * (of_int m59 + rlat1))%float in
    let lat0 := if (270 <=? lat0)%float then (lat0 - 360)%float else lat0 in
    let lat1 := if (270 <=? lat1)%float then (lat1 - 360)%float else lat1 in
    if (lat0 <? -90)%float || (90 <? lat0)%float
       || (lat1 <? -90)%float || (90 <? lat1)%float
    then Ok (0%float, 0%float, false)
    else if negb (cprNLFunction lat0 =? cprNLFunction lat1)
    then Ok (0%float, 0%float, false)
    else
      let usesOdd :=
        After (Aircraft.OddCPRTime oddPos) (Aircraft.EvenCPRTime evenPos) in
      let lat := if usesOdd then lat1 else lat0 in
      let ni := cprN lat usesOdd in
      if negb (ni =? 0) then
        let m :=
          Floor ((of_int (Aircraft.EvenCPRLon evenPos)
                    * of_int (cprNLFunction lat - 1)
                  - of_int (Aircraft.OddCPRLon oddPos)
                    * of_int (cprNLFunction lat)) / 131072 + 0.5)%float in
        mm ← cprModFunction (to_int m) ni;
        let lon :=
          if usesOdd then (cprDlon lat true * (of_int mm + rlon1))%float
          else (cprDlon lat false * (of_int mm + rlon0))%float in
        let lon := if (180 <? lon)%float then (lon - 360)%float else lon in
        Ok (lat, lon, true)
      else Ok (0%float, 0%float, false).

(** ** The trail *)

Definition addToTrail (now : instant) (aircraft : Aircraft.t) (lat lon : float)
  : Aircraft.t :=
  let pos := Position.mk lat lon (Aircraft.Altitude aircraft)
                         (Aircraft.Heading aircraft) now in
  let trail :=
    if (TrailLength <=? length (Aircraft.Trail aircraft))%nat
    then drop 1 (Aircraft.Trail aircraft)
    else Aircraft.Trail aircraft in
  Aircraft.set_Trail (trail ++ [pos]) aircraft.


(** ** DecodeMessage *)

Definition mathPi : float := 3.141592653589793%float.

(** The raw CPR fields and the odd flag of a position message. *)
Definition rawLatOf (data : list byte) : Z :=
  Z.lor (Z.lor (Z.shiftl (Z.land (at_ data 6) 0x03) 15)
               (Z.shiftl (at_ data 7) 7))
        (Z.shiftr (at_ data 8) 1).

Definition rawLonOf (data : list byte) : Z :=
  Z.lor (Z.lor (Z.shiftl (Z.land (at_ data 8) 0x01) 16)
               (Z.shiftl (at_ data 9) 8))
        (at_ data 10).

Definition oddFlagOf (data : list byte) : bool :=
  negb (Z.land (at_ data 6) 0x04 =? 0).

(** The vertical-rate block shared by the two velocity sub-type families. *)
Definition vertRateOf (data : list byte) (msg : Message.t) : Message.t :=
  let vRateSign := Z.shiftr (Z.land (at_ data 8) 0x08) 3 in
  let vRateData := Z.lor (Z.shiftl (Z.land (at_ data 8) 0x07) 6)
                         (Z.shiftr (at_ data 9) 2) in
  if negb (vRateData =? 0) then
    let vRate := (vRateData - 1) * 64 in
    let vRate := if negb (vRateSign =? 0) then - vRate else vRate in
    Message.set_VertRate vRate msg
  else msg.

Section Decode.

(** [math.Atan2], which the velocity branch calls, is taken as given. *)
Variable Atan2 : float -> float -> float.

(** Type code 19 of [DecodeMessage]. *)
Definition decodeVelocityTC (data : list byte) (msg : Message.t) : Message.t :=
  let subtype := Z.land (at_ data 4) 0x07 in
  if (subtype =? 1) || (subtype =? 2) then
    let ewSign := Z.shiftr (Z.land (at_ data 5) 0x04) 2 in
    let ewVel := Z.lor (Z.shiftl (Z.land (at_ data 5) 0x03) 8) (at_ data 6) in
    let nsSign := Z.shiftr (Z.land (at_ data 7) 0x80) 7 in
    let nsVel := Z.lor (Z.shiftl (Z.land (at_ data 7) 0x7F) 3)
                       (Z.shiftr (at_ data 8) 5) in
    let ewVel :=
      if 0 <? ewVel then
        let ewVel := ewVel - 1 in
        if negb (ewSign =? 0) then - ewVel else ewVel
      else ewVel in
    let nsVel :=
      if 0 <? nsVel then
        let nsVel := nsVel - 1 in
        if negb (nsSign =? 0) then - nsVel else nsVel
      else nsVel in
    let ewVel := if subtype =? 2 then ewVel * 4 else ewVel in
    let nsVel := if subtype =? 2 then nsVel * 4 else nsVel in
    let msg :=
      if negb (ewVel =? 0) || negb (nsVel =? 0) then
        let msg :=
          Message.set_Speed
            (to_int (PrimFloat.sqrt (of_int (ewVel * ewVel + nsVel * nsVel))))
            msg in
        let heading :=
          to_int (Round (Atan2 (of_int ewVel) (of_int nsVel) * 180
                         / mathPi)%float) in
        Message.set_Heading (if heading <? 0 then heading + 360 else heading)
                            msg
      else msg in
    vertRateOf data msg
  else if (subtype =? 3) || (subtype =? 4) then
    let airspeed := Z.lor (Z.shiftl (Z.land (at_ data 7) 0x7f) 3)
                          (Z.shiftr (at_ data 8) 5) in
    let msg :=
      if 0 <? airspeed then
        let airspeed := airspeed - 1 in
        let airspeed := if subtype =? 4 then airspeed * 4 else airspeed in
        Message.set_Speed airspeed msg
      else msg in
    let msg :=
      if negb (Z.land (at_ data 5) 0x04 =? 0) then
        let hdg :=
          Z.shiftr
            ((Z.lor (Z.shiftl (Z.land (at_ data 5) 0x03) 8) (at_ data 6)) * 45)
            7 in
        Message.set_Heading hdg msg
      else msg in
    vertRateOf data msg
  else msg.

(** The extended-squitter body of [DecodeMessage], after the length check. *)
Definition decodeExtendedSquitter (df : Z) (data : list byte) (msg : Message.t)
  : Message.t :=
  let msg :=
    if df =? DF17 then
      let msg := Message.set_CA (Z.land (at_ data 0) 0x07) msg in
      if Message.CA msg =? 4 then Message.set_OnGround true msg
      else if Message.CA msg =? 5 then Message.set_OnGround false msg
      else msg
    else Message.set_CF (Z.land (at_ data 0) 0x07) msg in
  let msg :=
    Message.set_ICAO
      (Z.lor (Z.lor (Z.shiftl (at_ data 1) 16) (Z.shiftl (at_ data 2) 8))
             (at_ data 3)) msg in
  let msg := Message.set_TypeCode (Z.shiftr (at_ data 4) 3) msg in
  let msg := Message.set_SubType (Z.land (at_ data 4) 0x07) msg in
  let tc := Message.TypeCode msg in
  if (1 <=? tc) && (tc <=? 4) then
    Message.set_Flight (decodeAircraftID (take 6 (drop 5 data))) msg
  else if (5 <=? tc) && (tc <=? 8) then
    let msg := Message.set_OnGround true msg in
    let msg := Message.set_RawLat (rawLatOf data) msg in
    let msg := Message.set_RawLon (rawLonOf data) msg in
    let msg := Message.set_OddFlag (oddFlagOf data) msg in
    let movement := Z.lor (Z.shiftl (Z.land (at_ data 4) 0x07) 4)
                          (Z.shiftr (at_ data 5) 4) in
    let msg :=
      if (0 <? movement) && (movement <? 125)
      then Message.set_Speed (decodeGroundMovement movement) msg
      else msg in
    if negb (Z.land (at_ data 5) 0x08 =? 0) then
      let hdg :=
        Z.shiftr
          ((Z.lor (Z.shiftl (Z.land (at_ data 5) 0x07) 4)
                  (Z.shiftr (at_ data 6) 4)) * 45) 4 in
      Message.set_Heading hdg msg
    else msg
  else if (9 <=? tc) && (tc <=? 18) then
    let msg :=
      Message.set_Altitude
        (decodeAC12Field (Z.lor (Z.shiftl (at_ data 5) 4)
                                (Z.shiftr (at_ data 6) 4))) msg in
    let msg := Message.set_RawLat (rawLatOf data) msg in
    let msg := Message.set_RawLon (rawLonOf data) msg in
    Message.set_OddFlag (oddFlagOf data) msg
  else if tc =? 19 then decodeVelocityTC data msg
  else msg.

Definition DecodeMessage (data : list byte) (timestamp : instant)
  : option Message.t :=
  if (length data <? 2)%nat then None
  else
    let df := Z.shiftr (at_ data 0) 3 in
    let msg := newMessage df timestamp in
    if (df =? DF0) || (df =? DF16) then
      if (length data <? 2)%nat then None
      else Some (Message.set_OnGround (negb (Z.land (at_ data 0) 0x04 =? 0)) msg)
    else if (df =? DF4) || (df =? DF20) then
      if (length data <? 4)%nat then None
      else
        let msg := Message.set_FS (Z.land (at_ data 0) 0x07) msg in
        let msg :=
          Message.set_Altitude
            (decodeAC13Field (Z.lor (Z.shiftl (at_ data 2) 8) (at_ data 3)))
            msg in
        Some (Message.set_OnGround (negb (Z.land (Message.FS msg) 0x01 =? 0))
                                   msg)
    else if (df =? DF5) || (df =? DF21) then
      if (length data <? 4)%nat then None
      else
        let msg := Message.set_FS (Z.land (at_ data 0) 0x07) msg in
        let msg :=
          Message.set_ModeA
            (decodeID13Field (Z.lor (Z.shiftl (at_ data 2) 8) (at_ data 3)))
            msg in
        Some (Message.set_OnGround (negb (Z.land (Message.FS msg) 0x01 =? 0))
                                   msg)
    else if df =? DF11 then
      if (length data <? 4)%nat then None
      else
        let msg := Message.set_CA (Z.land (at_ data 0) 0x07) msg in
        let msg :=
          Message.set_ICAO
            (Z.lor (Z.lor (Z.shiftl (at_ data 1) 16) (Z.shiftl (at_ data 2) 8))
                   (at_ data 3)) msg in
        if Message.CA msg =? 4 then Some (Message.set_OnGround false msg)
        else if Message.CA msg =? 5 then Some (Message.set_OnGround true msg)
        else Some msg
    else if (df =? DF17) || (df =? DF18) then
      if (length data <? 14)%nat then None
      else Some (decodeExtendedSquitter df data msg)
    else Some msg.

End Decode.

End Adsb.

(** * The adsb declarations of internal/map_system/map.go *)

Module MapAdsb.
Import GoFloat GoTime.

Definition TrailLength : nat := 120.

Module Position.
Record t : Type := mk {
  Lat : float;
  Lon : float;
  Altitude : Z;
  Heading : Z;
  Timestamp : instant
}.
End Position.

Module Aircraft.
Record t : Type := mk {
  ICAO : Z;
  Flight : string;
  Altitude : Z;
  Speed : Z;
  Heading : Z;
  VertRate : Z;
  Lat : float;
  Lon : float;
  Seen : instant;
  SeenLatLon : instant;
  X : Z;
  Y : Z;
  OnGround : bool;
  SignalLevel : list byte;
  EvenCPRLat : Z;
  EvenCPRLon : Z;
  OddCPRLat : Z;
  OddCPRLon : Z;
  EvenCPRTime : Z;
  OddCPRTime : Z;
  Trail : list Position.t;
  LabelX : float;
  LabelY : float;
  LabelW : float;
  LabelH : float;
  LabelDX : float;
  LabelDY : float;
  LabelOpacity : float;
  LabelLevel : float;
  Messages : Z
}.
Definition set_Flight (v : string) (r : t) : t :=
  mk (ICAO r) v (Altitude r) (Speed r) (Heading r) (VertRate r) (Lat r)
    (Lon r) (Seen r) (SeenLatLon r) (X r) (Y r) (OnGround r) (SignalLevel r)
    (EvenCPRLat r) (EvenCPRLon r) (OddCPRLat r) (OddCPRLon r) (EvenCPRTime r)
    (OddCPRTime r) (Trail r) (LabelX r) (LabelY r) (LabelW r) (LabelH r)
    (LabelDX r) (LabelDY r) (LabelOpacity r) (LabelLevel r) (Messages r).
Definition set_Altitude (v : Z) (r : t) : t :=
  mk (ICAO r) (Flight r) v (Speed r) (Heading r) (VertRate r) (Lat r) (Lon r)
    (Seen r) (SeenLatLon r) (X r) (Y r) (OnGround r) (SignalLevel r)
    (EvenCPRLat r) (EvenCPRLon r) (OddCPRLat r) (OddCPRLon r) (EvenCPRTime r)
    (OddCPRTime r) (Trail r) (LabelX r) (LabelY r) (LabelW r) (LabelH r)
    (LabelDX r) (LabelDY r) (LabelOpacity r) (LabelLevel r) (Messages r).
Definition set_Speed (v : Z) (r : t) : t :=
  mk (ICAO r) (Flight r) (Altitude r) v (Heading r) (VertRate r) (Lat r)
    (Lon r) (Seen r) (SeenLatLon r) (X r) (Y r) (OnGround r) (SignalLevel r)
    (EvenCPRLat r) (EvenCPRLon r) (OddCPRLat r) (OddCPRLon r) (EvenCPRTime r)
    (OddCPRTime r) (Trail r) (LabelX r) (LabelY r) (LabelW r) (LabelH r)
    (LabelDX r) (LabelDY r) (LabelOpacity r) (LabelLevel r) (Messages r).
Definition set_Heading (v : Z) (r : t) : t :=
  mk (ICAO r) (Flight r) (Altitude r) (Speed r) v (VertRate r) (Lat r) (Lon r)
    (Seen r) (SeenLatLon r) (X r) (Y r) (OnGround r) (SignalLevel r)
    (EvenCPRLat r) (EvenCPRLon r) (OddCPRLat r) (OddCPRLon r) (EvenCPRTime r)
    (OddCPRTime r) (Trail r) (LabelX r) (LabelY r) (LabelW r) (LabelH r)
    (LabelDX r) (LabelDY r) (LabelOpacity r) (LabelLevel r) (Messages r).
Definition set_VertRate (v : Z) (r : t) : t :=
  mk (ICAO r) (Flight r) (Altitude r) (Speed r) (Heading r) v (Lat r) (Lon r)
    (Seen r) (SeenLatLon r) (X r) (Y r) (OnGround r) (SignalLevel r)
    (EvenCPRLat r) (EvenCPRLon r) (OddCPRLat r) (OddCPRLon r) (EvenCPRTime r)
    (OddCPRTime r) (Trail r) (LabelX r) (LabelY r) (LabelW r) (LabelH r)
    (LabelDX r) (LabelDY r) (LabelOpacity r) (LabelLevel r) (Messages r).
Definition set_Lat (v : float) (r : t) : t :=
  mk (ICAO r) (Flight r) (Altitude r) (Speed r) (Heading r) (VertRate r) v
    (Lon r) (Seen r) (SeenLatLon r) (X r) (Y r) (OnGround r) (SignalLevel r)
    (EvenCPRLat r) (EvenCPRLon r) (OddCPRLat r) (OddCPRLon r) (EvenCPRTime r)
    (OddCPRTime r) (Trail r) (LabelX r) (LabelY r) (LabelW r) (LabelH r)
    (LabelDX r) (LabelDY r) (LabelOpacity r) (LabelLevel r) (Messages r).
Definition set_Lon (v : float) (r : t) : t :=
  mk (ICAO r) (Flight r) (Altitude r) (Speed r) (Heading r) (VertRate r)
    (Lat r) v (Seen r) (SeenLatLon r) (X r) (Y r) (OnGround r) (SignalLevel r)
    (EvenCPRLat r) (EvenCPRLon r) (OddCPRLat r) (OddCPRLon r) (EvenCPRTime r)
    (OddCPRTime r) (Trail r) (LabelX r) (LabelY r) (LabelW r) (LabelH r)
    (LabelDX r) (LabelDY r) (LabelOpacity r) (LabelLevel r) (Messages r).
Definition set_Seen (v : instant) (r : t) : t :=
  mk (ICAO r) (Flight r) (Altitude r) (Speed r) (Heading r) (VertRate r)
    (Lat r) (Lon r) v (SeenLatLon r) (X r) (Y r) (OnGround r) (SignalLevel r)
    (EvenCPRLat r) (EvenCPRLon r) (OddCPRLat r) (OddCPRLon r) (EvenCPRTime r)
    (OddCPRTime r) (Trail r) (LabelX r) (LabelY r) (LabelW r) (LabelH r)
    (LabelDX r) (LabelDY r) (LabelOpacity r) (LabelLevel r) (Messages r).
Definition set_SeenLatLon (v : instant) (r : t) : t :=
  mk (ICAO r) (Flight r) (Altitude r) (Speed r) (Heading r) (VertRate r)
    (Lat r) (Lon r) (Seen r) v (X r) (Y r) (OnGround r) (SignalLevel r)
    (EvenCPRLat r) (EvenCPRLon r) (OddCPRLat r) (OddCPRLon r) (EvenCPRTime r)
    (OddCPRTime r) (Trail r) (LabelX r) (LabelY r) (LabelW r) (LabelH r)
    (LabelDX r) (LabelDY r) (LabelOpacity r) (LabelLevel r) (Messages r).
Definition set_SignalLevel (v : list byte) (r : t) : t :=
  mk (ICAO r) (Flight r) (Altitude r) (Speed r) (Heading r) (VertRate r)
    (Lat r) (Lon r) (Seen r) (SeenLatLon r) (X r) (Y r) (OnGround r) v
    (EvenCPRLat r) (EvenCPRLon r) (OddCPRLat r) (OddCPRLon r) (EvenCPRTime r)
    (OddCPRTime r) (Trail r) (LabelX r) (LabelY r) (LabelW r) (LabelH r)
    (LabelDX r) (LabelDY r) (LabelOpacity r) (LabelLevel r) (Messages r).
Definition set_EvenCPRLat (v : Z) (r : t) : t :=
  mk (ICAO r) (Flight r) (Altitude r) (Speed r) (Heading r) (VertRate r)
    (Lat r) (Lon r) (Seen r) (SeenLatLon r) (X r) (Y r) (OnGround r)
    (SignalLevel r) v (EvenCPRLon r) (OddCPRLat r) (OddCPRLon r)
    (EvenCPRTime r) (OddCPRTime r) (Trail r) (LabelX r) (LabelY r) (LabelW r)
    (LabelH r) (LabelDX r) (LabelDY r) (LabelOpacity r) (LabelLevel r)
    (Messages r).
Definition set_EvenCPRLon (v : Z) (r : t) : t :=
  mk (ICAO r) (Flight r) (Altitude r) (Speed r) (Heading r) (VertRate r)
    (Lat r) (Lon r) (Seen r) (SeenLatLon r) (X r) (Y r) (OnGround r)
    (SignalLevel r) (EvenCPRLat r) v (OddCPRLat r) (OddCPRLon r)
    (EvenCPRTime r) (OddCPRTime r) (Trail r) (LabelX r) (LabelY r) (LabelW r)
    (LabelH r) (LabelDX r) (LabelDY r) (LabelOpacity r) (LabelLevel r)
    (Messages r).
Definition set_OddCPRLat (v : Z) (r : t) : t :=
  mk (ICAO r) (Flight r) (Altitude r) (Speed r) (Heading r) (VertRate r)
    (Lat r) (Lon r) (Seen r) (SeenLatLon r) (X r) (Y r) (OnGround r)
    (SignalLevel r) (EvenCPRLat r) (EvenCPRLon r) v (OddCPRLon r)
    (EvenCPRTime r) (OddCPRTime r) (Trail r) (LabelX r) (LabelY r) (LabelW r)
    (LabelH r) (LabelDX r) (LabelDY r) (LabelOpacity r) (LabelLevel r)
    (Messages r).
Definition set_OddCPRLon (v : Z) (r : t) : t :=
  mk (ICAO r) (Flight r) (Altitude r) (Speed r) (Heading r) (VertRate r)
    (Lat r) (Lon r) (Seen r) (SeenLatLon r) (X r) (Y r) (OnGround r)
    (SignalLevel r) (EvenCPRLat r) (EvenCPRLon r) (OddCPRLat r) v
    (EvenCPRTime r) (OddCPRTime r) (Trail r) (LabelX r) (LabelY r) (LabelW r)
    (LabelH r) (LabelDX r) (LabelDY r) (LabelOpacity r) (LabelLevel r)
    (Messages r).
Definition set_EvenCPRTime (v : Z) (r : t) : t :=
  mk (ICAO r) (Flight r) (Altitude r) (Speed r) (Heading r) (VertRate r)
    (Lat r) (Lon r) (Seen r) (SeenLatLon r) (X r) (Y r) (OnGround r)
    (SignalLevel r) (EvenCPRLat r) (EvenCPRLon r) (OddCPRLat r) (OddCPRLon r)
    v (OddCPRTime r) (Trail r) (LabelX r) (LabelY r) (LabelW r) (LabelH r)
    (LabelDX r) (LabelDY r) (LabelOpacity r) (LabelLevel r) (Messages r).
Definition set_OddCPRTime (v : Z) (r : t) : t :=
  mk (ICAO r) (Flight r) (Altitude r) (Speed r) (Heading r) (VertRate r)
    (Lat r) (Lon r) (Seen r) (SeenLatLon r) (X r) (Y r) (OnGround r)
    (SignalLevel r) (EvenCPRLat r) (EvenCPRLon r) (OddCPRLat r) (OddCPRLon r)
    (EvenCPRTime r) v (Trail r) (LabelX r) (LabelY r) (LabelW r) (LabelH r)
    (LabelDX r) (LabelDY r) (LabelOpacity r) (LabelLevel r) (Messages r).
Definition set_Trail (v : list Position.t) (r : t) : t :=
  mk (ICAO r) (Flight r) (Altitude r) (Speed r) (Heading r) (VertRate r)
    (Lat r) (Lon r) (Seen r) (SeenLatLon r) (X r) (Y r) (OnGround r)
    (SignalLevel r) (EvenCPRLat r) (EvenCPRLon r) (OddCPRLat r) (OddCPRLon r)
    (EvenCPRTime r) (OddCPRTime r) v (LabelX r) (LabelY r) (LabelW r)
    (LabelH r) (LabelDX r) (LabelDY r) (LabelOpacity r) (LabelLevel r)
    (Messages r).
Definition set_Messages (v : Z) (r : t) : t :=
  mk (ICAO r) (Flight r) (Altitude r) (Speed r) (Heading r) (VertRate r)
    (Lat r) (Lon r) (Seen r) (SeenLatLon r) (X r) (Y r) (OnGround r)
    (SignalLevel r) (EvenCPRLat r) (EvenCPRLon r) (OddCPRLat r) (OddCPRLon r)
    (EvenCPRTime r) (OddCPRTime r) (Trail r) (LabelX r) (LabelY r) (LabelW r)
    (LabelH r) (LabelDX r) (LabelDY r) (LabelOpacity r) (LabelLevel r) v.
End Aircraft.

Module Message.
Record t : Type := mk {
  DF : Z;
  CA : Z;
  CF : Z;
  FS : Z;
  ModeA : Z;
  ICAO : Z;
  TypeCode : Z;
  SubType : Z;
  Flight : string;
  Altitude : Z;
  Speed : Z;
  Heading : Z;
  VertRate : Z;
  Lat : float;
  Lon : float;
  RawLat : Z;
  RawLon : Z;
  OddFlag : bool;
  OnGround : bool;
  SignalLevel : byte;
  Timestamp : instant;
  CRC : Z;
  IID : Z;
  Valid : bool
}.
End Message.

(** Pointers to aircraft objects. *)
Abbreviation loc := positive (only parsing).

Record AircraftMap : Type := mkAircraftMap {
  mem : gmap loc Aircraft.t;
  data : gmap Z loc
}.

Definition NewAircraftMap : AircraftMap := mkAircraftMap ∅ ∅.

Definition Get (icao : Z) (am : AircraftMap) : option loc := data am !! icao.

Definition newAircraft (icao : Z) (now : instant) : Aircraft.t :=
  Aircraft.mk icao EmptyString 0 0 0 0 0%float 0%float now zero 0 0 false
    (replicate 8 x00) 0 0 0 0 0 0 [] 0%float 0%float 0%float 0%float
    0%float 0%float 0%float 0%float 0.

Definition GetOrCreate (now : instant) (icao : Z) (am : AircraftMap)
  : loc * AircraftMap :=
  match data am !! icao with
  | Some aircraft => (aircraft, am)
  | None =>
      let aircraft := fresh (dom (mem am)) in
      (aircraft,
       mkAircraftMap (<[aircraft := newAircraft icao now]> (mem am))
                     (<[icao := aircraft]> (data am)))
  end.

Definition Len (am : AircraftMap) : nat := size (data am).

(** Every pointer the map holds reaches an object (none is nil). *)
Definition validPointers (am : AircraftMap) : Prop :=
  forall icao p, data am !! icao = Some p -> is_Some (mem am !! p).

Definition sweepStep (m : gmap loc Aircraft.t) (now : instant) (ttl : Duration)
  (icao : Z) (aircraft : loc) (acc : outcome (gmap Z loc))
  : outcome (gmap Z loc) :=
  d ← acc;
  match m !! aircraft with
  | Some a =>
      if ttl <? Sub now (Aircraft.Seen a) then Ok (delete icao d) else Ok d
  | None => Panic
  end.

Definition RemoveStale (now : instant) (ttl : Duration) (am : AircraftMap)
  : outcome AircraftMap :=
  d ← map_fold (sweepStep (mem am) now ttl) (Ok (data am)) (data am);
  Ok (mkAircraftMap (mem am) d).

Definition Copy (am : AircraftMap) : gmap Z loc := data am.

(** ** CPR with the lookup table *)

Definition NL_LOOKUP_TABLE_SIZE : Z := 90.

Definition nl_table : list Z :=
  [ 59; 59; 59; 59; 59; 59; 59; 59; 59; 58; 58; 58; 58; 58; 57; 57;
    57; 57; 57; 57; 56; 56; 56; 56; 56; 56; 55; 55; 55; 55; 55; 54; 54; 54; 54;
    54; 53; 53; 53; 53; 52; 52; 52; 52; 51; 51; 51; 51; 50; 50; 50; 49; 49; 49;
    48; 48; 48; 47; 47; 47; 46; 46; 46; 45; 45; 44; 44; 44; 43; 43; 42; 42; 41;
    41; 41; 40; 40; 39; 39; 38; 38; 37; 37; 36; 36; 35; 35; 34; 34; 33 ].

Definition cprModFunction (a b : Z) : outcome Z :=
  if b =? 0 then Panic
  else
    let res := Z.rem a b in
    Ok (if res <? 0 then res + b else res).

(** [nl_table[int(lat)]] panics when the index leaves the table. *)
Definition cprNLFunction (lat : float) : outcome Z :=
  let lat := if (lat <? 0)%float then (- lat)%float else lat in
  let lat := Round lat in
  if (of_int NL_LOOKUP_TABLE_SIZE <=? lat)%float then Ok 1
  else
    let i := to_int lat in
    if i <? 0 then Panic
    else
      match nl_table !! Z.to_nat i with
      | Some nl => Ok nl
      | None => Panic
      end.

Definition cprNFunction (lat : float) (odd : bool) : outcome Z :=
  nl ← cprNLFunction lat;
  Ok (if odd then nl - 1 else nl).

Definition cprDlonFunction (lat : float) (odd surface : bool) : outcome float :=
  n ← cprNFunction lat odd;
  Ok (if surface then (90 / of_int n)%float else (360 / of_int n)%float).

Definition DecodeCPRPosition (evenLat evenLon oddLat oddLon : Z) (lastOdd : bool)
  : outcome (float * float * bool) :=
  let airDlat0 := (360 / 60)%float in
  let airDlat1 := (360 / 59)%float in
  let rlat0 := (of_int evenLat / 131072)%float in
  let rlat1 := (of_int oddLat / 131072)%float in
  let rlon0 := (of_int evenLon / 131072)%float in
  let rlon1 := (of_int oddLon / 131072)%float in
  let j := to_int (Floor ((59 * rlat0 - 60 * rlat1) / 1 + 0.5)%float) in
  m60 ← cprModFunction j 60;
  let lat0 := (airDlat0 * (of_int m60 + rlat0))%float in
  m59 ← cprModFunction j 59;
  let lat1 := (airDlat1 * (of_int m59 + rlat1))%float in
  let lat0 := if (270 <=? lat0)%float then (lat0 - 360)%float else lat0 in
  let lat1 := if (270 <=? lat1)%float then (lat1 - 360)%float else lat1 in
  nl0 ← cprNLFunction lat0;
  nl1 ← cprNLFunction lat1;
  if negb (nl0 =? nl1) then Ok (0%float, 0%float, false)
  else
    let lat := if lastOdd then lat1 else lat0 in
    if (lat <? -90)%float || (90 <? lat)%float then Ok (0%float, 0%float, false)
    else
      if lastOdd then
        ni ← cprNFunction lat true;
        if ni =? 0 then Ok (0%float, 0%float, false)
        else
          nlA ← cprNLFunction lat;
          nlB ← cprNLFunction lat;
          let m :=
            to_int (Floor ((rlon0 * of_int (nlA - 1) - rlon1 * of_int nlB) / 1
                           + 0.5)%float) in
          dlon ← cprDlonFunction lat true false;
          mm ← cprModFunction m ni;
          let lon := (dlon * (of_int mm + rlon1))%float in
          let lon := if (180 <? lon)%float then (lon - 360)%float else lon in
          Ok (lat, lon, true)
      else
        ni ← cprNFunction lat false;
        if ni =? 0 then Ok (0%float, 0%float, false)
        else
          nlA ← cprNLFunction lat;
          nlB ← cprNLFunction lat;
          let m :=
            to_int (Floor ((rlon0 * of_int (nlA - 1) - rlon1 * of_int nlB) / 1
                           + 0.5)%float) in
          dlon ← cprDlonFunction lat false false;
          mm ← cprModFunction m ni;
          let lon := (dlon * (of_int mm + rlon0))%float in
          let lon := if (180 <? lon)%float then (lon - 360)%float else lon in
          Ok (lat, lon, true).

(** ** Field decoders *)

Definition charset : string :=
  "?ABCDEFGHIJKLMNOPQRSTUVWXYZ????? ???????????????0123456789??????".

Definition charsetAt (i : Z) : ascii :=
  match String.get (Z.to_nat i) charset with
  | Some c => c
  | None => "?"%char
  end.

Fixpoint trimEnd (callsign : list ascii) (n : nat) : nat :=
  match n with
  | O => O
  | S i =>
      if Ascii.eqb (nth i callsign " "%char) " "%char then trimEnd callsign i
      else S i
  end.

Definition DecodeCallsign (data : list byte) : string :=
  if (length data <? 6)%nat then EmptyString
  else
    let bits := Z.lor (Z.lor (Z.shiftl (at_ data 0) 16)
                             (Z.shiftl (at_ data 1) 8)) (at_ data 2) in
    let c0 := charsetAt (Z.land (Z.shiftr bits 18) 0x3F) in
    let c1 := charsetAt (Z.land (Z.shiftr bits 12) 0x3F) in
    let c2 := charsetAt (Z.land (Z.shiftr bits 6) 0x3F) in
    let c3 := charsetAt (Z.land bits 0x3F) in
    let bits := Z.lor (Z.lor (Z.shiftl (at_ data 3) 16)
                             (Z.shiftl (at_ data 4) 8)) (at_ data 5) in
    let c4 := charsetAt (Z.land (Z.shiftr bits 18) 0x3F) in
    let c5 := charsetAt (Z.land (Z.shiftr bits 12) 0x3F) in
    let c6 := charsetAt (Z.land (Z.shiftr bits 6) 0x3F) in
    let c7 := charsetAt (Z.land bits 0x3F) in
    let callsign := [c0; c1; c2; c3; c4; c5; c6; c7] in
    string_of_list_ascii (take (trimEnd callsign 8) callsign).

(** The 12-bit field as [DecodeAltitude] assembles it from bytes 5 and 6. *)
Definition ac12FieldOf (data : list byte) : Z :=
  Z.lor (Z.shiftl (Z.land (at_ data 5) 0x1F) 7)
        (Z.shiftr (Z.land (at_ data 6) 0xFE) 1).

Definition DecodeAltitude (data : list byte) : Z :=
  if (length data <? 7)%nat then 0
  else
    let ac12Field := ac12FieldOf data in
    let qBit := negb (Z.land ac12Field 0x10 =? 0) in
    if qBit then
      let n := Z.lor (Z.shiftr (Z.land ac12Field 0x0FE0) 1)
                     (Z.land ac12Field 0x000F) in
      n * 25 - 1000
    else 0.

Definition mathPi : float := 3.141592653589793%float.

Section Velocity.

Variable Atan2 : float -> float -> float.

Definition DecodeVelocity (data : list byte) : Z * Z * Z * bool :=
  if (length data <? 10)%nat then (0, 0, 0, false)
  else
    let subtype := Z.land (at_ data 4) 0x07 in
    if (subtype <? 1) || (4 <? subtype) then (0, 0, 0, false)
    else
      let vertRateBit := negb (Z.land (at_ data 8) 0x08 =? 0) in
      let vertRateRaw := Z.lor (Z.shiftl (Z.land (at_ data 8) 0x07) 6)
                               (Z.shiftr (at_ data 9) 2) in
      let vertRate :=
        if negb (vertRateRaw =? 0) then
          let vertRateRaw := vertRateRaw - 1 in
          let vertRateRaw := if vertRateBit then - vertRateRaw
                             else vertRateRaw in
          vertRateRaw * 64
        else 0 in
      if (subtype =? 1) || (subtype =? 2) then
        let ewSign := negb (Z.land (at_ data 5) 0x04 =? 0) in
        let ewRaw := Z.lor (Z.shiftl (Z.land (at_ data 5) 0x03) 8)
                           (at_ data 6) in
        let ewVel := ewRaw - 1 in
        let ewVel := if ewSign then - ewVel else ewVel in
        let nsSign := negb (Z.land (at_ data 7) 0x80 =? 0) in
        let nsRaw := Z.lor (Z.shiftl (Z.land (at_ data 7) 0x7F) 3)
                           (Z.shiftr (at_ data 8) 5) in
        let nsVel := nsRaw - 1 in
        let nsVel := if nsSign then - nsVel else nsVel in
        let ewVel := if subtype =? 2 then ewVel * 4 else ewVel in
        let nsVel := if subtype =? 2 then nsVel * 4 else nsVel in
        let speed :=
          to_int (PrimFloat.sqrt (of_int (ewVel * ewVel + nsVel * nsVel))) in
        let heading :=
          if 0 <? speed then
            let heading :=
              to_int (Round (Atan2 (of_int ewVel) (of_int nsVel) * 180
                             / mathPi)%float) in
            if heading <? 0 then heading + 360 else heading
          else 0 in
        (speed, heading, vertRate, true)
      else if (subtype =? 3) || (subtype =? 4) then
        let airspeed := Z.lor (Z.shiftl (Z.land (at_ data 7) 0x7F) 3)
                              (Z.shiftr (at_ data 8) 5) in
        let speed :=
          if negb (airspeed =? 0) then
            let airspeed := airspeed - 1 in
            if subtype =? 4 then airspeed * 4 else airspeed
          else 0 in
        let heading :=
          if negb (Z.land (at_ data 5) 0x04 =? 0) then
            let hdgRaw := Z.lor (Z.shiftl (Z.land (at_ data 5) 0x03) 8)
                                (at_ data 6) in
            Z.quot (hdgRaw * 360) 1024
          else 0 in
        (speed, heading, vertRate, true)
      else (0, 0, 0, false).

End Velocity.

End MapAdsb.

(** * internal/app: processModeS and the periodic sweep *)

Module App.
Import GoFloat GoTime.
Import MapAdsb.

(** A byte slice: the bytes within its length, and the bytes of its backing
    array between length and capacity, which a reslice can reach. *)
Record slice : Type := mkSlice {
  visible : list byte;
  beyond : list byte
}.

Definition len (s : slice) : nat := length (visible s).
Definition cap (s : slice) : nat := (length (visible s) + length (beyond s))%nat.

(** [s[lo:hi]] panics unless [lo <= hi <= cap(s)]. *)
Definition reslice (s : slice) (lo hi : nat) : outcome (list byte) :=
  if (lo <=? hi)%nat && (hi <=? cap s)%nat
  then Ok (take (hi - lo) (drop lo (visible s ++ beyond s)))
  else Panic.

(** The configuration fields the modelled functions read. *)
Record Config : Type := mkConfig {
  TrailLength : Z;
  DisplayTTL : Z
}.

(** The application state the modelled functions touch; [ticks] counts the
    readings of the clock taken so far. *)
Record t : Type := mk {
  config : Config;
  aircraft : AircraftMap;
  lastCleanup : instant;
  msgRateAcc : float;
  sigAcc : float;
  ticks : nat
}.

Definition set_aircraft (v : AircraftMap) (a : t) : t :=
  mk (config a) v (lastCleanup a) (msgRateAcc a) (sigAcc a) (ticks a).
Definition set_lastCleanup (v : instant) (a : t) : t :=
  mk (config a) (aircraft a) v (msgRateAcc a) (sigAcc a) (ticks a).
Definition set_msgRateAcc (v : float) (a : t) : t :=
  mk (config a) (aircraft a) (lastCleanup a) v (sigAcc a) (ticks a).
Definition set_sigAcc (v : float) (a : t) : t :=
  mk (config a) (aircraft a) (lastCleanup a) (msgRateAcc a) v (ticks a).
Definition set_ticks (v : nat) (a : t) : t :=
  mk (config a) (aircraft a) (lastCleanup a) (msgRateAcc a) (sigAcc a) v.

(** Every track of the store is allocated and has a message count that
    has not wrapped around. *)
Definition validState (a : t) : Prop :=
  forall icao p, data (aircraft a) !! icao = Some p ->
    exists ac, mem (aircraft a) !! p = Some ac /\ 0 <= Aircraft.Messages ac.

(** A method of [*App]: it returns a value and a new state, or panics. *)
Definition M (A : Type) : Type := t -> outcome (A * t).

#[global] Instance M_ret : MRet M := fun _ x a => Ok (x, a).
#[global] Instance M_bind : MBind M := fun _ _ f m a =>
  match m a with
  | Ok (x, a') => f x a'
  | Panic => Panic
  end.

Definition lift {A : Type} (o : outcome A) : M A := fun a =>
  match o with
  | Ok x => Ok (x, a)
  | Panic => Panic
  end.

Definition gets {A : Type} (f : t -> A) : M A := fun a => Ok (f a, a).
Definition modify (f : t -> t) : M unit := fun a => Ok (tt, f a).
Definition getConfig : M Config := gets config.

(** Unix time zero, in nanoseconds from the zero instant. *)
Definition unixEpoch : instant := 62135596800 * 1000000000.

(** [t.UnixNano()]. *)
Definition UnixNano (i : instant) : Z := wrap64 (i - unixEpoch).

(** Reading through a pointer, and writing through it. *)
Definition deref (p : loc) : M Aircraft.t := fun a =>
  match mem (aircraft a) !! p with
  | Some x => Ok (x, a)
  | None => Panic
  end.

Definition update (p : loc) (f : Aircraft.t -> Aircraft.t) : M unit := fun a =>
  match mem (aircraft a) !! p with
  | Some x =>
      Ok (tt, set_aircraft (mkAircraftMap (<[p := f x]> (mem (aircraft a)))
                                           (data (aircraft a))) a)
  | None => Panic
  end.

(** The trail update of processModeS: drop the oldest sample when the trail
    has reached the configured length, then append. *)
Definition appendTrail (trailLength : Z) (lat lon : float) (now : instant)
  (a : Aircraft.t) : outcome Aircraft.t :=
  trail ←
    (if trailLength <=? Z.of_nat (length (Aircraft.Trail a)) then
       match Aircraft.Trail a with
       | [] => Panic
       | _ :: rest => Ok rest
       end
     else Ok (Aircraft.Trail a));
  Ok (Aircraft.set_Trail
        (trail ++ [Position.mk lat lon (Aircraft.Altitude a)
                               (Aircraft.Heading a) now]) a).

Section Clock.

(** [wall k] is what the k-th call of [time.Now()] returns. *)
Variable wall : nat -> instant.
Variable Atan2 : float -> float -> float.

Definition timeNow : M instant := fun a =>
  Ok (wall (ticks a), set_ticks (S (ticks a)) a).

(** [a.aircraft.GetOrCreate(icao)]; the clock is read only to create. *)
Definition getOrCreate (icao : Z) : M loc := fun a =>
  match Get icao (aircraft a) with
  | Some p => Ok (p, a)
  | None =>
      let '(p, am) := GetOrCreate (wall (ticks a)) icao (aircraft a) in
      Ok (p, set_ticks (S (ticks a)) (set_aircraft am a))
  end.

(** The position update once both parities are stored. *)
Definition resolvePosition (odd : bool) (p : loc) : M unit :=
  ac ← deref p;
  if (0 <? Aircraft.EvenCPRTime ac) && (0 <? Aircraft.OddCPRTime ac) then
    if Z.abs (Aircraft.EvenCPRTime ac - Aircraft.OddCPRTime ac) <=? 10000 then
      r ← lift (DecodeCPRPosition (Aircraft.EvenCPRLat ac) (Aircraft.EvenCPRLon ac)
                                  (Aircraft.OddCPRLat ac) (Aircraft.OddCPRLon ac)
                                  odd);
      let '(lat, lon, ok) := r in
      if ok : bool then
        update p (Aircraft.set_Lat lat);;
        update p (Aircraft.set_Lon lon);;
        now ← timeNow;
        update p (Aircraft.set_SeenLatLon now);;
        cfg ← getConfig;
        now ← timeNow;
        ac ← deref p;
        ac ← lift (appendTrail (TrailLength cfg) lat lon now ac);
        update p (fun _ => ac)
      else mret tt
    else mret tt
  else mret tt.

(** processModeS, lines 160-228: the type-code dispatch on the body. *)
Definition decodeBody (data : slice) (p : loc) : M unit :=
  if (5 <=? len data)%nat then
    let metype := Z.shiftr (at_ (visible data) 4) 3 in
    if (1 <=? metype) && (metype <=? 4) then
      body ← lift (reslice data 5 11);
      let callsign := DecodeCallsign body in
      if negb (String.eqb callsign EmptyString)
      then update p (Aircraft.set_Flight callsign)
      else mret tt
    else if (9 <=? metype) && (metype <=? 18) then
      let alt := DecodeAltitude (visible data) in
      (if negb (alt =? 0) then update p (Aircraft.set_Altitude alt)
       else mret tt);;
      d6 ← lift (index (visible data) 6);
      d7 ← lift (index (visible data) 7);
      d8 ← lift (index (visible data) 8);
      let cprLat := Z.lor (Z.lor (Z.shiftl (Z.land d6 0x03) 15)
                                 (Z.shiftl d7 7)) (Z.shiftr d8 1) in
      d9 ← lift (index (visible data) 9);
      d10 ← lift (index (visible data) 10);
      let cprLon := Z.lor (Z.lor (Z.shiftl (Z.land d8 0x01) 16)
                                 (Z.shiftl d9 8)) d10 in
      let odd := negb (Z.land d6 0x04 =? 0) in
      (if odd then
         update p (Aircraft.set_OddCPRLat cprLat);;
         update p (Aircraft.set_OddCPRLon cprLon);;
         now ← timeNow;
         update p (Aircraft.set_OddCPRTime (Z.quot (UnixNano now) Millisecond))
       else
         update p (Aircraft.set_EvenCPRLat cprLat);;
         update p (Aircraft.set_EvenCPRLon cprLon);;
         now ← timeNow;
         update p (Aircraft.set_EvenCPRTime (Z.quot (UnixNano now) Millisecond)));;
      resolvePosition odd p
    else if metype =? 19 then
      let '(speed, heading, vertRate, ok) :=
        DecodeVelocity Atan2 (visible data) in
      if ok : bool then
        update p (Aircraft.set_Speed speed);;
        update p (Aircraft.set_Heading heading);;
        update p (Aircraft.set_VertRate vertRate)
      else mret tt
    else mret tt
  else mret tt.

(** processModeS, lines 230-237: last-seen time, signal level, counters. *)
Definition recordMessage (mm : Message.t) (p : loc) : M unit :=
  now ← timeNow;
  update p (Aircraft.set_Seen now);;
  ac ← deref p;
  let i := Z.rem (Aircraft.Messages ac) 8 in
  (if i <? 0 then lift Panic
   else update p (Aircraft.set_SignalLevel
                    (<[Z.to_nat i := Message.SignalLevel mm]>
                       (Aircraft.SignalLevel ac))));;
  ac ← deref p;
  update p (Aircraft.set_Messages (wrap64 (Aircraft.Messages ac + 1)));;
  modify (fun a => set_msgRateAcc (msgRateAcc a + 1)%float a);;
  modify (fun a =>
            set_sigAcc (sigAcc a + of_int (u8 (Message.SignalLevel mm)))%float
                       a).

Definition processModeS (data : slice) (timestamp : Z) : M unit :=
  if (len data <? 4)%nat then mret tt
  else
    let df := Z.shiftr (at_ (visible data) 0) 3 in
    if negb (df =? 17) && negb (df =? 18) then mret tt
    else
      let icao := Z.lor (Z.lor (Z.shiftl (at_ (visible data) 1) 16)
                               (Z.shiftl (at_ (visible data) 2) 8))
                        (at_ (visible data) 3) in
      now ← timeNow;
      let mm := Message.mk df 0 0 0 0 icao 0 0 EmptyString 0 0 0 0 0%float
                           0%float 0 0 false false x64 now 0 0 false in
      p ← getOrCreate icao;
      decodeBody data p;;
      recordMessage mm p.

(** cleanupStaleAircraft: at most one sweep per second. *)
Definition cleanupStaleAircraft : M unit :=
  now ← timeNow;
  last ← gets lastCleanup;
  if Sub now last <? Second then mret tt
  else
    modify (set_lastCleanup now);;
    cfg ← getConfig;
    let ttl := wrap64 (wrap64 (DisplayTTL cfg) * Second) in
    now ← timeNow;
    am ← gets aircraft;
    am ← lift (RemoveStale now ttl am);
    modify (set_aircraft am).

End Clock.

End App.

(** * The Beast frame protocol *)

Module Beast.

(** Beast message types and the escape character (mock server constants). *)
Definition ModeAC : byte := x31.
Definition ModeShort : byte := x32.
Definition ModeLong : byte := x33.
Definition EscapeChar : byte := x1a.

(** [buf = append(buf, b); if b == EscapeChar { buf = append(buf, b) }]. *)
Definition appendEscaped (buf : list byte) (b : byte) : list byte :=
  let buf := buf ++ [b] in
  if Byte.eqb b EscapeChar then buf ++ [b] else buf.

(** The mock server's encoder; [timestamp] is a uint64. *)
Definition encodeBeastMessage (msgType : byte) (data : list byte)
  (timestamp : Z) (signalLevel : byte) : list byte :=
  let buf := [] in
  let buf := buf ++ [EscapeChar; msgType] in
  let buf :=
    foldl (fun buf i =>
             let b := byte_of_Z (Z.land (Z.shiftr timestamp (8 * i)) 0xFF) in
             appendEscaped buf b)
          buf [5; 4; 3; 2; 1; 0] in
  let buf := appendEscaped buf signalLevel in
  let buf := foldl appendEscaped buf data in
  buf.

(** ** Frames and the frame decoder *)

(** Modelled from the spec: the frame kinds of the data model (section 3);
    internal/beast, which declares them, is not among the sources. *)
Inductive FrameKind : Type := ShortAC | ShortModeS | LongModeS.

(** Modelled from the spec: the Frame of the data model (section 3). *)
Record Frame : Type := mkFrame {
  kind : FrameKind;
  timestamp : Z;
  signal_level : byte;
  payload : list byte
}.

(** Modelled from the spec: the payload length the kind fixes (2, 7 or 14
    bytes, sections 3 and 4.1). *)
Definition payloadLength (k : FrameKind) : nat :=
  match k with
  | ShortAC => 2
  | ShortModeS => 7
  | LongModeS => 14
  end.

(** The kind byte on the wire, by the mock server's message types. *)
Definition kindByte (k : FrameKind) : byte :=
  match k with
  | ShortAC => ModeAC
  | ShortModeS => ModeShort
  | LongModeS => ModeLong
  end.

(** Modelled from the spec: the byte after the escape selects the kind. *)
Definition kindOfByte (b : byte) : option FrameKind :=
  if Byte.eqb b ModeAC then Some ShortAC
  else if Byte.eqb b ModeShort then Some ShortModeS
  else if Byte.eqb b ModeLong then Some LongModeS
  else None.

(** A frame as the data model has it: the payload length is the one its
    kind fixes, and the timestamp is a uint64. *)
Definition wellFormed (f : Frame) : Prop :=
  length (payload f) = payloadLength (kind f) /\ 0 <= timestamp f < 2 ^ 64.

(** A frame on the wire, through the mock server's encoder. *)
Definition encode (f : Frame) : list byte :=
  encodeBeastMessage (kindByte (kind f)) (payload f) (timestamp f)
                     (signal_level f).

(** Modelled from the spec: the frame decoder of internal/beast, which is
    not among the sources.  Section 4.1: a frame begins with the escape byte
    0x1A; the next byte selects the kind, which fixes the payload length;
    then come a 6-byte big-endian timestamp, one signal-level byte and the
    payload, all byte-stuffed: a doubled 0x1A inside them collapses to one
    byte.  [readStuffed n s] reads [n] such bytes off the stream; running
    out of bytes inside a frame, or a lone escape inside a field, is a
    framing error. *)
Fixpoint readStuffed (n : nat) (s : list byte) : option (list byte * list byte) :=
  match n with
  | O => Some ([], s)
  | S n' =>
      match s with
      | [] => None
      | b :: s' =>
          if Byte.eqb b EscapeChar then
            match s' with
            | b' :: s'' =>
                if Byte.eqb b' EscapeChar then
                  match readStuffed n' s'' with
                  | Some (out, rest) => Some (b :: out, rest)
                  | None => None
                  end
                else None
            | [] => None
            end
          else
            match readStuffed n' s' with
            | Some (out, rest) => Some (b :: out, rest)
            | None => None
            end
      end
  end.

(** Modelled from the spec: a big-endian number from its bytes. *)
Definition bigEndian (bs : list byte) : Z :=
  foldl (fun acc b => acc * 256 + u8 b) 0 bs.

(** Modelled from the spec: one step of the frame decoder of
    internal/beast (section 4.1), returning the frame and the rest of the
    stream, or nothing on a framing error. *)
Definition decodeFrame (s : list byte) : option (Frame * list byte) :=
  match s with
  | e :: k :: s' =>
      if Byte.eqb e EscapeChar then
        match kindOfByte k with
        | Some kd =>
            match readStuffed (6 + 1 + payloadLength kd) s' with
            | Some (fields, rest) =>
                Some (mkFrame kd (bigEndian (take 6 fields))
                              (nth 6 fields x00) (drop 7 fields),
                      rest)
            | None => None
            end
        | None => None
        end
      else None
  | _ => None
  end.

End Beast.

(** * The specification's own definitions, for comparison with the code *)

Module Spec.

(** N: a 12-bit altitude field with the Q-bit (bit 4, value 0x10) removed. *)
Definition removeQBit (field : Z) : Z := field / 32 * 16 + field mod 16.

(** The 48 bits of a 6-byte identification payload, most significant first. *)
Definition bits48 (data : list byte) : Z :=
  foldl (fun acc b => acc * 256 + u8 b) 0 (take 6 data).

(** The k-th six-bit group of the 48 bits, k = 0 .. 7 from the top. *)
Definition sixBitGroup (data : list byte) (k : nat) : Z :=
  (bits48 data / 2 ^ (42 - 6 * Z.of_nat k)) mod 64.

Definition icaoCharset : string :=
  "?ABCDEFGHIJKLMNOPQRSTUVWXYZ????? ???????????????0123456789??????".

Definition icaoChar (group : Z) : ascii :=
  match String.get (Z.to_nat group) icaoCharset with
  | Some c => c
  | None => "?"%char
  end.

(** Trailing spaces removed. *)
Fixpoint trimRight (l : list ascii) : list ascii :=
  match l with
  | [] => []
  | c :: l' =>
      match trimRight l' with
      | [] => if Ascii.eqb c " "%char then [] else [c]
      | r => c :: r
      end
  end.

(** The eight characters of a payload, before trimming. *)
Definition callsignChars (data : list byte) : list ascii :=
  map (fun k => icaoChar (sixBitGroup data k)) (seq 0 8).

Definition callsignOf (data : list byte) : string :=
  string_of_list_ascii (trimRight (callsignChars data)).

(** The last [n] elements of a list. *)
Definition lastN {A : Type} (n : nat) (l : list A) : list A :=
  drop (length l - n) l.

(** Decidable checks, run over every 12-bit field and every pair of bytes. *)
Definition ac12Check (field : Z) : bool :=
  if Z.land field 0x10 =? 0
  then Adsb.decodeAC12Field field =? field * 100
  else Adsb.decodeAC12Field field =? removeQBit field * 25 - 1000.

(** The 25-foot branch, as [DecodeAltitude] and [decodeAC12Field] both
    write it, computes (N * 25) - 1000 with N the field less its Q-bit. *)
Definition qBranchCheck (field : Z) : bool :=
  Z.lor (Z.shiftr (Z.land field 0x0FE0) 1) (Z.land field 0x000F)
  =? removeQBit field.

Definition ac12RangeCheck (d5 : Z) : bool :=
  forallb (fun d6 =>
             let f := Z.lor (Z.shiftl (Z.land d5 0x1F) 7)
                            (Z.shiftr (Z.land d6 0xFE) 1) in
             (0 <=? f) && (f <? 4096))
          (map Z.of_nat (seq 0 256)).

(** What a sweep leaves under address [k]: the pointer it held, unless the
    object it reaches is stale. *)
Definition swept {T : Type} (m : gmap positive T) (stale : T -> bool)
  (d : gmap Z positive) (k : Z) : option positive :=
  match d !! k with
  | Some p =>
      match m !! p with
      | Some a => if stale a then None else Some p
      | None => None
      end
  | None => None
  end.

(** The worked example of the CPR resolver: the raw even and odd reports,
    stored in one track with the given reception instants. *)
Definition cprExample (evenTime oddTime : GoTime.instant) : Adsb.Aircraft.t :=
  Adsb.Aircraft.mk 0 EmptyString 0 0 0 0 0%float 0%float 0 0 0 0 false
    (replicate 8 x00) 93000 51372 74158 50194 evenTime oddTime []
    0%float 0%float 0%float 0%float 0%float 0%float 0%float 0%float 0.

(** 52.25713 N, 3.91937 E, and the tolerance of 1e-3 degrees. *)
Definition exampleLat : Q := 5225713 # 100000.
Definition exampleLon : Q := 391937 # 100000.
Definition tolerance : Q := 1 # 1000.

(** A track of the application with the given stored CPR timestamps (whole
    milliseconds), and an application state holding it at pointer 1. *)
Definition staleTrack (evenMs oddMs : Z) : MapAdsb.Aircraft.t :=
  MapAdsb.Aircraft.set_OddCPRTime oddMs
    (MapAdsb.Aircraft.set_EvenCPRTime evenMs (MapAdsb.newAircraft 0 0)).

Definition stateWith (ac : MapAdsb.Aircraft.t) : App.t :=
  App.mk (App.mkConfig 50 30)
         (MapAdsb.mkAircraftMap {[ 1%positive := ac ]} {[ 0 := 1%positive ]})
         0 0%float 0%float 0.

(** Trail appends.  One append takes a decoded position and the clock
    reading that stamps it. *)
Definition trailStep : Type := (GoTime.instant * float * float)%type.

(** The sample a step appends to the trail of track [a]. *)
Definition sampleOf (a : Adsb.Aircraft.t) (s : trailStep) : Adsb.Position.t :=
  Adsb.Position.mk s.1.2 s.2 (Adsb.Aircraft.Altitude a)
                   (Adsb.Aircraft.Heading a) s.1.1.

Definition appSampleOf (a : MapAdsb.Aircraft.t) (s : trailStep)
  : MapAdsb.Position.t :=
  MapAdsb.Position.mk s.1.2 s.2 (MapAdsb.Aircraft.Altitude a)
                      (MapAdsb.Aircraft.Heading a) s.1.1.



(** Two tracks: address 200 last seen at instant 0, address 100 last seen
    100 seconds later. *)
Definition twoTracks : Adsb.AircraftMap :=
  (Adsb.GetOrCreate (100 * GoTime.Second) (100 * GoTime.Second) 100
     (Adsb.GetOrCreate 0 0 200 Adsb.NewAircraftMap).2).2.

Definition mapTwoTracks : MapAdsb.AircraftMap :=
  (MapAdsb.GetOrCreate (100 * GoTime.Second) 100
     (MapAdsb.GetOrCreate 0 200 MapAdsb.NewAircraftMap).2).2.


(** Append with the oldest dropped at capacity. *)
Definition pushBounded {A : Type} (cap : nat) (l : list A) (x : A) : list A :=
  (if (cap <=? length l)%nat then drop 1 l else l) ++ [x].

(** The downlink format, the ICAO address and the type code of a frame. *)
Definition frameDF (data : list byte) : Z := Z.shiftr (at_ data 0) 3.

Definition frameICAO (data : list byte) : Z :=
  Z.lor (Z.lor (Z.shiftl (at_ data 1) 16) (Z.shiftl (at_ data 2) 8))
        (at_ data 3).

Definition frameTypeCode (data : list byte) : Z := Z.shiftr (at_ data 4) 3.

(** An extended-squitter frame: DF17 or DF18. *)
Definition extendedSquitter (data : list byte) : Prop :=
  frameDF data = 17 \/ frameDF data = 18.

(** Frames whose body processModeS has nothing to read from: the four
    header bytes alone, a velocity body cut short of its ten bytes, or a
    type code it does not decode. *)
Definition skipsBody (data : App.slice) : Prop :=
  App.len data = 4%nat \/
  ((5 <= App.len data)%nat /\
   let tc := frameTypeCode (App.visible data) in
   ~ (1 <= tc <= 4) /\ ~ (9 <= tc <= 18) /\
   (tc = 19 -> (App.len data < 10)%nat)).

(** A 6-byte extended-squitter frame of type code 11, and the 4-byte frame
    of its header. *)
Definition shortPositionFrame : list byte := [x8d; x01; x02; x03; x58; x00].
Definition headerFrame : list byte := [x8d; x01; x02; x03].

(** The application state before any message, and a stand-in for
    [math.Atan2] where no velocity is decoded. *)
Definition initialState : App.t :=
  App.mk (App.mkConfig 50 30) MapAdsb.NewAircraftMap 0 0%float 0%float 0.

Definition noAtan2 (y x : float) : float := 0%float.

(** A byte as the stream carries it inside a field: an escape is doubled. *)
Definition stuffed (b : byte) : list byte :=
  if Byte.eqb b Beast.EscapeChar then [b; b] else [b].

(** The six timestamp bytes the encoder emits, most significant first. *)
Definition timestampBytes (timestamp : Z) : list byte :=
  map (fun i => byte_of_Z (Z.land (Z.shiftr timestamp (8 * i)) 0xFF))
      [5; 4; 3; 2; 1; 0].

(** A long Mode-S frame whose timestamp needs 49 bits. *)
Definition lateFrame : Beast.Frame :=
  Beast.mkFrame Beast.LongModeS (2 ^ 48) x00 (replicate 14 x00).

(** A short frame with escapes in all three stuffed fields. *)
Definition escapedFrame : Beast.Frame :=
  Beast.mkFrame Beast.ShortAC 0x1a001a1a0001 x1a [x1a; x05].

(** A clock that stands at [ms] milliseconds of Unix time. *)
Definition wallAt (ms : Z) : nat -> GoTime.instant :=
  fun _ => App.unixEpoch + ms * GoTime.Millisecond.

(** The reception time processModeS stores with a position report of a
    track already in the store: the second reading of the clock in the
    call, as whole milliseconds of Unix time. *)
Definition receivedMs (wall : nat -> GoTime.instant) (w : App.t) : Z :=
  Z.quot (App.UnixNano (wall (S (App.ticks w)))) GoTime.Millisecond.

(** The reception times of the pair that track [ac] holds once processModeS
    has stored the report of [data] in it: even first, odd second. *)
Definition pairTimes (wall : nat -> GoTime.instant) (data : App.slice)
  (w : App.t) (ac : MapAdsb.Aircraft.t) : Z * Z :=
  if Adsb.oddFlagOf (App.visible data)
  then (MapAdsb.Aircraft.EvenCPRTime ac, receivedMs wall w)
  else (receivedMs wall w, MapAdsb.Aircraft.OddCPRTime ac).

(** An airborne-position frame long enough for its CPR fields. *)
Definition positionFrame (data : App.slice) : Prop :=
  extendedSquitter (App.visible data) /\
  (11 <= App.len data)%nat /\
  9 <= frameTypeCode (App.visible data) <= 18.

(** The odd report of the worked example, addressed to ICAO 000000: a
    14-byte DF17 frame of type code 11 with the odd flag set. *)
Definition staleOddFrame : App.slice :=
  App.mkSlice [x8d; x00; x00; x00; x58; xc3; x86; x43; x5c; xc4; x12; x69;
               x2a; xd6] [].

(** The even and the odd frame of the worked example, from ICAO 40621D. *)
Definition evenFrame : App.slice :=
  App.mkSlice [x8d; x40; x62; x1d; x58; xc3; x82; xd6; x90; xc8; xac; x28;
               x63; xa7] [].

Definition oddFrame : App.slice :=
  App.mkSlice [x8d; x40; x62; x1d; x58; xc3; x86; x43; x5c; xc4; x12; x69;
               x2a; xd6] [].

(** The application before any message, with a configured trail length. *)
Definition stateOfLength (trailLength : Z) : App.t :=
  App.mk (App.mkConfig trailLength 30) MapAdsb.NewAircraftMap 0 0%float
         0%float 0.

(** A run of processModeS over a sequence of frames, and the trail of an
    address after it (none when the run panicked or the address is absent). *)
Definition feed (wall : nat -> GoTime.instant) (frames : list App.slice)
  (w : App.t) : outcome App.t :=
  foldl (fun acc frame =>
           w ← acc;
           r ← App.processModeS wall noAtan2 frame 0 w;
           Ok r.2)
        (Ok w) frames.

Definition trailOf (icao : Z) (o : outcome App.t)
  : option (list MapAdsb.Position.t) :=
  match o with
  | Ok w =>
      p ← MapAdsb.data (App.aircraft w) !! icao;
      ac ← MapAdsb.mem (App.aircraft w) !! p;
      Some (MapAdsb.Aircraft.Trail ac)
  | Panic => None
  end.

(** Stores in which, after the first GetOrCreate of address 100, a second
    address was created and the first track was written to. *)
Definition laterStore : Adsb.AircraftMap :=
  let r1 := Adsb.GetOrCreate 0 0 100 Adsb.NewAircraftMap in
  let r := Adsb.GetOrCreate 5 5 200 r1.2 in
  Adsb.mkAircraftMap
    (<[r1.1 := Adsb.addToTrail 6 (Adsb.newAircraft 100 0 0) 52 4]>
       (Adsb.mem r.2))
    (Adsb.data r.2).

Definition mapLaterStore : MapAdsb.AircraftMap :=
  let r1 := MapAdsb.GetOrCreate 0 100 MapAdsb.NewAircraftMap in
  let r := MapAdsb.GetOrCreate 5 200 r1.2 in
  MapAdsb.mkAircraftMap
    (<[r1.1 := MapAdsb.Aircraft.set_Messages 3 (MapAdsb.newAircraft 100 0)]>
       (MapAdsb.mem r.2))
    (MapAdsb.data r.2).

End Spec.

(** * Package adsb: the track update *)

Module Tracker.
Import GoFloat GoTime Adsb.

(** Field assignments through the aircraft pointer. *)
Definition set_Seen (v : instant) (r : Aircraft.t) : Aircraft.t :=
  Aircraft.mk (Aircraft.ICAO r) (Aircraft.Flight r) (Aircraft.Altitude r)
    (Aircraft.Speed r) (Aircraft.Heading r) (Aircraft.VertRate r)
    (Aircraft.Lat r) (Aircraft.Lon r) v (Aircraft.SeenLatLon r) (Aircraft.X r)
    (Aircraft.Y r) (Aircraft.OnGround r) (Aircraft.SignalLevel r)
    (Aircraft.EvenCPRLat r) (Aircraft.EvenCPRLon r) (Aircraft.OddCPRLat r)
    (Aircraft.OddCPRLon r) (Aircraft.EvenCPRTime r) (Aircraft.OddCPRTime r)
    (Aircraft.Trail r) (Aircraft.LabelX r) (Aircraft.LabelY r)
    (Aircraft.LabelW r) (Aircraft.LabelH r) (Aircraft.LabelDX r)
    (Aircraft.LabelDY r) (Aircraft.LabelOpacity r) (Aircraft.LabelLevel r)
    (Aircraft.LastUpdateTime r).
Definition set_Flight (v : string) (r : Aircraft.t) : Aircraft.t :=
  Aircraft.mk (Aircraft.ICAO r) v (Aircraft.Altitude r) (Aircraft.Speed r)
    (Aircraft.Heading r) (Aircraft.VertRate r) (Aircraft.Lat r)
    (Aircraft.Lon r) (Aircraft.Seen r) (Aircraft.SeenLatLon r) (Aircraft.X r)
    (Aircraft.Y r) (Aircraft.OnGround r) (Aircraft.SignalLevel r)
    (Aircraft.EvenCPRLat r) (Aircraft.EvenCPRLon r) (Aircraft.OddCPRLat r)
    (Aircraft.OddCPRLon r) (Aircraft.EvenCPRTime r) (Aircraft.OddCPRTime r)
    (Aircraft.Trail r) (Aircraft.LabelX r) (Aircraft.LabelY r)
    (Aircraft.LabelW r) (Aircraft.LabelH r) (Aircraft.LabelDX r)
    (Aircraft.LabelDY r) (Aircraft.LabelOpacity r) (Aircraft.LabelLevel r)
    (Aircraft.LastUpdateTime r).
Definition set_OnGround (v : bool) (r : Aircraft.t) : Aircraft.t :=
  Aircraft.mk (Aircraft.ICAO r) (Aircraft.Flight r) (Aircraft.Altitude r)
    (Aircraft.Speed r) (Aircraft.Heading r) (Aircraft.VertRate r)
    (Aircraft.Lat r) (Aircraft.Lon r) (Aircraft.Seen r)
    (Aircraft.SeenLatLon r) (Aircraft.X r) (Aircraft.Y r) v
    (Aircraft.SignalLevel r) (Aircraft.EvenCPRLat r) (Aircraft.EvenCPRLon r)
    (Aircraft.OddCPRLat r) (Aircraft.OddCPRLon r) (Aircraft.EvenCPRTime r)
    (Aircraft.OddCPRTime r) (Aircraft.Trail r) (Aircraft.LabelX r)
    (Aircraft.LabelY r) (Aircraft.LabelW r) (Aircraft.LabelH r)
    (Aircraft.LabelDX r) (Aircraft.LabelDY r) (Aircraft.LabelOpacity r)
    (Aircraft.LabelLevel r) (Aircraft.LastUpdateTime r).
Definition set_Speed (v : Z) (r : Aircraft.t) : Aircraft.t :=
  Aircraft.mk (Aircraft.ICAO r) (Aircraft.Flight r) (Aircraft.Altitude r) v
    (Aircraft.Heading r) (Aircraft.VertRate r) (Aircraft.Lat r)
    (Aircraft.Lon r) (Aircraft.Seen r) (Aircraft.SeenLatLon r) (Aircraft.X r)
    (Aircraft.Y r) (Aircraft.OnGround r) (Aircraft.SignalLevel r)
    (Aircraft.EvenCPRLat r) (Aircraft.EvenCPRLon r) (Aircraft.OddCPRLat r)
    (Aircraft.OddCPRLon r) (Aircraft.EvenCPRTime r) (Aircraft.OddCPRTime r)
    (Aircraft.Trail r) (Aircraft.LabelX r) (Aircraft.LabelY r)
    (Aircraft.LabelW r) (Aircraft.LabelH r) (Aircraft.LabelDX r)
    (Aircraft.LabelDY r) (Aircraft.LabelOpacity r) (Aircraft.LabelLevel r)
    (Aircraft.LastUpdateTime r).
Definition set_Heading (v : Z) (r : Aircraft.t) : Aircraft.t :=
  Aircraft.mk (Aircraft.ICAO r) (Aircraft.Flight r) (Aircraft.Altitude r)
    (Aircraft.Speed r) v (Aircraft.VertRate r) (Aircraft.Lat r)
    (Aircraft.Lon r) (Aircraft.Seen r) (Aircraft.SeenLatLon r) (Aircraft.X r)
    (Aircraft.Y r) (Aircraft.OnGround r) (Aircraft.SignalLevel r)
    (Aircraft.EvenCPRLat r) (Aircraft.EvenCPRLon r) (Aircraft.OddCPRLat r)
    (Aircraft.OddCPRLon r) (Aircraft.EvenCPRTime r) (Aircraft.OddCPRTime r)
    (Aircraft.Trail r) (Aircraft.LabelX r) (Aircraft.LabelY r)
    (Aircraft.LabelW r) (Aircraft.LabelH r) (Aircraft.LabelDX r)
    (Aircraft.LabelDY r) (Aircraft.LabelOpacity r) (Aircraft.LabelLevel r)
    (Aircraft.LastUpdateTime r).
Definition set_VertRate (v : Z) (r : Aircraft.t) : Aircraft.t :=
  Aircraft.mk (Aircraft.ICAO r) (Aircraft.Flight r) (Aircraft.Altitude r)
    (Aircraft.Speed r) (Aircraft.Heading r) v (Aircraft.Lat r)
    (Aircraft.Lon r) (Aircraft.Seen r) (Aircraft.SeenLatLon r) (Aircraft.X r)
    (Aircraft.Y r) (Aircraft.OnGround r) (Aircraft.SignalLevel r)
    (Aircraft.EvenCPRLat r) (Aircraft.EvenCPRLon r) (Aircraft.OddCPRLat r)
    (Aircraft.OddCPRLon r) (Aircraft.EvenCPRTime r) (Aircraft.OddCPRTime r)
    (Aircraft.Trail r) (Aircraft.LabelX r) (Aircraft.LabelY r)
    (Aircraft.LabelW r) (Aircraft.LabelH r) (Aircraft.LabelDX r)
    (Aircraft.LabelDY r) (Aircraft.LabelOpacity r) (Aircraft.LabelLevel r)
    (Aircraft.LastUpdateTime r).
Definition set_Altitude (v : Z) (r : Aircraft.t) : Aircraft.t :=
  Aircraft.mk (Aircraft.ICAO r) (Aircraft.Flight r) v (Aircraft.Speed r)
    (Aircraft.Heading r) (Aircraft.VertRate r) (Aircraft.Lat r)
    (Aircraft.Lon r) (Aircraft.Seen r) (Aircraft.SeenLatLon r) (Aircraft.X r)
    (Aircraft.Y r) (Aircraft.OnGround r) (Aircraft.SignalLevel r)
    (Aircraft.EvenCPRLat r) (Aircraft.EvenCPRLon r) (Aircraft.OddCPRLat r)
    (Aircraft.OddCPRLon r) (Aircraft.EvenCPRTime r) (Aircraft.OddCPRTime r)
    (Aircraft.Trail r) (Aircraft.LabelX r) (Aircraft.LabelY r)
    (Aircraft.LabelW r) (Aircraft.LabelH r) (Aircraft.LabelDX r)
    (Aircraft.LabelDY r) (Aircraft.LabelOpacity r) (Aircraft.LabelLevel r)
    (Aircraft.LastUpdateTime r).
Definition set_OddCPRLat (v : Z) (r : Aircraft.t) : Aircraft.t :=
  Aircraft.mk (Aircraft.ICAO r) (Aircraft.Flight r) (Aircraft.Altitude r)
    (Aircraft.Speed r) (Aircraft.Heading r) (Aircraft.VertRate r)
    (Aircraft.Lat r) (Aircraft.Lon r) (Aircraft.Seen r)
    (Aircraft.SeenLatLon r) (Aircraft.X r) (Aircraft.Y r)
    (Aircraft.OnGround r) (Aircraft.SignalLevel r) (Aircraft.EvenCPRLat r)
    (Aircraft.EvenCPRLon r) v (Aircraft.OddCPRLon r) (Aircraft.EvenCPRTime r)
    (Aircraft.OddCPRTime r) (Aircraft.Trail r) (Aircraft.LabelX r)
    (Aircraft.LabelY r) (Aircraft.LabelW r) (Aircraft.LabelH r)
    (Aircraft.LabelDX r) (Aircraft.LabelDY r) (Aircraft.LabelOpacity r)
    (Aircraft.LabelLevel r) (Aircraft.LastUpdateTime r).
Definition set_OddCPRLon (v : Z) (r : Aircraft.t) : Aircraft.t :=
  Aircraft.mk (Aircraft.ICAO r) (Aircraft.Flight r) (Aircraft.Altitude r)
    (Aircraft.Speed r) (Aircraft.Heading r) (Aircraft.VertRate r)
    (Aircraft.Lat r) (Aircraft.Lon r) (Aircraft.Seen r)
    (Aircraft.SeenLatLon r) (Aircraft.X r) (Aircraft.Y r)
    (Aircraft.OnGround r) (Aircraft.SignalLevel r) (Aircraft.EvenCPRLat r)
    (Aircraft.EvenCPRLon r) (Aircraft.OddCPRLat r) v (Aircraft.EvenCPRTime r)
    (Aircraft.OddCPRTime r) (Aircraft.Trail r) (Aircraft.LabelX r)
    (Aircraft.LabelY r) (Aircraft.LabelW r) (Aircraft.LabelH r)
    (Aircraft.LabelDX r) (Aircraft.LabelDY r) (Aircraft.LabelOpacity r)
    (Aircraft.LabelLevel r) (Aircraft.LastUpdateTime r).
Definition set_OddCPRTime (v : instant) (r : Aircraft.t) : Aircraft.t :=
  Aircraft.mk (Aircraft.ICAO r) (Aircraft.Flight r) (Aircraft.Altitude r)
    (Aircraft.Speed r) (Aircraft.Heading r) (Aircraft.VertRate r)
    (Aircraft.Lat r) (Aircraft.Lon r) (Aircraft.Seen r)
    (Aircraft.SeenLatLon r) (Aircraft.X r) (Aircraft.Y r)
    (Aircraft.OnGround r) (Aircraft.SignalLevel r) (Aircraft.EvenCPRLat r)
    (Aircraft.EvenCPRLon r) (Aircraft.OddCPRLat r) (Aircraft.OddCPRLon r)
    (Aircraft.EvenCPRTime r) v (Aircraft.Trail r) (Aircraft.LabelX r)
    (Aircraft.LabelY r) (Aircraft.LabelW r) (Aircraft.LabelH r)
    (Aircraft.LabelDX r) (Aircraft.LabelDY r) (Aircraft.LabelOpacity r)
    (Aircraft.LabelLevel r) (Aircraft.LastUpdateTime r).
Definition set_EvenCPRLat (v : Z) (r : Aircraft.t) : Aircraft.t :=
  Aircraft.mk (Aircraft.ICAO r) (Aircraft.Flight r) (Aircraft.Altitude r)
    (Aircraft.Speed r) (Aircraft.Heading r) (Aircraft.VertRate r)
    (Aircraft.Lat r) (Aircraft.Lon r) (Aircraft.Seen r)
    (Aircraft.SeenLatLon r) (Aircraft.X r) (Aircraft.Y r)
    (Aircraft.OnGround r) (Aircraft.SignalLevel r) v (Aircraft.EvenCPRLon r)
    (Aircraft.OddCPRLat r) (Aircraft.OddCPRLon r) (Aircraft.EvenCPRTime r)
    (Aircraft.OddCPRTime r) (Aircraft.Trail r) (Aircraft.LabelX r)
    (Aircraft.LabelY r) (Aircraft.LabelW r) (Aircraft.LabelH r)
    (Aircraft.LabelDX r) (Aircraft.LabelDY r) (Aircraft.LabelOpacity r)
    (Aircraft.LabelLevel r) (Aircraft.LastUpdateTime r).
Definition set_EvenCPRLon (v : Z) (r : Aircraft.t) : Aircraft.t :=
  Aircraft.mk (Aircraft.ICAO r) (Aircraft.Flight r) (Aircraft.Altitude r)
    (Aircraft.Speed r) (Aircraft.Heading r) (Aircraft.VertRate r)
    (Aircraft.Lat r) (Aircraft.Lon r) (Aircraft.Seen r)
    (Aircraft.SeenLatLon r) (Aircraft.X r) (Aircraft.Y r)
    (Aircraft.OnGround r) (Aircraft.SignalLevel r) (Aircraft.EvenCPRLat r) v
    (Aircraft.OddCPRLat r) (Aircraft.OddCPRLon r) (Aircraft.EvenCPRTime r)
    (Aircraft.OddCPRTime r) (Aircraft.Trail r) (Aircraft.LabelX r)
    (Aircraft.LabelY r) (Aircraft.LabelW r) (Aircraft.LabelH r)
    (Aircraft.LabelDX r) (Aircraft.LabelDY r) (Aircraft.LabelOpacity r)
    (Aircraft.LabelLevel r) (Aircraft.LastUpdateTime r).
Definition set_EvenCPRTime (v : instant) (r : Aircraft.t) : Aircraft.t :=
  Aircraft.mk (Aircraft.ICAO r) (Aircraft.Flight r) (Aircraft.Altitude r)
    (Aircraft.Speed r) (Aircraft.Heading r) (Aircraft.VertRate r)
    (Aircraft.Lat r) (Aircraft.Lon r) (Aircraft.Seen r)
    (Aircraft.SeenLatLon r) (Aircraft.X r) (Aircraft.Y r)
    (Aircraft.OnGround r) (Aircraft.SignalLevel r) (Aircraft.EvenCPRLat r)
    (Aircraft.EvenCPRLon r) (Aircraft.OddCPRLat r) (Aircraft.OddCPRLon r) v
    (Aircraft.OddCPRTime r) (Aircraft.Trail r) (Aircraft.LabelX r)
    (Aircraft.LabelY r) (Aircraft.LabelW r) (Aircraft.LabelH r)
    (Aircraft.LabelDX r) (Aircraft.LabelDY r) (Aircraft.LabelOpacity r)
    (Aircraft.LabelLevel r) (Aircraft.LastUpdateTime r).
Definition set_Lat (v : float) (r : Aircraft.t) : Aircraft.t :=
  Aircraft.mk (Aircraft.ICAO r) (Aircraft.Flight r) (Aircraft.Altitude r)
    (Aircraft.Speed r) (Aircraft.Heading r) (Aircraft.VertRate r) v
    (Aircraft.Lon r) (Aircraft.Seen r) (Aircraft.SeenLatLon r) (Aircraft.X r)
    (Aircraft.Y r) (Aircraft.OnGround r) (Aircraft.SignalLevel r)
    (Aircraft.EvenCPRLat r) (Aircraft.EvenCPRLon r) (Aircraft.OddCPRLat r)
    (Aircraft.OddCPRLon r) (Aircraft.EvenCPRTime r) (Aircraft.OddCPRTime r)
    (Aircraft.Trail r) (Aircraft.LabelX r) (Aircraft.LabelY r)
    (Aircraft.LabelW r) (Aircraft.LabelH r) (Aircraft.LabelDX r)
    (Aircraft.LabelDY r) (Aircraft.LabelOpacity r) (Aircraft.LabelLevel r)
    (Aircraft.LastUpdateTime r).
Definition set_Lon (v : float) (r : Aircraft.t) : Aircraft.t :=
  Aircraft.mk (Aircraft.ICAO r) (Aircraft.Flight r) (Aircraft.Altitude r)
    (Aircraft.Speed r) (Aircraft.Heading r) (Aircraft.VertRate r)
    (Aircraft.Lat r) v (Aircraft.Seen r) (Aircraft.SeenLatLon r)
    (Aircraft.X r) (Aircraft.Y r) (Aircraft.OnGround r)
    (Aircraft.SignalLevel r) (Aircraft.EvenCPRLat r) (Aircraft.EvenCPRLon r)
    (Aircraft.OddCPRLat r) (Aircraft.OddCPRLon r) (Aircraft.EvenCPRTime r)
    (Aircraft.OddCPRTime r) (Aircraft.Trail r) (Aircraft.LabelX r)
    (Aircraft.LabelY r) (Aircraft.LabelW r) (Aircraft.LabelH r)
    (Aircraft.LabelDX r) (Aircraft.LabelDY r) (Aircraft.LabelOpacity r)
    (Aircraft.LabelLevel r) (Aircraft.LastUpdateTime r).
Definition set_SeenLatLon (v : instant) (r : Aircraft.t) : Aircraft.t :=
  Aircraft.mk (Aircraft.ICAO r) (Aircraft.Flight r) (Aircraft.Altitude r)
    (Aircraft.Speed r) (Aircraft.Heading r) (Aircraft.VertRate r)
    (Aircraft.Lat r) (Aircraft.Lon r) (Aircraft.Seen r) v (Aircraft.X r)
    (Aircraft.Y r) (Aircraft.OnGround r) (Aircraft.SignalLevel r)
    (Aircraft.EvenCPRLat r) (Aircraft.EvenCPRLon r) (Aircraft.OddCPRLat r)
    (Aircraft.OddCPRLon r) (Aircraft.EvenCPRTime r) (Aircraft.OddCPRTime r)
    (Aircraft.Trail r) (Aircraft.LabelX r) (Aircraft.LabelY r)
    (Aircraft.LabelW r) (Aircraft.LabelH r) (Aircraft.LabelDX r)
    (Aircraft.LabelDY r) (Aircraft.LabelOpacity r) (Aircraft.LabelLevel r)
    (Aircraft.LastUpdateTime r).
Definition set_SignalLevel (v : list byte) (r : Aircraft.t) : Aircraft.t :=
  Aircraft.mk (Aircraft.ICAO r) (Aircraft.Flight r) (Aircraft.Altitude r)
    (Aircraft.Speed r) (Aircraft.Heading r) (Aircraft.VertRate r)
    (Aircraft.Lat r) (Aircraft.Lon r) (Aircraft.Seen r)
    (Aircraft.SeenLatLon r) (Aircraft.X r) (Aircraft.Y r)
    (Aircraft.OnGround r) v (Aircraft.EvenCPRLat r) (Aircraft.EvenCPRLon r)
    (Aircraft.OddCPRLat r) (Aircraft.OddCPRLon r) (Aircraft.EvenCPRTime r)
    (Aircraft.OddCPRTime r) (Aircraft.Trail r) (Aircraft.LabelX r)
    (Aircraft.LabelY r) (Aircraft.LabelW r) (Aircraft.LabelH r)
    (Aircraft.LabelDX r) (Aircraft.LabelDY r) (Aircraft.LabelOpacity r)
    (Aircraft.LabelLevel r) (Aircraft.LastUpdateTime r).

(** [if msg.OddFlag { ... } else { ... }]: the raw CPR report and its
    reception time go into the slot of their parity. *)
Definition storeCPR (msg : Message.t) (aircraft : Aircraft.t) : Aircraft.t :=
  if Message.OddFlag msg then
    set_OddCPRTime (Message.Timestamp msg)
      (set_OddCPRLon (Message.RawLon msg)
         (set_OddCPRLat (Message.RawLat msg) aircraft))
  else
    set_EvenCPRTime (Message.Timestamp msg)
      (set_EvenCPRLon (Message.RawLon msg)
         (set_EvenCPRLat (Message.RawLat msg) aircraft)).

(** The position update of the two position branches: the resolver gets
    the same aircraft for both parameters; [now] is the clock reading of
    addToTrail. *)
Definition tryResolve (now : instant) (msg : Message.t) (aircraft : Aircraft.t)
  : outcome Aircraft.t :=
  if negb (IsZero (Aircraft.EvenCPRTime aircraft))
     && negb (IsZero (Aircraft.OddCPRTime aircraft))
  then
    r ← DecodeCPRPosition aircraft aircraft;
    let '(lat, lon, ok) := r in
    if ok : bool then
      let aircraft := set_Lat lat aircraft in
      let aircraft := set_Lon lon aircraft in
      let aircraft := set_SeenLatLon (Message.Timestamp msg) aircraft in
      Ok (addToTrail now aircraft lat lon)
    else Ok aircraft
  else Ok aircraft.

(** [for i := 7; i > 0; i-- { SignalLevel[i] = SignalLevel[i-1] }] and
    [SignalLevel[0] = level], on the 8-element array. *)
Definition shiftSignal (level : byte) (history : list byte) : list byte :=
  let history :=
    foldl (fun h i => <[i := nth (i - 1) h x00]> h) history
          [7; 6; 5; 4; 3; 2; 1]%nat in
  <[0%nat := level]> history.

Definition ProcessMessage (now : instant) (aircraft : Aircraft.t)
  (msg : Message.t) : outcome Aircraft.t :=
  let aircraft := set_Seen (Message.Timestamp msg) aircraft in
  let aircraft :=
    if negb (String.eqb (Message.Flight msg) EmptyString)
    then set_Flight (Message.Flight msg) aircraft
    else aircraft in
  let df := Message.DF msg in
  let tc := Message.TypeCode msg in
  aircraft ←
    (if (df =? DF17) || (df =? DF18) then
       if (1 <=? tc) && (tc <=? 4) then
         Ok (set_Flight (Message.Flight msg) aircraft)
       else if (5 <=? tc) && (tc <=? 8) then
         let aircraft := set_OnGround true aircraft in
         let aircraft :=
           if 0 <? Message.Speed msg
           then set_Speed (Message.Speed msg) aircraft else aircraft in
         let aircraft :=
           if 0 <? Message.Heading msg
           then set_Heading (Message.Heading msg) aircraft else aircraft in
         let aircraft := storeCPR msg aircraft in
         tryResolve now msg aircraft
       else if ((9 <=? tc) && (tc <=? 18)) || ((20 <=? tc) && (tc <=? 22)) then
         let aircraft := set_OnGround false aircraft in
         let aircraft :=
           if 0 <? Message.Altitude msg
           then set_Altitude (Message.Altitude msg) aircraft else aircraft in
         let aircraft := storeCPR msg aircraft in
         tryResolve now msg aircraft
       else if tc =? 19 then
         let aircraft :=
           if 0 <? Message.Speed msg
           then set_Speed (Message.Speed msg) aircraft else aircraft in
         let aircraft :=
           if 0 <? Message.Heading msg
           then set_Heading (Message.Heading msg) aircraft else aircraft in
         let aircraft :=
           if negb (Message.VertRate msg =? 0)
           then set_VertRate (Message.VertRate msg) aircraft else aircraft in
         Ok aircraft
       else Ok aircraft
     else if (df =? DF4) || (df =? DF20) then
       Ok (set_OnGround (Message.OnGround msg)
             (set_Altitude (Message.Altitude msg) aircraft))
     else if (df =? DF5) || (df =? DF21) then
       Ok (set_OnGround (Message.OnGround msg) aircraft)
     else if (df =? DF0) || (df =? DF16) then
       Ok (set_OnGround (Message.OnGround msg) aircraft)
     else if df =? DF11 then
       if Message.CA msg =? 4 then Ok (set_OnGround true aircraft)
       else if Message.CA msg =? 5 then Ok (set_OnGround false aircraft)
       else Ok aircraft
     else Ok aircraft);
  Ok (set_SignalLevel
        (shiftSignal (Message.SignalLevel msg) (Aircraft.SignalLevel aircraft))
        aircraft).

End Tracker.
(** * Reference definitions for the properties of the remaining code *)

Module Ref.

Import GoFloat GoTime.

(** The pairs (field bit, digit bit) of [decodeID13Field], in its order. *)
Definition id13Pairs : list (Z * Z) :=
  [(0x1000, 0x0010); (0x0800, 0x1000); (0x0400, 0x0020); (0x0200, 0x2000);
   (0x0100, 0x0040); (0x0080, 0x4000); (0x0020, 0x0100); (0x0010, 0x0001);
   (0x0008, 0x0200); (0x0004, 0x0002); (0x0002, 0x0400); (0x0001, 0x0004)].

(** The field whose identity bits give the digits [hex]. *)
Definition encodeID13 (hex : Z) : Z :=
  foldl (fun acc p => if negb (Z.land hex (snd p) =? 0)
                      then Z.lor acc (fst p) else acc) 0 id13Pairs.

Definition id13Check (field : Z) : bool :=
  let hex := Adsb.decodeID13Field field in
  (encodeID13 hex =? Z.land field 0x1FBF)
  && (Z.land hex 0x8888 =? 0) && (0 <=? hex) && (hex <=? 0x7777).

(** A 13-bit altitude field without its M bit, and without M and Q bits. *)
Definition removeMBit (field : Z) : Z := field / 128 * 64 + field mod 64.

Definition removeMQBits (field : Z) : Z :=
  field / 128 * 32 + (field / 32) mod 2 * 16 + field mod 16.

Definition ac13Check (field : Z) : bool :=
  if negb (Z.land field 0x40 =? 0) then Adsb.decodeAC13Field field =? 0
  else if negb (Z.land field 0x10 =? 0) then
    (Adsb.decodeAC13Field field =? removeMQBits field * 25 - 1000)
    && (Adsb.decodeAC13Field field =? Adsb.decodeAC12Field (removeMBit field))
  else Adsb.decodeAC13Field field =? field * 100.

(** The least length at which [DecodeMessage] returns a message. *)
Definition minLength (df : Z) : nat :=
  if (df =? 17) || (df =? 18) then 14
  else if (df =? 4) || (df =? 20) || (df =? 5) || (df =? 21) || (df =? 11)
       then 4
  else 2.

End Ref.
Module RefTrack.

Import GoTime Adsb.

(** Position messages as [ProcessMessage] dispatches them: DF17 or DF18
    with a surface or airborne position type code. *)
Definition isPosition (msg : Message.t) : bool :=
  ((Message.DF msg =? DF17) || (Message.DF msg =? DF18))
  && (((5 <=? Message.TypeCode msg) && (Message.TypeCode msg <=? 18))
      || ((20 <=? Message.TypeCode msg) && (Message.TypeCode msg <=? 22))).

(** Identification messages: DF17 or DF18 with type code 1 to 4. *)
Definition isIdent (msg : Message.t) : bool :=
  ((Message.DF msg =? DF17) || (Message.DF msg =? DF18))
  && (1 <=? Message.TypeCode msg) && (Message.TypeCode msg <=? 4).

(** What a track knows of its position: the resolved coordinates, their
    time, the trail, and the two raw CPR slots. *)
Definition positionState (a : Aircraft.t) :=
  (Aircraft.Lat a, Aircraft.Lon a, Aircraft.SeenLatLon a, Aircraft.Trail a,
   (Aircraft.EvenCPRLat a, Aircraft.EvenCPRLon a, Aircraft.EvenCPRTime a),
   (Aircraft.OddCPRLat a, Aircraft.OddCPRLon a, Aircraft.OddCPRTime a)).

(** The resolved position alone. *)
Definition resolved (a : Aircraft.t) :=
  (Aircraft.Lat a, Aircraft.Lon a, Aircraft.SeenLatLon a, Aircraft.Trail a).

(** The fields no message writes. *)
Definition display (a : Aircraft.t) :=
  (Aircraft.ICAO a, Aircraft.X a, Aircraft.Y a,
   (Aircraft.LabelX a, Aircraft.LabelY a, Aircraft.LabelW a,
    Aircraft.LabelH a),
   (Aircraft.LabelDX a, Aircraft.LabelDY a, Aircraft.LabelOpacity a,
    Aircraft.LabelLevel a), Aircraft.LastUpdateTime a).

(** The reception time held for the parity opposite to the message's. *)
Definition otherTime (msg : Message.t) (a : Aircraft.t) : instant :=
  if Message.OddFlag msg then Aircraft.EvenCPRTime a
  else Aircraft.OddCPRTime a.

(** A track with a given signal history and trail, for the examples. *)
Definition sampleTrack : Aircraft.t := newAircraft 0x4840D6 5 5.

Definition identMessage : Message.t :=
  Message.set_Flight "KLM1023" (Message.set_TypeCode 4 (newMessage 17 7)).

Definition oddMessage (timestamp : instant) : Message.t :=
  Message.set_OddFlag true
    (Message.set_RawLon 50194
       (Message.set_RawLat 74158
          (Message.set_TypeCode 11 (newMessage 17 timestamp)))).

End RefTrack.
(** * Verification *)

(** ** Bytes *)

Lemma u8_range (b : byte) : 0 <= u8 b < 256.
Proof.
  unfold u8. pose proof (Byte.to_N_bounded b). lia.
Qed.

Lemma u8_byte_of_Z (z : Z) : u8 (byte_of_Z z) = z mod 256.
Proof.
  unfold u8, byte_of_Z.
  assert (Hr : 0 <= z mod 256 < 256) by (apply Z.mod_pos_bound; lia).
  destruct (Byte.of_N (Z.to_N (z mod 256))) as [b|] eqn:E.
  - apply Byte.to_of_N in E. rewrite E. lia.
  - apply Byte.of_N_None_iff in E. lia.
Qed.

Lemma byte_of_Z_u8 (b : byte) : byte_of_Z (u8 b) = b.
Proof.
  unfold byte_of_Z. pose proof (u8_range b) as Hr.
  rewrite Z.mod_small by lia. unfold u8. rewrite N2Z.id.
  now rewrite Byte.of_to_N.
Qed.

Lemma at_range (data : list byte) (i : nat) : 0 <= at_ data i < 256.
Proof. apply u8_range. Qed.

(** Exhaustive checking of a decidable property over an initial segment. *)
Lemma forall_below (n : nat) (P : Z -> bool) :
  forallb P (map Z.of_nat (seq 0 n)) = true ->
  forall z, 0 <= z < Z.of_nat n -> P z = true.
Proof.
  intros H z Hz.
  rewrite forallb_forall in H. apply H.
  apply in_map_iff. exists (Z.to_nat z). split; [lia|].
  apply in_seq. lia.
Qed.

(** An [or] of a shifted value with a value below the shift is a sum. *)
Lemma lor_shiftl_add (hi lo n : Z) :
  0 <= n -> 0 <= lo < 2 ^ n -> Z.lor (Z.shiftl hi n) lo = hi * 2 ^ n + lo.
Proof.
  intros Hn Hlo.
  rewrite <- Z.shiftl_mul_pow2 by lia.
  rewrite <- (Z.add_lor_land (Z.shiftl hi n) lo).
  assert (Z.land (Z.shiftl hi n) lo = 0) as ->; [|lia].
  apply Z.bits_inj'. intros m Hm.
  rewrite Z.land_spec, Z.bits_0.
  destruct (Z.lt_ge_cases m n).
  - rewrite Z.shiftl_spec_low by lia. reflexivity.
  - rewrite <- (Z.mod_small lo (2 ^ n)) by lia.
    rewrite Z.mod_pow2_bits_high by lia. apply andb_false_r.
Qed.

(** ** Altitude *)

Lemma ac12Check_all (field : Z) : 0 <= field < 4096 -> Spec.ac12Check field = true.
Proof. apply (forall_below 4096). vm_compute. reflexivity. Qed.

Lemma qBranch_all (field : Z) : 0 <= field < 4096 -> Spec.qBranchCheck field = true.
Proof. apply (forall_below 4096). vm_compute. reflexivity. Qed.

Lemma ac12FieldOf_range (data : list byte) :
  0 <= MapAdsb.ac12FieldOf data < 4096.
Proof.
  unfold MapAdsb.ac12FieldOf.
  pose proof (at_range data 5) as H5. pose proof (at_range data 6) as H6.
  assert (Hc : Spec.ac12RangeCheck (at_ data 5) = true).
  { apply (forall_below 256); [vm_compute; reflexivity | lia]. }
  unfold Spec.ac12RangeCheck in Hc. rewrite forallb_forall in Hc.
  specialize (Hc (at_ data 6)).
  assert (Hin : In (at_ data 6) (map Z.of_nat (seq 0 256))).
  { apply in_map_iff. exists (Z.to_nat (at_ data 6)). split; [lia|].
    apply in_seq. lia. }
  specialize (Hc Hin). cbv zeta in Hc.
  apply andb_true_iff in Hc. destruct Hc as [Ha Hb]. lia.
Qed.

Lemma DecodeAltitude_field (data : list byte) :
  (7 <= length data)%nat ->
  MapAdsb.DecodeAltitude data =
    if Z.land (MapAdsb.ac12FieldOf data) 0x10 =? 0 then 0
    else Spec.removeQBit (MapAdsb.ac12FieldOf data) * 25 - 1000.
Proof.
  intros Hlen. unfold MapAdsb.DecodeAltitude.
  destruct (Nat.ltb_spec (length data) 7) as [?|_]; [lia|].
  cbv zeta.
  pose proof (qBranch_all _ (ac12FieldOf_range data)) as Hq.
  unfold Spec.qBranchCheck in Hq. apply Z.eqb_eq in Hq.
  destruct (Z.land (MapAdsb.ac12FieldOf data) 16 =? 0); simpl; [reflexivity|].
  now rewrite Hq.
Qed.

(** C3 (as amended).  For every 12-bit altitude field with the Q-bit set,
    both altitude decoders return N * 25 - 1000 feet, N being the field with
    the Q-bit removed; N = 100 gives 1500 feet.  With the Q-bit clear,
    [MapAdsb.DecodeAltitude] returns 0, and [Adsb.decodeAC12Field] returns
    the field times 100, its Gillham simplification. *)
Theorem altitude_12bit_decode (field : Z) (data : list byte) :
  0 <= field < 4096 ->
  (7 <= length data)%nat ->
  (Z.land field 0x10 <> 0 ->
   Adsb.decodeAC12Field field = Spec.removeQBit field * 25 - 1000) /\
  (Z.land field 0x10 <> 0 -> Spec.removeQBit field = 100 ->
   Adsb.decodeAC12Field field = 1500) /\
  (Z.land field 0x10 = 0 -> Adsb.decodeAC12Field field = field * 100) /\
  (Z.land (MapAdsb.ac12FieldOf data) 0x10 <> 0 ->
   MapAdsb.DecodeAltitude data =
     Spec.removeQBit (MapAdsb.ac12FieldOf data) * 25 - 1000) /\
  (Z.land (MapAdsb.ac12FieldOf data) 0x10 = 0 ->
   MapAdsb.DecodeAltitude data = 0).
Proof.
  intros Hf Hlen.
  pose proof (ac12Check_all field Hf) as Hc. unfold Spec.ac12Check in Hc.
  pose proof (DecodeAltitude_field data Hlen) as Hd.
  repeat split.
  - intros Hq. destruct (Z.eqb_spec (Z.land field 16) 0); [contradiction|].
    now apply Z.eqb_eq.
  - intros Hq HN. destruct (Z.eqb_spec (Z.land field 16) 0); [contradiction|].
    apply Z.eqb_eq in Hc. rewrite Hc, HN. reflexivity.
  - intros Hq. rewrite Hq in Hc. now apply Z.eqb_eq.
  - intros Hq. rewrite Hd.
    destruct (Z.eqb_spec (Z.land (MapAdsb.ac12FieldOf data) 16) 0);
      [contradiction | reflexivity].
  - intros Hq. rewrite Hd, Hq. reflexivity.
Qed.

Lemma altitude_12bit_decode_witness :
  0 <= 0xD4 < 4096 /\
  (7 <= length [x00; x00; x00; x00; x00; x01; xa8])%nat /\
  Spec.removeQBit 0xD4 = 100 /\
  Adsb.decodeAC12Field 0xD4 = 1500 /\
  MapAdsb.DecodeAltitude [x00; x00; x00; x00; x00; x01; xa8] = 1500.
Proof.
  assert (Hf : 0 <= 0xD4 < 4096) by lia.
  assert (Hl : (7 <= length [x00; x00; x00; x00; x00; x01; xa8])%nat)
    by (simpl; lia).
  destruct (altitude_12bit_decode 0xD4 [x00; x00; x00; x00; x00; x01; xa8]
              Hf Hl) as (_ & H1500 & _ & Hd & _).
  split; [exact Hf|]. split; [exact Hl|]. split; [reflexivity|].
  split.
  - apply H1500; [discriminate | reflexivity].
  - rewrite Hd; [reflexivity | discriminate].
Defined.

(** C3 as stated fails on [decodeAC12Field]: the 12-bit field 0x020 has its
    Q-bit clear and decodes to 3200, not to 0. *)
Lemma altitude_gillham_counterexample :
  0 <= 0x020 < 4096 /\ Z.land 0x020 0x10 = 0 /\
  Adsb.decodeAC12Field 0x020 = 3200 /\ Adsb.decodeAC12Field 0x020 <> 0.
Proof.
  split; [lia|]. split; [reflexivity|]. split; [reflexivity|]. discriminate.
Qed.

(** ** Aircraft identification *)

Lemma lor3_bytes (a b c : Z) :
  0 <= b < 256 -> 0 <= c < 256 ->
  Z.lor (Z.lor (Z.shiftl a 16) (Z.shiftl b 8)) c = a * 65536 + b * 256 + c.
Proof.
  intros Hb Hc.
  rewrite (lor_shiftl_add a (Z.shiftl b 8) 16);
    [| lia | rewrite Z.shiftl_mul_pow2 by lia; lia].
  rewrite Z.shiftl_mul_pow2 by lia.
  replace (a * 2 ^ 16 + b * 2 ^ 8) with (Z.shiftl (a * 256 + b) 8)
    by (rewrite Z.shiftl_mul_pow2 by lia; lia).
  rewrite lor_shiftl_add by lia. lia.
Qed.

Lemma land_63 (x : Z) : Z.land x 0x3F = x mod 64.
Proof. change 0x3F with (Z.ones 6). now rewrite Z.land_ones by lia. Qed.

(** The four groups of each 24-bit half are the groups of the 48 bits. *)
Lemma groups_of_halves (hi lo : Z) :
  0 <= hi -> 0 <= lo < 16777216 ->
  let w := hi * 16777216 + lo in
  (hi / 262144) mod 64 = (w / 4398046511104) mod 64 /\
  (hi / 4096) mod 64 = (w / 68719476736) mod 64 /\
  (hi / 64) mod 64 = (w / 1073741824) mod 64 /\
  hi mod 64 = (w / 16777216) mod 64 /\
  (lo / 262144) mod 64 = (w / 262144) mod 64 /\
  (lo / 4096) mod 64 = (w / 4096) mod 64 /\
  (lo / 64) mod 64 = (w / 64) mod 64 /\
  lo mod 64 = (w / 1) mod 64.
Proof.
  intros Hhi Hlo w. subst w.
  repeat split; Z.div_mod_to_equations; lia.
Qed.

Lemma trimEnd_app (l t : list ascii) (k : nat) :
  (k <= length l)%nat -> Adsb.trimEnd (l ++ t) k = Adsb.trimEnd l k.
Proof.
  induction k as [|k IH]; intros Hk; [reflexivity|].
  cbn [Adsb.trimEnd]. rewrite app_nth1 by lia.
  destruct (Ascii.eqb _ _); [apply IH; lia | reflexivity].
Qed.

Lemma trimEnd_le (l : list ascii) (k : nat) : (Adsb.trimEnd l k <= k)%nat.
Proof.
  induction k as [|k IH]; [reflexivity|].
  cbn [Adsb.trimEnd]. destruct (Ascii.eqb _ _); lia.
Qed.

Lemma trimRight_snoc_space (l : list ascii) :
  Spec.trimRight (l ++ [" "%char]) = Spec.trimRight l.
Proof.
  induction l as [|c l IH]; [reflexivity|].
  cbn [app Spec.trimRight]. now rewrite IH.
Qed.

Lemma trimRight_snoc_other (l : list ascii) (x : ascii) :
  Ascii.eqb x " "%char = false -> Spec.trimRight (l ++ [x]) = l ++ [x].
Proof.
  intros Hx. induction l as [|c l IH].
  - cbn. now rewrite Hx.
  - cbn [app Spec.trimRight]. rewrite IH. now destruct l.
Qed.

(** The trimming loop keeps exactly what trimming trailing spaces keeps. *)
Lemma trimEnd_trimRight (l : list ascii) :
  take (Adsb.trimEnd l (length l)) l = Spec.trimRight l.
Proof.
  induction l as [|x l IH] using rev_ind; [reflexivity|].
  rewrite length_app, Nat.add_1_r. cbn [Adsb.trimEnd].
  rewrite app_nth2 by lia. rewrite Nat.sub_diag. cbn [nth].
  destruct (Ascii.eqb x " "%char) eqn:Hx.
  - apply Ascii.eqb_eq in Hx. subst x.
    rewrite trimEnd_app by lia. rewrite trimRight_snoc_space, <- IH.
    apply take_app_le. apply trimEnd_le.
  - rewrite trimRight_snoc_other by assumption.
    rewrite <- Nat.add_1_r.
    replace (length l + 1)%nat with (length (l ++ [x]))
      by (rewrite length_app; reflexivity).
    apply firstn_all.
Qed.

Lemma trimEnd_same (l : list ascii) (k : nat) :
  MapAdsb.trimEnd l k = Adsb.trimEnd l k.
Proof.
  induction k as [|k IH]; [reflexivity|].
  cbn [MapAdsb.trimEnd Adsb.trimEnd]. now rewrite IH.
Qed.

Lemma charsetAt_icaoChar (g : Z) : Adsb.charsetAt g = Spec.icaoChar g.
Proof. reflexivity. Qed.

Lemma map_charsetAt_icaoChar (g : Z) : MapAdsb.charsetAt g = Spec.icaoChar g.
Proof. reflexivity. Qed.

(** The eight characters the code looks up are the eight six-bit groups of
    the 48 bits, in order. *)
Lemma callsign_groups (d0 d1 d2 d3 d4 d5 : byte) :
  let data := [d0; d1; d2; d3; d4; d5] in
  let hi := Z.lor (Z.lor (Z.shiftl (u8 d0) 16) (Z.shiftl (u8 d1) 8)) (u8 d2) in
  let lo := Z.lor (Z.lor (Z.shiftl (u8 d3) 16) (Z.shiftl (u8 d4) 8)) (u8 d5) in
  [ Z.land (Z.shiftr hi 18) 0x3F; Z.land (Z.shiftr hi 12) 0x3F;
    Z.land (Z.shiftr hi 6) 0x3F; Z.land hi 0x3F;
    Z.land (Z.shiftr lo 18) 0x3F; Z.land (Z.shiftr lo 12) 0x3F;
    Z.land (Z.shiftr lo 6) 0x3F; Z.land lo 0x3F ]
  = map (Spec.sixBitGroup data) (seq 0 8).
Proof.
  intros data hi lo. subst data hi lo.
  pose proof (u8_range d0). pose proof (u8_range d1). pose proof (u8_range d2).
  pose proof (u8_range d3). pose proof (u8_range d4). pose proof (u8_range d5).
  rewrite !lor3_bytes by assumption.
  rewrite !land_63, !Z.shiftr_div_pow2 by lia.
  cbn [map seq]. unfold Spec.sixBitGroup, Spec.bits48.
  cbn [take foldl length].
  set (hi := u8 d0 * 65536 + u8 d1 * 256 + u8 d2).
  set (lo := u8 d3 * 65536 + u8 d4 * 256 + u8 d5).
  replace ((((((0 * 256 + u8 d0) * 256 + u8 d1) * 256 + u8 d2) * 256 + u8 d3)
             * 256 + u8 d4) * 256 + u8 d5)
    with (hi * 16777216 + lo) by (subst hi lo; lia).
  assert (Hhi : 0 <= hi) by (subst hi; lia).
  assert (Hlo : 0 <= lo < 16777216) by (subst lo; lia).
  destruct (groups_of_halves hi lo Hhi Hlo)
    as (G0 & G1 & G2 & G3 & G4 & G5 & G6 & G7).
  change (2 ^ 18) with 262144. change (2 ^ 12) with 4096.
  change (2 ^ 6) with 64.
  change (2 ^ (42 - 6 * Z.of_nat 0)) with 4398046511104.
  change (2 ^ (42 - 6 * Z.of_nat 1)) with 68719476736.
  change (2 ^ (42 - 6 * Z.of_nat 2)) with 1073741824.
  change (2 ^ (42 - 6 * Z.of_nat 3)) with 16777216.
  change (2 ^ (42 - 6 * Z.of_nat 4)) with 262144.
  change (2 ^ (42 - 6 * Z.of_nat 5)) with 4096.
  change (2 ^ (42 - 6 * Z.of_nat 6)) with 64.
  change (2 ^ (42 - 6 * Z.of_nat 7)) with 1.
  now rewrite G0, G1, G2, G3, G4, G5, G6, G7.
Qed.

Lemma decodeAircraftID_spec (data : list byte) :
  length data = 6%nat -> Adsb.decodeAircraftID data = Spec.callsignOf data.
Proof.
  intros Hlen.
  destruct data as [ | d0 [ | d1 [ | d2 [ | d3 [ | d4 [ | d5 [ | d6 rest ] ] ] ] ] ] ];
    try discriminate.
  unfold Adsb.decodeAircraftID, Spec.callsignOf, Spec.callsignChars.
  cbn [length Nat.ltb Nat.leb]. cbv zeta. unfold at_. cbn [nth].
  rewrite <- (map_map (Spec.sixBitGroup _) Spec.icaoChar).
  rewrite <- callsign_groups. cbv zeta. cbn [map].
  rewrite !charsetAt_icaoChar.
  match goal with
  | |- context [take (Adsb.trimEnd ?l 8) ?l] =>
      change 8%nat with (length l) at 1; rewrite (trimEnd_trimRight l)
  end.
  reflexivity.
Qed.

Lemma DecodeCallsign_decodeAircraftID (data : list byte) :
  MapAdsb.DecodeCallsign data = Adsb.decodeAircraftID data.
Proof.
  unfold MapAdsb.DecodeCallsign, Adsb.decodeAircraftID.
  destruct (length data <? 6)%nat; [reflexivity|].
  cbv zeta. now rewrite trimEnd_same.
Qed.

(** C6.  For every 6-byte identification payload, both callsign decoders
    return the eight six-bit groups of the 48 bits, mapped through the ICAO
    character set, with trailing spaces trimmed; a payload whose eight
    characters are "KLM1023 " decodes to exactly "KLM1023". *)
Theorem callsign_decode (data : list byte) :
  length data = 6%nat ->
  Adsb.decodeAircraftID data = Spec.callsignOf data /\
  MapAdsb.DecodeCallsign data = Spec.callsignOf data /\
  (Spec.callsignChars data = list_ascii_of_string "KLM1023 " ->
   Adsb.decodeAircraftID data = "KLM1023"%string /\
   MapAdsb.DecodeCallsign data = "KLM1023"%string).
Proof.
  intros Hlen.
  pose proof (decodeAircraftID_spec data Hlen) as Hspec.
  split; [exact Hspec|].
  pose proof (DecodeCallsign_decodeAircraftID data) as Hsame.
  split; [congruence|].
  intros Hklm.
  assert (Hid : Adsb.decodeAircraftID data = "KLM1023"%string).
  { rewrite Hspec. unfold Spec.callsignOf. rewrite Hklm. reflexivity. }
  split; congruence.
Qed.

Lemma callsign_decode_witness :
  length [x2c; xc3; x71; xc3; x2c; xe0] = 6%nat /\
  Spec.callsignChars [x2c; xc3; x71; xc3; x2c; xe0]
    = list_ascii_of_string "KLM1023 " /\
  Adsb.decodeAircraftID [x2c; xc3; x71; xc3; x2c; xe0] = "KLM1023"%string /\
  MapAdsb.DecodeCallsign [x2c; xc3; x71; xc3; x2c; xe0] = "KLM1023"%string.
Proof.
  destruct (callsign_decode [x2c; xc3; x71; xc3; x2c; xe0] eq_refl)
    as (_ & _ & Hklm).
  split; [reflexivity|]. split; [reflexivity|].
  apply Hklm. reflexivity.
Defined.

(** ** CPR *)

Lemma milliseconds_beyond_window (t u : GoTime.instant) :
  10001 * GoTime.Millisecond <= Z.abs (t - u) ->
  10000 < Z.abs (GoTime.Milliseconds (GoTime.Sub t u)).
Proof.
  unfold GoTime.Milliseconds, GoTime.Sub, GoTime.Millisecond,
    GoTime.minDuration, GoTime.maxDuration.
  intros H. cbv zeta.
  change (2 ^ 63) with 9223372036854775808.
  repeat match goal with
         | |- context [?a <? ?b] => destruct (Z.ltb_spec a b)
         end;
    Z.to_euclidean_division_equations; lia.
Qed.

Lemma cpr_rejects_stale (evenPos oddPos : Adsb.Aircraft.t) :
  10000 < Z.abs (GoTime.Milliseconds
                   (GoTime.Sub (Adsb.Aircraft.EvenCPRTime evenPos)
                               (Adsb.Aircraft.OddCPRTime oddPos))) ->
  Adsb.DecodeCPRPosition evenPos oddPos = Ok (0%float, 0%float, false).
Proof.
  intros H. unfold Adsb.DecodeCPRPosition.
  destruct (_ || _); [reflexivity|].
  destruct (Z.ltb_spec 10000
              (Z.abs (GoTime.Milliseconds
                        (GoTime.Sub (Adsb.Aircraft.EvenCPRTime evenPos)
                                    (Adsb.Aircraft.OddCPRTime oddPos)))));
    [reflexivity | lia].
Qed.

Lemma resolvePosition_stale (wall : nat -> GoTime.instant) (odd : bool)
  (p : MapAdsb.loc) (w : App.t) (ac : MapAdsb.Aircraft.t) :
  MapAdsb.mem (App.aircraft w) !! p = Some ac ->
  10000 < Z.abs (MapAdsb.Aircraft.EvenCPRTime ac
                 - MapAdsb.Aircraft.OddCPRTime ac) ->
  App.resolvePosition wall odd p w = Ok (tt, w).
Proof.
  intros Hp Hd. unfold App.resolvePosition.
  unfold mbind, App.M_bind, App.deref. rewrite Hp.
  destruct (_ && _); [|reflexivity].
  destruct (Z.leb_spec
              (Z.abs (MapAdsb.Aircraft.EvenCPRTime ac
                      - MapAdsb.Aircraft.OddCPRTime ac)) 10000);
    [lia | reflexivity].
Qed.

(** C2 as stated fails on [Adsb.DecodeCPRPosition]: reports received
    10 s and 1 ns apart differ by more than 10 seconds, yet the check, made
    on whole milliseconds, lets the pair through and a position comes out. *)
Lemma cpr_stale_pair_counterexample :
  10 * GoTime.Second < Z.abs (1000000000 - 11000000001) /\
  exists lat lon,
    Adsb.DecodeCPRPosition (Spec.cprExample 1000000000 11000000001)
                           (Spec.cprExample 1000000000 11000000001)
      = Ok (lat, lon, true).
Proof.
  split; [reflexivity|].
  exists 52.265780174126057%float, 3.938912527901786%float.
  vm_compute. reflexivity.
Qed.

(** C1 (as amended).  For the worked example -- even raw latitude 93000 and
    longitude 51372, odd raw latitude 74158 and longitude 50194, both
    received, within the 10-second window -- with the even report at least
    as recent as the odd one, [Adsb.DecodeCPRPosition] resolves a position
    whose latitude is within 1e-3 degrees of 52.25713 N and whose longitude
    is within 1e-3 degrees of 3.91937 E; the table-driven
    [MapAdsb.DecodeCPRPosition], selecting the even report, resolves the
    same latitude. *)
Theorem cpr_worked_example (evenPos oddPos : Adsb.Aircraft.t) :
  Adsb.Aircraft.EvenCPRLat evenPos = 93000 ->
  Adsb.Aircraft.EvenCPRLon evenPos = 51372 ->
  Adsb.Aircraft.OddCPRLat oddPos = 74158 ->
  Adsb.Aircraft.OddCPRLon oddPos = 50194 ->
  GoTime.IsZero (Adsb.Aircraft.EvenCPRTime evenPos) = false ->
  GoTime.IsZero (Adsb.Aircraft.OddCPRTime oddPos) = false ->
  Z.abs (GoTime.Milliseconds
           (GoTime.Sub (Adsb.Aircraft.EvenCPRTime evenPos)
                       (Adsb.Aircraft.OddCPRTime oddPos))) <= 10000 ->
  GoTime.After (Adsb.Aircraft.OddCPRTime oddPos)
               (Adsb.Aircraft.EvenCPRTime evenPos) = false ->
  (exists lat lon,
     Adsb.DecodeCPRPosition evenPos oddPos = Ok (lat, lon, true) /\
     GoFloat.near lat Spec.exampleLat Spec.tolerance = true /\
     GoFloat.near lon Spec.exampleLon Spec.tolerance = true) /\
  (exists lat lon,
     MapAdsb.DecodeCPRPosition 93000 51372 74158 50194 false
       = Ok (lat, lon, true) /\
     GoFloat.near lat Spec.exampleLat Spec.tolerance = true).
Proof.
  intros HeLat HeLon HoLat HoLon HeT HoT Hwin Hafter.
  split.
  - exists 52.2572021484375%float, 3.91937255859375%float.
    split; [|split; vm_compute; reflexivity].
    unfold Adsb.DecodeCPRPosition.
    rewrite HeLat, HeLon, HoLat, HoLon, HeT, HoT, Hafter.
    destruct (Z.ltb_spec 10000
                (Z.abs (GoTime.Milliseconds
                          (GoTime.Sub (Adsb.Aircraft.EvenCPRTime evenPos)
                                      (Adsb.Aircraft.OddCPRTime oddPos)))));
      [lia|].
    vm_compute. reflexivity.
  - exists 52.2572021484375%float, 2.8795390226403064%float.
    split; vm_compute; reflexivity.
Qed.

Lemma cpr_worked_example_witness :
  (exists lat lon,
     Adsb.DecodeCPRPosition (Spec.cprExample 3000000000 1000000000)
                            (Spec.cprExample 3000000000 1000000000)
       = Ok (lat, lon, true) /\
     GoFloat.near lat Spec.exampleLat Spec.tolerance = true /\
     GoFloat.near lon Spec.exampleLon Spec.tolerance = true).
Proof.
  apply (cpr_worked_example (Spec.cprExample 3000000000 1000000000)
                            (Spec.cprExample 3000000000 1000000000));
    try reflexivity.
  vm_compute. discriminate.
Defined.

(** C1 as stated fails: with the odd report the more recent one, the
    resolver returns the odd-derived position, whose latitude and longitude
    both lie further than 1e-3 degrees from 52.25713 N, 3.91937 E. *)
Lemma cpr_worked_example_counterexample :
  GoTime.After (Adsb.Aircraft.OddCPRTime (Spec.cprExample 1000000000 3000000000))
               (Adsb.Aircraft.EvenCPRTime (Spec.cprExample 1000000000 3000000000))
    = true /\
  exists lat lon,
    Adsb.DecodeCPRPosition (Spec.cprExample 1000000000 3000000000)
                           (Spec.cprExample 1000000000 3000000000)
      = Ok (lat, lon, true) /\
    GoFloat.near lat Spec.exampleLat Spec.tolerance = false /\
    GoFloat.near lon Spec.exampleLon Spec.tolerance = false.
Proof.
  split; [reflexivity|].
  exists 52.265780174126057%float, 3.938912527901786%float.
  repeat split; vm_compute; reflexivity.
Qed.

(** C5.  At latitude 52 degrees, inside [-90, 90], the threshold-driven and
    the table-driven NL functions return different zone counts, 36 and 49. *)
Theorem nl_functions_disagree :
  exists lat : float,
    (-90 <=? lat)%float = true /\ (lat <=? 90)%float = true /\
    Adsb.cprNLFunction lat = 36 /\
    MapAdsb.cprNLFunction lat = Ok 49 /\
    MapAdsb.cprNLFunction lat <> Ok (Adsb.cprNLFunction lat).
Proof.
  exists 52%float.
  repeat split; try (vm_compute; reflexivity).
  vm_compute. discriminate.
Qed.

(** ** The trail *)

Section Trail.
Context {A : Type}.
Implicit Types (l xs : list A) (x : A).





Lemma pushBounded_lastN (cap : nat) l x :
  (1 <= cap)%nat -> (length l <= cap)%nat ->
  Spec.pushBounded cap l x = Spec.lastN cap (l ++ [x]).
Proof.
  intros Hcap Hl. unfold Spec.pushBounded, Spec.lastN.
  rewrite length_app. cbn [length].
  destruct (Nat.leb_spec cap (length l)).
  - replace (length l + 1 - cap)%nat with 1%nat by lia.
    rewrite drop_app_le by lia. reflexivity.
  - replace (length l + 1 - cap)%nat with 0%nat by lia.
    now rewrite drop_0.
Qed.


End Trail.

Lemma addToTrail_push (now : GoTime.instant) (a : Adsb.Aircraft.t)
  (lat lon : float) :
  Adsb.Aircraft.Trail (Adsb.addToTrail now a lat lon)
  = Spec.pushBounded Adsb.TrailLength (Adsb.Aircraft.Trail a)
      (Spec.sampleOf a (now, lat, lon)).
Proof. reflexivity. Qed.


Lemma appendTrail_push (cap : Z) (lat lon : float) (now : GoTime.instant)
  (a : MapAdsb.Aircraft.t) :
  0 < cap ->
  App.appendTrail cap lat lon now a
  = Ok (MapAdsb.Aircraft.set_Trail
          (Spec.pushBounded (Z.to_nat cap) (MapAdsb.Aircraft.Trail a)
             (Spec.appSampleOf a (now, lat, lon))) a).
Proof.
  intros Hcap. unfold App.appendTrail, Spec.pushBounded.
  destruct (Z.leb_spec cap (Z.of_nat (length (MapAdsb.Aircraft.Trail a))));
    destruct (Nat.leb_spec (Z.to_nat cap) (length (MapAdsb.Aircraft.Trail a)));
    try lia.
  - destruct (MapAdsb.Aircraft.Trail a) as [|y rest]; [cbn in *; lia|].
    reflexivity.
  - reflexivity.
Qed.


(** The bound holds of every track the store creates and survives every
    append, so it holds of every track the program reaches. *)
Lemma newAircraft_trail (icao : Z) (now1 now2 now : GoTime.instant) :
  Adsb.Aircraft.Trail (Adsb.newAircraft icao now1 now2) = [] /\
  MapAdsb.Aircraft.Trail (MapAdsb.newAircraft icao now) = [].
Proof. split; reflexivity. Qed.

Lemma addToTrail_within (now : GoTime.instant) (a : Adsb.Aircraft.t)
  (lat lon : float) :
  (length (Adsb.Aircraft.Trail a) <= Adsb.TrailLength)%nat ->
  (length (Adsb.Aircraft.Trail (Adsb.addToTrail now a lat lon))
   <= Adsb.TrailLength)%nat.
Proof.
  intros H. rewrite addToTrail_push, pushBounded_lastN
    by (unfold Adsb.TrailLength in *; lia).
  unfold Spec.lastN. rewrite length_drop, length_app. cbn [length].
  unfold Adsb.TrailLength in *. lia.
Qed.

Lemma appendTrail_within (cap : Z) (lat lon : float) (now : GoTime.instant)
  (a a' : MapAdsb.Aircraft.t) :
  0 < cap ->
  Z.of_nat (length (MapAdsb.Aircraft.Trail a)) <= cap ->
  App.appendTrail cap lat lon now a = Ok a' ->
  Z.of_nat (length (MapAdsb.Aircraft.Trail a')) <= cap.
Proof.
  intros Hcap H Hrun. rewrite appendTrail_push in Hrun by assumption.
  injection Hrun as <-.
  cbn [MapAdsb.Aircraft.Trail MapAdsb.Aircraft.set_Trail].
  rewrite pushBounded_lastN by lia.
  unfold Spec.lastN. rewrite length_drop, length_app. cbn [length]. lia.
Qed.

(** A configured length of zero is outside the bound: the first update
    reslices an empty trail. *)
Lemma appendTrail_zero_length (lat lon : float) (now : GoTime.instant)
  (a : MapAdsb.Aircraft.t) :
  MapAdsb.Aircraft.Trail a = [] -> App.appendTrail 0 lat lon now a = Panic.
Proof. intros H. unfold App.appendTrail. rewrite H. reflexivity. Qed.



(** ** The aircraft store *)

Lemma GetOrCreate_hit (now1 now2 : GoTime.instant) (icao : Z)
  (am : Adsb.AircraftMap) (p : Adsb.loc) :
  Adsb.data am !! icao = Some p ->
  Adsb.GetOrCreate now1 now2 icao am = (p, am).
Proof. intros H. unfold Adsb.GetOrCreate. now rewrite H. Qed.

Lemma GetOrCreate_present (now1 now2 : GoTime.instant) (icao : Z)
  (am : Adsb.AircraftMap) :
  Adsb.data (Adsb.GetOrCreate now1 now2 icao am).2 !! icao
  = Some (Adsb.GetOrCreate now1 now2 icao am).1.
Proof.
  unfold Adsb.GetOrCreate.
  destruct (Adsb.data am !! icao) as [p|] eqn:E; cbn [fst snd Adsb.data];
    [exact E | apply lookup_insert_eq].
Qed.

Lemma map_GetOrCreate_hit (now : GoTime.instant) (icao : Z)
  (am : MapAdsb.AircraftMap) (p : MapAdsb.loc) :
  MapAdsb.data am !! icao = Some p ->
  MapAdsb.GetOrCreate now icao am = (p, am).
Proof. intros H. unfold MapAdsb.GetOrCreate. now rewrite H. Qed.

Lemma map_GetOrCreate_present (now : GoTime.instant) (icao : Z)
  (am : MapAdsb.AircraftMap) :
  MapAdsb.data (MapAdsb.GetOrCreate now icao am).2 !! icao
  = Some (MapAdsb.GetOrCreate now icao am).1.
Proof.
  unfold MapAdsb.GetOrCreate.
  destruct (MapAdsb.data am !! icao) as [p|] eqn:E;
    cbn [fst snd MapAdsb.data]; [exact E | apply lookup_insert_eq].
Qed.

(** C10.  The first [GetOrCreate] of an address registers a track under
    it.  On any later store that still maps the address to that track --
    whatever was written to the tracks and whichever other addresses were
    created in between -- a second [GetOrCreate] returns the same pointer
    and leaves the store as it found it: same size, same association, and
    every object, the track included, unmodified. *)
Theorem GetOrCreate_idempotent
  (now1 now2 now3 now4 : GoTime.instant) (icao : Z)
  (am am' : Adsb.AircraftMap) (bm bm' : MapAdsb.AircraftMap) :
  (let r1 := Adsb.GetOrCreate now1 now2 icao am in
   Adsb.data r1.2 !! icao = Some r1.1 /\
   (Adsb.data am' !! icao = Some r1.1 ->
    let r2 := Adsb.GetOrCreate now3 now4 icao am' in
    r2.1 = r1.1 /\ r2.2 = am' /\ Adsb.Len r2.2 = Adsb.Len am' /\
    Adsb.data r2.2 = Adsb.data am' /\ Adsb.mem r2.2 = Adsb.mem am')) /\
  (let r1 := MapAdsb.GetOrCreate now1 icao bm in
   MapAdsb.data r1.2 !! icao = Some r1.1 /\
   (MapAdsb.data bm' !! icao = Some r1.1 ->
    let r2 := MapAdsb.GetOrCreate now3 icao bm' in
    r2.1 = r1.1 /\ r2.2 = bm' /\ MapAdsb.Len r2.2 = MapAdsb.Len bm' /\
    MapAdsb.data r2.2 = MapAdsb.data bm' /\
    MapAdsb.mem r2.2 = MapAdsb.mem bm')).
Proof.
  split; cbv zeta.
  - split; [apply GetOrCreate_present|].
    intros Hin. rewrite (GetOrCreate_hit now3 now4 icao _ _ Hin).
    cbn [fst snd]. repeat split; reflexivity.
  - split; [apply map_GetOrCreate_present|].
    intros Hin. rewrite (map_GetOrCreate_hit now3 icao _ _ Hin).
    cbn [fst snd]. repeat split; reflexivity.
Qed.

Lemma GetOrCreate_idempotent_witness :
  (Adsb.data Spec.laterStore !! 100
   = Some (Adsb.GetOrCreate 0 0 100 Adsb.NewAircraftMap).1 /\
   Adsb.Len Spec.laterStore = 2%nat /\
   (Adsb.GetOrCreate 9 9 100 Spec.laterStore).1
   = (Adsb.GetOrCreate 0 0 100 Adsb.NewAircraftMap).1 /\
   (Adsb.GetOrCreate 9 9 100 Spec.laterStore).2 = Spec.laterStore) /\
  (MapAdsb.data Spec.mapLaterStore !! 100
   = Some (MapAdsb.GetOrCreate 0 100 MapAdsb.NewAircraftMap).1 /\
   MapAdsb.Len Spec.mapLaterStore = 2%nat /\
   (MapAdsb.GetOrCreate 9 100 Spec.mapLaterStore).1
   = (MapAdsb.GetOrCreate 0 100 MapAdsb.NewAircraftMap).1 /\
   (MapAdsb.GetOrCreate 9 100 Spec.mapLaterStore).2 = Spec.mapLaterStore).
Proof.
  assert (Ha : Adsb.data Spec.laterStore !! 100
               = Some (Adsb.GetOrCreate 0 0 100 Adsb.NewAircraftMap).1)
    by (vm_compute; reflexivity).
  assert (Hb : MapAdsb.data Spec.mapLaterStore !! 100
               = Some (MapAdsb.GetOrCreate 0 100 MapAdsb.NewAircraftMap).1)
    by (vm_compute; reflexivity).
  destruct (GetOrCreate_idempotent 0 0 9 9 100 Adsb.NewAircraftMap
              Spec.laterStore MapAdsb.NewAircraftMap Spec.mapLaterStore)
    as ((_ & Hadsb) & (_ & Hmap)).
  destruct (Hadsb Ha) as (Hp & Hs & _).
  destruct (Hmap Hb) as (Hq & Ht & _).
  split.
  - split; [exact Ha|]. split; [vm_compute; reflexivity|].
    split; [exact Hp | exact Hs].
  - split; [exact Hb|]. split; [vm_compute; reflexivity|].
    split; [exact Hq | exact Ht].
Defined.

(** The store's pointers are valid from the start and stay so. *)
Lemma validPointers_new : Adsb.validPointers Adsb.NewAircraftMap.
Proof. intros icao p H. cbn in H. now rewrite lookup_empty in H. Qed.

Lemma validPointers_GetOrCreate (now1 now2 : GoTime.instant) (icao : Z)
  (am : Adsb.AircraftMap) :
  Adsb.validPointers am ->
  Adsb.validPointers (Adsb.GetOrCreate now1 now2 icao am).2.
Proof.
  intros Hv. unfold Adsb.GetOrCreate.
  destruct (Adsb.data am !! icao) as [p|] eqn:E; cbn [snd]; [exact Hv|].
  intros k q. cbn [Adsb.data Adsb.mem].
  destruct (decide (icao = k)) as [->|Hne].
  - rewrite lookup_insert_eq. intros [= <-]. rewrite lookup_insert_eq. eauto.
  - rewrite lookup_insert_ne by assumption. intros Hk.
    destruct (Hv k q Hk) as [a Ha].
    destruct (decide (fresh (dom (Adsb.mem am)) = q)) as [Hq|Hq].
    + rewrite Hq, lookup_insert_eq. eauto.
    + rewrite lookup_insert_ne by assumption. eauto.
Qed.

Lemma map_validPointers_GetOrCreate (now : GoTime.instant) (icao : Z)
  (am : MapAdsb.AircraftMap) :
  MapAdsb.validPointers am ->
  MapAdsb.validPointers (MapAdsb.GetOrCreate now icao am).2.
Proof.
  intros Hv. unfold MapAdsb.GetOrCreate.
  destruct (MapAdsb.data am !! icao) as [p|] eqn:E; cbn [snd]; [exact Hv|].
  intros k q. cbn [MapAdsb.data MapAdsb.mem].
  destruct (decide (icao = k)) as [->|Hne].
  - rewrite lookup_insert_eq. intros [= <-]. rewrite lookup_insert_eq. eauto.
  - rewrite lookup_insert_ne by assumption. intros Hk.
    destruct (Hv k q Hk) as [a Ha].
    destruct (decide (fresh (dom (MapAdsb.mem am)) = q)) as [Hq|Hq].
    + rewrite Hq, lookup_insert_eq. eauto.
    + rewrite lookup_insert_ne by assumption. eauto.
Qed.

(** The sweep, as a fold that deletes from the map it ranges over, keeps
    exactly the entries that are not stale. *)
Section Sweep.
Context {T : Type}.
Variable m : gmap positive T.
Variable stale : T -> bool.
Variable step : Z -> positive -> outcome (gmap Z positive)
                -> outcome (gmap Z positive).
Hypothesis step_eq : forall k p acc,
  step k p acc =
    (d ← acc;
     match m !! p with
     | Some a => if stale a then Ok (delete k d) else Ok d
     | None => Panic
     end).


Lemma sweep_fold (d : gmap Z positive) :
  (forall k p, d !! k = Some p -> is_Some (m !! p)) ->
  exists d', map_fold step (Ok d) d = Ok d' /\ forall k, d' !! k = Spec.swept m stale d k.
Proof.
  intros Hv.
  pose (P := fun (r : outcome (gmap Z positive)) (d0 : gmap Z positive) =>
               (forall k p, d0 !! k = Some p -> is_Some (m !! p)) ->
               exists d', r = Ok d' /\
                 forall k, d' !! k =
                   match d0 !! k with
                   | Some p =>
                       match m !! p with
                       | Some a => if stale a then None else d !! k
                       | None => d !! k
                       end
                   | None => d !! k
                   end).
  assert (HP : P (map_fold step (Ok d) d) d).
  { apply (map_fold_weak_ind P).
    - intros _. exists d. split; [reflexivity|]. intros k.
      now rewrite lookup_empty.
    - intros i x d0 r Hi IH Hv0.
      destruct IH as (d' & -> & Hd').
      { intros k p Hk. apply (Hv0 k p).
        rewrite lookup_insert_ne; [assumption|]. congruence. }
      rewrite step_eq. unfold mbind, outcome_bind.
      destruct (Hv0 i x) as [a Ha]; [apply lookup_insert_eq|].
      rewrite Ha.
      destruct (stale a) eqn:Hs.
      + exists (delete i d'). split; [reflexivity|]. intros k.
        destruct (decide (i = k)) as [->|Hne].
        * rewrite lookup_delete_eq, lookup_insert_eq, Ha, Hs. reflexivity.
        * rewrite lookup_delete_ne, lookup_insert_ne by assumption. apply Hd'.
      + exists d'. split; [reflexivity|]. intros k.
        destruct (decide (i = k)) as [->|Hne].
        * rewrite lookup_insert_eq, Ha, Hs. rewrite Hd', Hi. reflexivity.
        * rewrite lookup_insert_ne by assumption. apply Hd'. }
  destruct (HP Hv) as (d' & Hrun & Hd').
  exists d'. split; [exact Hrun|]. intros k. rewrite Hd'. unfold Spec.swept.
  destruct (d !! k) as [p|] eqn:Hk; [|reflexivity].
  destruct (m !! p) as [a|] eqn:Hp.
  - destruct (stale a); reflexivity.
  - destruct (Hv k p Hk) as [a Ha]. congruence.
Qed.

End Sweep.

Lemma map_validPointers_new : MapAdsb.validPointers MapAdsb.NewAircraftMap.
Proof. intros icao p H. cbn in H. now rewrite lookup_empty in H. Qed.

Lemma RemoveStale_spec (now : GoTime.instant) (ttl : GoTime.Duration)
  (am : Adsb.AircraftMap) :
  Adsb.validPointers am ->
  exists am',
    Adsb.RemoveStale now ttl am = Ok am' /\
    Adsb.mem am' = Adsb.mem am /\
    forall icao,
      Adsb.data am' !! icao
      = Spec.swept (Adsb.mem am)
              (fun a => ttl <? GoTime.Sub now (Adsb.Aircraft.Seen a))
              (Adsb.data am) icao.
Proof.
  intros Hv.
  destruct (sweep_fold (Adsb.mem am)
              (fun a => ttl <? GoTime.Sub now (Adsb.Aircraft.Seen a))
              (Adsb.sweepStep (Adsb.mem am) now ttl)
              (fun k p acc => eq_refl) (Adsb.data am) Hv)
    as (d' & Hrun & Hd').
  exists (Adsb.mkAircraftMap (Adsb.mem am) d').
  unfold Adsb.RemoveStale. rewrite Hrun. auto.
Qed.

Lemma map_RemoveStale_spec (now : GoTime.instant) (ttl : GoTime.Duration)
  (am : MapAdsb.AircraftMap) :
  MapAdsb.validPointers am ->
  exists am',
    MapAdsb.RemoveStale now ttl am = Ok am' /\
    MapAdsb.mem am' = MapAdsb.mem am /\
    forall icao,
      MapAdsb.data am' !! icao
      = Spec.swept (MapAdsb.mem am)
              (fun a => ttl <? GoTime.Sub now (MapAdsb.Aircraft.Seen a))
              (MapAdsb.data am) icao.
Proof.
  intros Hv.
  destruct (sweep_fold (MapAdsb.mem am)
              (fun a => ttl <? GoTime.Sub now (MapAdsb.Aircraft.Seen a))
              (MapAdsb.sweepStep (MapAdsb.mem am) now ttl)
              (fun k p acc => eq_refl) (MapAdsb.data am) Hv)
    as (d' & Hrun & Hd').
  exists (MapAdsb.mkAircraftMap (MapAdsb.mem am) d').
  unfold MapAdsb.RemoveStale. rewrite Hrun. auto.
Qed.

(** C8.  On a store whose pointers are valid, a sweep with TTL [ttl] at
    time [now] returns; afterwards every track with
    [now.Sub(last_seen) > ttl] is absent, every track with
    [now.Sub(last_seen) <= ttl] is still present under its address, at the
    same pointer and with the same contents, no address is added, and no
    object is changed. *)
Theorem RemoveStale_sweep (now : GoTime.instant) (ttl : GoTime.Duration)
  (am : Adsb.AircraftMap) (bm : MapAdsb.AircraftMap) :
  Adsb.validPointers am ->
  MapAdsb.validPointers bm ->
  (exists am',
     Adsb.RemoveStale now ttl am = Ok am' /\
     Adsb.mem am' = Adsb.mem am /\
     (forall icao, Adsb.data am !! icao = None ->
                   Adsb.data am' !! icao = None) /\
     forall icao p a,
       Adsb.data am !! icao = Some p -> Adsb.mem am !! p = Some a ->
       (ttl < GoTime.Sub now (Adsb.Aircraft.Seen a) ->
        Adsb.data am' !! icao = None) /\
       (GoTime.Sub now (Adsb.Aircraft.Seen a) <= ttl ->
        Adsb.data am' !! icao = Some p /\ Adsb.mem am' !! p = Some a)) /\
  (exists bm',
     MapAdsb.RemoveStale now ttl bm = Ok bm' /\
     MapAdsb.mem bm' = MapAdsb.mem bm /\
     (forall icao, MapAdsb.data bm !! icao = None ->
                   MapAdsb.data bm' !! icao = None) /\
     forall icao p a,
       MapAdsb.data bm !! icao = Some p -> MapAdsb.mem bm !! p = Some a ->
       (ttl < GoTime.Sub now (MapAdsb.Aircraft.Seen a) ->
        MapAdsb.data bm' !! icao = None) /\
       (GoTime.Sub now (MapAdsb.Aircraft.Seen a) <= ttl ->
        MapAdsb.data bm' !! icao = Some p /\ MapAdsb.mem bm' !! p = Some a)).
Proof.
  intros Ha Hb. split.
  - destruct (RemoveStale_spec now ttl am Ha) as (am' & Hrun & Hmem & Hd).
    exists am'. split; [exact Hrun|]. split; [exact Hmem|]. split.
    + intros icao Hnone. rewrite Hd. unfold Spec.swept. now rewrite Hnone.
    + intros icao p a Hk Hp. rewrite Hd, Hmem. unfold Spec.swept.
      rewrite Hk, Hp. split; intros Hs.
      * destruct (Z.ltb_spec ttl (GoTime.Sub now (Adsb.Aircraft.Seen a)));
          [reflexivity | lia].
      * destruct (Z.ltb_spec ttl (GoTime.Sub now (Adsb.Aircraft.Seen a)));
          [lia | auto].
  - destruct (map_RemoveStale_spec now ttl bm Hb) as (bm' & Hrun & Hmem & Hd).
    exists bm'. split; [exact Hrun|]. split; [exact Hmem|]. split.
    + intros icao Hnone. rewrite Hd. unfold Spec.swept. now rewrite Hnone.
    + intros icao p a Hk Hp. rewrite Hd, Hmem. unfold Spec.swept.
      rewrite Hk, Hp. split; intros Hs.
      * destruct (Z.ltb_spec ttl (GoTime.Sub now (MapAdsb.Aircraft.Seen a)));
          [reflexivity | lia].
      * destruct (Z.ltb_spec ttl (GoTime.Sub now (MapAdsb.Aircraft.Seen a)));
          [lia | auto].
Qed.

Lemma twoTracks_valid : Adsb.validPointers Spec.twoTracks.
Proof.
  unfold Spec.twoTracks.
  apply validPointers_GetOrCreate, validPointers_GetOrCreate,
    validPointers_new.
Qed.

Lemma mapTwoTracks_valid : MapAdsb.validPointers Spec.mapTwoTracks.
Proof.
  unfold Spec.mapTwoTracks.
  apply map_validPointers_GetOrCreate, map_validPointers_GetOrCreate,
    map_validPointers_new.
Qed.

Lemma RemoveStale_sweep_witness :
  Adsb.validPointers Spec.twoTracks /\
  MapAdsb.validPointers Spec.mapTwoTracks /\
  (exists am',
     Adsb.RemoveStale (100 * GoTime.Second) (30 * GoTime.Second)
                      Spec.twoTracks = Ok am' /\
     Adsb.data am' !! 200 = None /\
     Adsb.data am' !! 100 = Adsb.data Spec.twoTracks !! 100 /\
     Adsb.mem am' = Adsb.mem Spec.twoTracks) /\
  (exists bm',
     MapAdsb.RemoveStale (100 * GoTime.Second) (30 * GoTime.Second)
                         Spec.mapTwoTracks = Ok bm' /\
     MapAdsb.data bm' !! 200 = None /\
     MapAdsb.data bm' !! 100 = MapAdsb.data Spec.mapTwoTracks !! 100).
Proof.
  split; [exact twoTracks_valid|]. split; [exact mapTwoTracks_valid|].
  destruct (RemoveStale_sweep (100 * GoTime.Second) (30 * GoTime.Second)
              Spec.twoTracks Spec.mapTwoTracks
              twoTracks_valid mapTwoTracks_valid)
    as ((am' & Hrun & Hmem & _ & Hall) & (bm' & Hrun' & _ & _ & Hall')).
  split.
  - exists am'. split; [exact Hrun|].
    destruct (Adsb.data Spec.twoTracks !! 200) as [p|] eqn:Hp;
      [|vm_compute in Hp; discriminate].
    destruct (Adsb.mem Spec.twoTracks !! p) as [a|] eqn:Ha;
      [|vm_compute in Hp; injection Hp as <-; vm_compute in Ha; discriminate].
    destruct (Adsb.data Spec.twoTracks !! 100) as [q|] eqn:Hq;
      [|vm_compute in Hq; discriminate].
    destruct (Adsb.mem Spec.twoTracks !! q) as [b|] eqn:Hb;
      [|vm_compute in Hq; injection Hq as <-; vm_compute in Hb; discriminate].
    split; [|split; [|exact Hmem]].
    + apply (Hall 200 p a Hp Ha).
      vm_compute in Hp. injection Hp as <-.
      vm_compute in Ha. injection Ha as <-. vm_compute. reflexivity.
    + apply (Hall 100 q b Hq Hb).
      vm_compute in Hq. injection Hq as <-.
      vm_compute in Hb. injection Hb as <-. vm_compute. discriminate.
  - exists bm'. split; [exact Hrun'|].
    destruct (MapAdsb.data Spec.mapTwoTracks !! 200) as [p|] eqn:Hp;
      [|vm_compute in Hp; discriminate].
    destruct (MapAdsb.mem Spec.mapTwoTracks !! p) as [a|] eqn:Ha;
      [|vm_compute in Hp; injection Hp as <-; vm_compute in Ha; discriminate].
    destruct (MapAdsb.data Spec.mapTwoTracks !! 100) as [q|] eqn:Hq;
      [|vm_compute in Hq; discriminate].
    destruct (MapAdsb.mem Spec.mapTwoTracks !! q) as [b|] eqn:Hb;
      [|vm_compute in Hq; injection Hq as <-; vm_compute in Hb; discriminate].
    split.
    + apply (Hall' 200 p a Hp Ha).
      vm_compute in Hp. injection Hp as <-.
      vm_compute in Ha. injection Ha as <-. vm_compute. reflexivity.
    + apply (Hall' 100 q b Hq Hb).
      vm_compute in Hq. injection Hq as <-.
      vm_compute in Hb. injection Hb as <-. vm_compute. discriminate.
Defined.

(** ** Beast frames *)

Lemma foldl_appendEscaped (data buf : list byte) :
  foldl Beast.appendEscaped buf data = buf ++ flat_map Spec.stuffed data.
Proof.
  revert buf. induction data as [|b data IH]; intros buf.
  - cbn. now rewrite app_nil_r.
  - cbn [foldl flat_map]. rewrite IH.
    unfold Beast.appendEscaped, Spec.stuffed.
    destruct (Byte.eqb b Beast.EscapeChar); now rewrite <- ?app_assoc.
Qed.

(** The encoder's output: the two header bytes, then every field byte
    stuffed, in the order timestamp, signal level, payload. *)
Lemma encodeBeastMessage_flat (msgType : byte) (data : list byte)
  (timestamp : Z) (signalLevel : byte) :
  Beast.encodeBeastMessage msgType data timestamp signalLevel
  = Beast.EscapeChar :: msgType
    :: flat_map Spec.stuffed
         (Spec.timestampBytes timestamp ++ signalLevel :: data).
Proof.
  unfold Beast.encodeBeastMessage. cbv zeta.
  rewrite foldl_appendEscaped.
  change (Beast.appendEscaped ?b signalLevel)
    with (foldl Beast.appendEscaped b [signalLevel]).
  rewrite foldl_appendEscaped.
  change (foldl (fun buf i =>
                   Beast.appendEscaped buf
                     (byte_of_Z (Z.land (Z.shiftr timestamp (8 * i)) 255)))
                ([] ++ [Beast.EscapeChar; msgType]) [5; 4; 3; 2; 1; 0])
    with (foldl Beast.appendEscaped ([] ++ [Beast.EscapeChar; msgType])
                (Spec.timestampBytes timestamp)).
  rewrite foldl_appendEscaped.
  rewrite !flat_map_app. cbn [app flat_map]. rewrite app_nil_r.
  now rewrite <- !app_assoc.
Qed.

Lemma readStuffed_stuffed (l rest : list byte) :
  Beast.readStuffed (length l) (flat_map Spec.stuffed l ++ rest)
  = Some (l, rest).
Proof.
  induction l as [|b l IH]; [reflexivity|].
  cbn [length flat_map]. unfold Spec.stuffed at 1.
  destruct (Byte.eqb b Beast.EscapeChar) eqn:Hb;
    cbn [app Beast.readStuffed]; rewrite ?Hb, IH; reflexivity.
Qed.

Lemma kindOfByte_kindByte (k : Beast.FrameKind) :
  Beast.kindOfByte (Beast.kindByte k) = Some k.
Proof. destruct k; reflexivity. Qed.

Lemma land_255 (x : Z) : Z.land x 0xFF = x mod 256.
Proof. change 0xFF with (Z.ones 8). now rewrite Z.land_ones by lia. Qed.

(** Six big-endian bytes carry the timestamp modulo 2^48. *)
Lemma bigEndian_timestampBytes (timestamp : Z) :
  Beast.bigEndian (Spec.timestampBytes timestamp) = timestamp mod 2 ^ 48.
Proof.
  unfold Beast.bigEndian, Spec.timestampBytes. cbn [map foldl].
  rewrite !u8_byte_of_Z, !land_255, !Z.shiftr_div_pow2 by lia.
  change (2 ^ (8 * 5)) with 1099511627776.
  change (2 ^ (8 * 4)) with 4294967296.
  change (2 ^ (8 * 3)) with 16777216.
  change (2 ^ (8 * 2)) with 65536.
  change (2 ^ (8 * 1)) with 256.
  change (2 ^ (8 * 0)) with 1.
  change (2 ^ 48) with 281474976710656.
  rewrite !Zmod_mod.
  Z.div_mod_to_equations. lia.
Qed.

Lemma decodeFrame_encode (f : Beast.Frame) (rest : list byte) :
  length (Beast.payload f) = Beast.payloadLength (Beast.kind f) ->
  Beast.decodeFrame (Beast.encode f ++ rest)
  = Some (Beast.mkFrame (Beast.kind f) (Beast.timestamp f mod 2 ^ 48)
                        (Beast.signal_level f) (Beast.payload f),
          rest).
Proof.
  intros Hlen. unfold Beast.encode. rewrite encodeBeastMessage_flat.
  cbn [app Beast.decodeFrame].
  change (Byte.eqb Beast.EscapeChar Beast.EscapeChar) with true. cbv iota.
  rewrite kindOfByte_kindByte.
  replace (6 + 1 + Beast.payloadLength (Beast.kind f))%nat
    with (length (Spec.timestampBytes (Beast.timestamp f)
                  ++ Beast.signal_level f :: Beast.payload f))
    by (rewrite length_app; cbn [length Spec.timestampBytes map]; lia).
  rewrite readStuffed_stuffed.
  rewrite take_app_length' by reflexivity.
  rewrite bigEndian_timestampBytes.
  reflexivity.
Qed.

(** C9 (as amended).  For every frame whose payload has the length its kind
    fixes and whose timestamp fits the six timestamp bytes of the wire
    format (it is below 2^48), encoding with the byte-stuffing encoder and
    decoding the stream -- whatever follows the frame in it -- gives back
    the exact (kind, timestamp, signal level, payload), escape bytes in any
    field included. *)
Theorem beast_roundtrip (f : Beast.Frame) (rest : list byte) :
  length (Beast.payload f) = Beast.payloadLength (Beast.kind f) ->
  0 <= Beast.timestamp f < 2 ^ 48 ->
  Beast.decodeFrame (Beast.encode f ++ rest) = Some (f, rest).
Proof.
  intros Hlen Hts. rewrite decodeFrame_encode by assumption.
  rewrite Z.mod_small by assumption. now destruct f.
Qed.

Lemma beast_roundtrip_witness :
  length (Beast.payload Spec.escapedFrame)
    = Beast.payloadLength (Beast.kind Spec.escapedFrame) /\
  0 <= Beast.timestamp Spec.escapedFrame < 2 ^ 48 /\
  Beast.decodeFrame (Beast.encode Spec.escapedFrame ++ [x1a; x33])
    = Some (Spec.escapedFrame, [x1a; x33]).
Proof.
  assert (Hl : length (Beast.payload Spec.escapedFrame)
               = Beast.payloadLength (Beast.kind Spec.escapedFrame))
    by reflexivity.
  assert (Ht : 0 <= Beast.timestamp Spec.escapedFrame < 2 ^ 48)
    by (vm_compute; split; [discriminate | reflexivity]).
  split; [exact Hl|]. split; [exact Ht|].
  exact (beast_roundtrip Spec.escapedFrame [x1a; x33] Hl Ht).
Defined.

(** C9 as stated fails: a frame of the data model has a 64-bit timestamp,
    the encoder writes its low 48 bits only, and the frame with timestamp
    2^48 comes back with timestamp 0. *)
Lemma beast_roundtrip_counterexample :
  Beast.wellFormed Spec.lateFrame /\
  Beast.decodeFrame (Beast.encode Spec.lateFrame)
    = Some (Beast.mkFrame Beast.LongModeS 0 x00 (replicate 14 x00), []) /\
  Beast.decodeFrame (Beast.encode Spec.lateFrame) <> Some (Spec.lateFrame, []).
Proof.
  split; [split; [reflexivity | vm_compute; split; [discriminate | reflexivity]]|].
  split; [vm_compute; reflexivity|].
  vm_compute. discriminate.
Qed.

(** ** DecodeMessage on extended squitter *)

Ltac split_ifs :=
  repeat match goal with
         | |- context [if ?c then _ else _] => destruct c
         end.

Lemma vertRateOf_key (data : list byte) (msg : Adsb.Message.t) :
  Adsb.Message.DF (Adsb.vertRateOf data msg) = Adsb.Message.DF msg /\
  Adsb.Message.ICAO (Adsb.vertRateOf data msg) = Adsb.Message.ICAO msg.
Proof. unfold Adsb.vertRateOf. cbv zeta. split_ifs; split; reflexivity. Qed.

Lemma decodeVelocityTC_key (Atan2 : float -> float -> float)
  (data : list byte) (msg : Adsb.Message.t) :
  Adsb.Message.DF (Adsb.decodeVelocityTC Atan2 data msg) = Adsb.Message.DF msg /\
  Adsb.Message.ICAO (Adsb.decodeVelocityTC Atan2 data msg)
  = Adsb.Message.ICAO msg.
Proof.
  unfold Adsb.decodeVelocityTC.
  destruct (_ || _).
  - match goal with
    | |- context [Adsb.vertRateOf data ?m] =>
        destruct (vertRateOf_key data m) as [-> ->]
    end.
    split_ifs; split; reflexivity.
  - destruct (_ || _); [|split; reflexivity].
    match goal with
    | |- context [Adsb.vertRateOf data ?m] =>
        destruct (vertRateOf_key data m) as [-> ->]
    end.
    split_ifs; split; reflexivity.
Qed.

Lemma decodeExtendedSquitter_key (Atan2 : float -> float -> float)
  (df : Z) (data : list byte) (msg : Adsb.Message.t) :
  Adsb.Message.DF (Adsb.decodeExtendedSquitter Atan2 df data msg)
  = Adsb.Message.DF msg /\
  Adsb.Message.ICAO (Adsb.decodeExtendedSquitter Atan2 df data msg)
  = Spec.frameICAO data.
Proof.
  unfold Adsb.decodeExtendedSquitter. cbv zeta.
  repeat match goal with
         | |- context [if ?c then _ else _] =>
             lazymatch c with
             | context [Adsb.decodeVelocityTC] => fail
             | _ => destruct c
             end
         | |- context [Adsb.decodeVelocityTC Atan2 data ?m] =>
             destruct (decodeVelocityTC_key Atan2 data m) as [-> ->]
         end;
    split; reflexivity.
Qed.

Lemma DecodeMessage_short (Atan2 : float -> float -> float)
  (data : list byte) (timestamp : GoTime.instant) :
  Spec.extendedSquitter data -> (length data < 14)%nat ->
  Adsb.DecodeMessage Atan2 data timestamp = None.
Proof.
  intros Hdf Hlen. unfold Adsb.DecodeMessage.
  destruct (length data <? 2)%nat; [reflexivity|]. cbv zeta.
  fold (Spec.frameDF data).
  destruct (Nat.ltb_spec (length data) 14) as [_|?]; [|lia].
  destruct Hdf as [-> | ->]; reflexivity.
Qed.

Lemma DecodeMessage_long (Atan2 : float -> float -> float)
  (data : list byte) (timestamp : GoTime.instant) :
  Spec.extendedSquitter data -> (14 <= length data)%nat ->
  exists msg,
    Adsb.DecodeMessage Atan2 data timestamp = Some msg /\
    Adsb.Message.DF msg = Spec.frameDF data /\
    Adsb.Message.ICAO msg = Spec.frameICAO data.
Proof.
  intros Hdf Hlen. unfold Adsb.DecodeMessage.
  destruct (Nat.ltb_spec (length data) 2) as [?|_]; [lia|]. cbv zeta.
  fold (Spec.frameDF data).
  destruct (Nat.ltb_spec (length data) 14) as [?|_]; [lia|].
  destruct Hdf as [Hdf | Hdf]; rewrite Hdf; cbn [Z.eqb orb Adsb.DF0 Adsb.DF16
    Adsb.DF4 Adsb.DF20 Adsb.DF5 Adsb.DF21 Adsb.DF11 Adsb.DF17 Adsb.DF18];
    eexists; (split; [reflexivity|]);
    apply decodeExtendedSquitter_key.
Qed.

(** ** processModeS on frames without a readable body *)

Lemma decodeBody_skip (wall : nat -> GoTime.instant)
  (Atan2 : float -> float -> float) (data : App.slice) (p : positive)
  (w : App.t) :
  Spec.skipsBody data -> App.decodeBody wall Atan2 data p w = Ok (tt, w).
Proof.
  intros H. unfold App.decodeBody.
  destruct H as [H4 | (H5 & Htc1 & Htc2 & Htc3)].
  - rewrite H4. reflexivity.
  - destruct (Nat.leb_spec 5 (App.len data)) as [_|?]; [|lia].
    cbv zeta in *. fold (Spec.frameTypeCode (App.visible data)).
    set (tc := Spec.frameTypeCode (App.visible data)) in *.
    destruct (Z.leb_spec 1 tc), (Z.leb_spec tc 4); cbn [andb]; try lia;
      destruct (Z.leb_spec 9 tc), (Z.leb_spec tc 18); cbn [andb]; try lia;
      destruct (Z.eqb_spec tc 19) as [E|_]; try reflexivity;
      specialize (Htc3 E); unfold MapAdsb.DecodeVelocity;
      fold (App.len data);
      (destruct (Nat.ltb_spec (App.len data) 10) as [_|?]; [reflexivity | lia]).
Qed.

Ltac simpl_app :=
  repeat progress
    (cbn [App.aircraft App.config App.ticks App.set_ticks App.set_aircraft
          App.set_msgRateAcc App.set_sigAcc MapAdsb.mem MapAdsb.data
          MapAdsb.Aircraft.Messages MapAdsb.Aircraft.set_Seen
          MapAdsb.Aircraft.set_SignalLevel];
     rewrite ?lookup_insert_eq).

Lemma recordMessage_ok (wall : nat -> GoTime.instant) (mm : MapAdsb.Message.t)
  (p : positive) (w : App.t) (ac : MapAdsb.Aircraft.t) :
  MapAdsb.mem (App.aircraft w) !! p = Some ac ->
  0 <= MapAdsb.Aircraft.Messages ac ->
  exists w' now sl n,
    App.recordMessage wall mm p w = Ok (tt, w') /\
    MapAdsb.data (App.aircraft w') = MapAdsb.data (App.aircraft w) /\
    MapAdsb.mem (App.aircraft w') !! p
    = Some (MapAdsb.Aircraft.set_Messages n
              (MapAdsb.Aircraft.set_SignalLevel sl
                 (MapAdsb.Aircraft.set_Seen now ac))).
Proof.
  intros Hp Hm.
  unfold App.recordMessage, mbind, App.M_bind.
  unfold App.timeNow, App.update, App.deref, App.modify.
  simpl_app. rewrite Hp. simpl_app.
  destruct (Z.ltb_spec (Z.rem (MapAdsb.Aircraft.Messages ac) 8) 0) as [Hneg|_].
  { pose proof (Z.rem_nonneg (MapAdsb.Aircraft.Messages ac) 8). lia. }
  simpl_app.
  do 4 eexists. split; [reflexivity|]. simpl_app.
  split; reflexivity.
Qed.

Lemma getOrCreate_ok (wall : nat -> GoTime.instant) (icao : Z) (w : App.t) :
  App.validState w ->
  exists p w1 ac,
    App.getOrCreate wall icao w = Ok (p, w1) /\
    MapAdsb.data (App.aircraft w1) !! icao = Some p /\
    MapAdsb.mem (App.aircraft w1) !! p = Some ac /\
    0 <= MapAdsb.Aircraft.Messages ac /\
    match MapAdsb.data (App.aircraft w) !! icao with
    | Some q => q = p /\ MapAdsb.mem (App.aircraft w) !! q = Some ac
    | None => ac = MapAdsb.newAircraft icao (wall (App.ticks w))
    end.
Proof.
  intros Hv. unfold App.getOrCreate, MapAdsb.Get.
  destruct (MapAdsb.data (App.aircraft w) !! icao) as [q|] eqn:Hq.
  - destruct (Hv icao q Hq) as (ac & Hac & Hm).
    exists q, w, ac. repeat split; auto.
  - unfold MapAdsb.GetOrCreate. rewrite Hq.
    eexists _, _, _. split; [reflexivity|].
    cbn [App.aircraft App.set_ticks App.set_aircraft MapAdsb.mem MapAdsb.data].
    rewrite !lookup_insert_eq. repeat split; try reflexivity.
Qed.

(** On a frame whose body it has nothing to read from, processModeS
    returns, the track of the frame's ICAO address is in the store, and of
    that track -- as found, or as created -- only the last-seen time, the
    signal history and the message count have been written. *)
Lemma processModeS_skip (wall : nat -> GoTime.instant)
  (Atan2 : float -> float -> float) (data : App.slice) (timestamp : Z)
  (w : App.t) :
  Spec.extendedSquitter (App.visible data) ->
  Spec.skipsBody data ->
  App.validState w ->
  exists w' p ac now sl n,
    App.processModeS wall Atan2 data timestamp w = Ok (tt, w') /\
    MapAdsb.data (App.aircraft w') !! Spec.frameICAO (App.visible data)
    = Some p /\
    MapAdsb.mem (App.aircraft w') !! p
    = Some (MapAdsb.Aircraft.set_Messages n
              (MapAdsb.Aircraft.set_SignalLevel sl
                 (MapAdsb.Aircraft.set_Seen now ac))) /\
    match MapAdsb.data (App.aircraft w) !! Spec.frameICAO (App.visible data) with
    | Some q => q = p /\ MapAdsb.mem (App.aircraft w) !! q = Some ac
    | None => exists t, ac = MapAdsb.newAircraft
                               (Spec.frameICAO (App.visible data)) t
    end.
Proof.
  intros Hdf Hskip Hv. unfold App.processModeS.
  assert (Hlen : (4 <= App.len data)%nat)
    by (destruct Hskip as [-> | [? _]]; lia).
  destruct (Nat.ltb_spec (App.len data) 4) as [?|_]; [lia|].
  cbv zeta. fold (Spec.frameDF (App.visible data)).
  fold (Spec.frameICAO (App.visible data)).
  assert (Hd : negb (Spec.frameDF (App.visible data) =? 17)
               && negb (Spec.frameDF (App.visible data) =? 18) = false)
    by (destruct Hdf as [-> | ->]; reflexivity).
  rewrite Hd.
  unfold mbind at 1 2 3, App.M_bind. unfold App.timeNow at 1.
  set (w0 := App.set_ticks (S (App.ticks w)) w).
  assert (Hv0 : App.validState w0) by exact Hv.
  destruct (getOrCreate_ok wall (Spec.frameICAO (App.visible data)) w0 Hv0)
    as (p & w1 & ac & Hrun & Hdata & Hmem & Hmsg & Hprior).
  rewrite Hrun. rewrite decodeBody_skip by assumption.
  match goal with
  | |- context [App.recordMessage wall ?mm p w1] =>
      destruct (recordMessage_ok wall mm p w1 ac Hmem Hmsg)
        as (w' & now & sl & n & Hrec & Hdata' & Hmem')
  end.
  exists w', p, ac, now, sl, n.
  split; [exact Hrec|]. split; [now rewrite Hdata'|]. split; [exact Hmem'|].
  change (MapAdsb.data (App.aircraft w0)) with (MapAdsb.data (App.aircraft w))
    in Hprior.
  change (MapAdsb.mem (App.aircraft w0)) with (MapAdsb.mem (App.aircraft w))
    in Hprior.
  destruct (MapAdsb.data (App.aircraft w)
              !! Spec.frameICAO (App.visible data)); [exact Hprior | eauto].
Qed.

(** C4 (as amended).  [Adsb.DecodeMessage] yields a message carrying the
    downlink format and the ICAO address of bytes 1-3 for every DF17/DF18
    frame of at least 14 bytes, and yields no message at all for a shorter
    one.  processModeS, on a DF17/DF18 frame of at least 4 bytes whose body
    it has nothing to read from (the header alone, a velocity body shorter
    than 10 bytes, a type code it does not decode), keeps the track of that
    ICAO address in the store and writes only its last-seen time, signal
    history and message count. *)
Theorem truncated_extended_squitter
  (Atan2 : float -> float -> float) (wall : nat -> GoTime.instant)
  (frame : App.slice) (timestamp : GoTime.instant) (ticks : Z) (w : App.t) :
  Spec.extendedSquitter (App.visible frame) ->
  ((length (App.visible frame) < 14)%nat ->
   Adsb.DecodeMessage Atan2 (App.visible frame) timestamp = None) /\
  ((14 <= length (App.visible frame))%nat ->
   exists msg,
     Adsb.DecodeMessage Atan2 (App.visible frame) timestamp = Some msg /\
     Adsb.Message.DF msg = Spec.frameDF (App.visible frame) /\
     Adsb.Message.ICAO msg = Spec.frameICAO (App.visible frame)) /\
  (Spec.skipsBody frame -> App.validState w ->
   exists w' p ac now sl n,
     App.processModeS wall Atan2 frame ticks w = Ok (tt, w') /\
     MapAdsb.data (App.aircraft w') !! Spec.frameICAO (App.visible frame)
     = Some p /\
     MapAdsb.mem (App.aircraft w') !! p
     = Some (MapAdsb.Aircraft.set_Messages n
               (MapAdsb.Aircraft.set_SignalLevel sl
                  (MapAdsb.Aircraft.set_Seen now ac))) /\
     match MapAdsb.data (App.aircraft w)
             !! Spec.frameICAO (App.visible frame) with
     | Some q => q = p /\ MapAdsb.mem (App.aircraft w) !! q = Some ac
     | None => exists t, ac = MapAdsb.newAircraft
                                (Spec.frameICAO (App.visible frame)) t
     end).
Proof.
  intros Hdf.
  split; [now apply DecodeMessage_short|].
  split; [now apply DecodeMessage_long|].
  intros Hskip Hv. now apply processModeS_skip.
Qed.

Lemma initialState_valid : App.validState Spec.initialState.
Proof. intros icao p H. cbn in H. now rewrite lookup_empty in H. Qed.

Lemma truncated_extended_squitter_witness :
  Spec.extendedSquitter Spec.headerFrame /\
  Adsb.DecodeMessage Spec.noAtan2 Spec.headerFrame 0 = None /\
  exists w' p,
    App.processModeS (fun _ => 0) Spec.noAtan2 (App.mkSlice Spec.headerFrame [])
                     0 Spec.initialState = Ok (tt, w') /\
    MapAdsb.data (App.aircraft w') !! Spec.frameICAO Spec.headerFrame = Some p.
Proof.
  assert (Hdf : Spec.extendedSquitter
                  (App.visible (App.mkSlice Spec.headerFrame [])))
    by (left; reflexivity).
  destruct (truncated_extended_squitter Spec.noAtan2 (fun _ => 0)
              (App.mkSlice Spec.headerFrame []) 0 0 Spec.initialState Hdf)
    as (Hshort & _ & Hskip).
  split; [exact Hdf|].
  split; [apply Hshort; cbn; lia|].
  destruct Hskip as (w' & p & ac & now & sl & n & Hrun & Hdata & _);
    [left; reflexivity | exact initialState_valid |].
  exists w', p. split; assumption.
Defined.

(** C4 as stated fails.  The 4-byte DF17 frame 8D 01 02 03 is an
    extended-squitter frame of at least 4 bytes, and [Adsb.DecodeMessage]
    returns no message for it: neither the downlink format nor the ICAO
    address comes out. *)
Lemma truncated_extended_squitter_counterexample :
  Spec.extendedSquitter Spec.headerFrame /\
  (4 <= length Spec.headerFrame)%nat /\
  Adsb.DecodeMessage Spec.noAtan2 Spec.headerFrame 0 = None.
Proof.
  split; [left; reflexivity|]. split; [cbn; lia | reflexivity].
Qed.

(** processModeS on a position body cut short: the 6-byte DF17 frame of
    type code 11 makes it index past the end of the slice. *)
Lemma processModeS_short_position_panics :
  App.processModeS (fun _ => 0) Spec.noAtan2
                   (App.mkSlice Spec.shortPositionFrame []) 0
                   Spec.initialState = Panic.
Proof. vm_compute. reflexivity. Qed.

(** ** processModeS on a stale CPR pair *)

Lemma update_ok (p : positive) (f : MapAdsb.Aircraft.t -> MapAdsb.Aircraft.t)
  (w : App.t) (x : MapAdsb.Aircraft.t) :
  MapAdsb.mem (App.aircraft w) !! p = Some x ->
  App.update p f w
  = Ok (tt, App.set_aircraft
              (MapAdsb.mkAircraftMap
                 (<[p := f x]> (MapAdsb.mem (App.aircraft w)))
                 (MapAdsb.data (App.aircraft w))) w).
Proof. intros H. unfold App.update. now rewrite H. Qed.

Lemma index_ok (data : list byte) (i : nat) :
  (i < length data)%nat -> index data i = Ok (at_ data i).
Proof.
  intros H. unfold index, at_.
  destruct (data !! i) as [b|] eqn:E.
  - now rewrite (nth_lookup_Some _ _ x00 _ E).
  - apply lookup_ge_None in E. lia.
Qed.

(** The body of processModeS on an airborne-position frame whose report,
    once stored, is more than 10000 ms away from the report of the other
    parity: the altitude and the raw report are written, the position, its
    time and the trail are not. *)
Lemma decodeBody_stale (wall : nat -> GoTime.instant)
  (Atan2 : float -> float -> float) (data : App.slice) (p : positive)
  (w : App.t) (ac : MapAdsb.Aircraft.t) :
  Spec.positionFrame data ->
  MapAdsb.mem (App.aircraft w) !! p = Some ac ->
  (let ms := Z.quot (App.UnixNano (wall (App.ticks w))) GoTime.Millisecond in
   10000 < Z.abs (if Adsb.oddFlagOf (App.visible data)
                  then MapAdsb.Aircraft.EvenCPRTime ac - ms
                  else ms - MapAdsb.Aircraft.OddCPRTime ac)) ->
  exists w' ac',
    App.decodeBody wall Atan2 data p w = Ok (tt, w') /\
    MapAdsb.data (App.aircraft w') = MapAdsb.data (App.aircraft w) /\
    MapAdsb.mem (App.aircraft w') !! p = Some ac' /\
    MapAdsb.Aircraft.Lat ac' = MapAdsb.Aircraft.Lat ac /\
    MapAdsb.Aircraft.Lon ac' = MapAdsb.Aircraft.Lon ac /\
    MapAdsb.Aircraft.SeenLatLon ac' = MapAdsb.Aircraft.SeenLatLon ac /\
    MapAdsb.Aircraft.Trail ac' = MapAdsb.Aircraft.Trail ac /\
    MapAdsb.Aircraft.Messages ac' = MapAdsb.Aircraft.Messages ac.
Proof.
  intros (Hdf & Hlen & Htc) Hp Hst. cbv zeta in Hst.
  unfold App.decodeBody.
  destruct (Nat.leb_spec 5 (App.len data)) as [_|?]; [|lia].
  cbv zeta. fold (Spec.frameTypeCode (App.visible data)).
  set (tc := Spec.frameTypeCode (App.visible data)) in *.
  assert (H14 : (1 <=? tc) && (tc <=? 4) = false).
  { destruct (Z.leb_spec 1 tc), (Z.leb_spec tc 4); cbn; try reflexivity; lia. }
  assert (H918 : (9 <=? tc) && (tc <=? 18) = true).
  { destruct (Z.leb_spec 9 tc), (Z.leb_spec tc 18); cbn; try reflexivity; lia. }
  rewrite H14, H918.
  unfold App.len in Hlen.
  unfold mbind, App.M_bind.
  assert (Hidx : forall i, (i < 11)%nat ->
            index (App.visible data) i = Ok (at_ (App.visible data) i))
    by (intros i Hi; apply index_ok; lia).
  unfold App.lift. rewrite !Hidx by lia.
  fold (Adsb.oddFlagOf (App.visible data)).
  unfold App.timeNow.
  destruct (negb (MapAdsb.DecodeAltitude (App.visible data) =? 0));
    destruct (Adsb.oddFlagOf (App.visible data));
    cbn [mret App.M_ret];
    repeat (erewrite update_ok by (simpl_app; first [exact Hp | reflexivity]));
    (erewrite resolvePosition_stale;
     [ | simpl_app; reflexivity
       | cbn [MapAdsb.Aircraft.EvenCPRTime MapAdsb.Aircraft.OddCPRTime
              MapAdsb.Aircraft.set_EvenCPRTime MapAdsb.Aircraft.set_OddCPRTime
              MapAdsb.Aircraft.set_EvenCPRLat MapAdsb.Aircraft.set_OddCPRLat
              MapAdsb.Aircraft.set_EvenCPRLon MapAdsb.Aircraft.set_OddCPRLon
              MapAdsb.Aircraft.set_Altitude App.ticks App.set_aircraft];
         exact Hst ]);
    (eexists _, _; split; [reflexivity|]);
    (split; [reflexivity|]); simpl_app;
    (split; [reflexivity|]); repeat split; reflexivity.
Qed.

Lemma processModeS_stale (wall : nat -> GoTime.instant)
  (Atan2 : float -> float -> float) (data : App.slice) (timestamp : Z)
  (w : App.t) (p : positive) (ac : MapAdsb.Aircraft.t) :
  App.validState w ->
  Spec.positionFrame data ->
  MapAdsb.data (App.aircraft w) !! Spec.frameICAO (App.visible data) = Some p ->
  MapAdsb.mem (App.aircraft w) !! p = Some ac ->
  10000 < Z.abs ((Spec.pairTimes wall data w ac).1
                 - (Spec.pairTimes wall data w ac).2) ->
  exists w' ac',
    App.processModeS wall Atan2 data timestamp w = Ok (tt, w') /\
    MapAdsb.data (App.aircraft w') !! Spec.frameICAO (App.visible data)
    = Some p /\
    MapAdsb.mem (App.aircraft w') !! p = Some ac' /\
    MapAdsb.Aircraft.Lat ac' = MapAdsb.Aircraft.Lat ac /\
    MapAdsb.Aircraft.Lon ac' = MapAdsb.Aircraft.Lon ac /\
    MapAdsb.Aircraft.SeenLatLon ac' = MapAdsb.Aircraft.SeenLatLon ac /\
    MapAdsb.Aircraft.Trail ac' = MapAdsb.Aircraft.Trail ac.
Proof.
  intros Hv Hpos Hdata Hp Hst.
  pose proof Hpos as (Hdf & Hlen & Htc).
  unfold App.processModeS.
  destruct (Nat.ltb_spec (App.len data) 4) as [?|_]; [lia|].
  cbv zeta. fold (Spec.frameDF (App.visible data)).
  fold (Spec.frameICAO (App.visible data)).
  assert (Hd : negb (Spec.frameDF (App.visible data) =? 17)
               && negb (Spec.frameDF (App.visible data) =? 18) = false)
    by (destruct Hdf as [-> | ->]; reflexivity).
  rewrite Hd.
  unfold mbind at 1 2 3, App.M_bind. unfold App.timeNow at 1.
  set (w0 := App.set_ticks (S (App.ticks w)) w).
  assert (Hrun : App.getOrCreate wall (Spec.frameICAO (App.visible data)) w0
                 = Ok (p, w0)).
  { unfold App.getOrCreate, MapAdsb.Get. subst w0.
    cbn [App.aircraft App.set_ticks]. now rewrite Hdata. }
  rewrite Hrun.
  destruct (decodeBody_stale wall Atan2 data p w0 ac Hpos Hp)
    as (w1 & ac1 & Hbody & Hdata1 & Hmem1 & Hlat & Hlon & Hseen & Htrail
        & Hmsg).
  { cbv zeta. unfold Spec.pairTimes, Spec.receivedMs in Hst.
    subst w0. cbn [App.ticks App.set_ticks].
    destruct (Adsb.oddFlagOf (App.visible data)); exact Hst. }
  rewrite Hbody.
  destruct (Hv _ _ Hdata) as (ac0 & Hac0 & Hm0).
  assert (ac0 = ac) as -> by congruence.
  match goal with
  | |- context [App.recordMessage wall ?mm p w1] =>
      destruct (recordMessage_ok wall mm p w1 ac1 Hmem1 ltac:(lia))
        as (w' & now & sl & n & Hrec & Hdata' & Hmem')
  end.
  eexists w', _. split; [exact Hrec|].
  split; [rewrite Hdata', Hdata1; exact Hdata|].
  split; [exact Hmem'|].
  repeat split; assumption.
Qed.

Lemma stateWith_valid (ac : MapAdsb.Aircraft.t) :
  0 <= MapAdsb.Aircraft.Messages ac -> App.validState (Spec.stateWith ac).
Proof.
  intros Hm icao p H. cbn in H.
  apply lookup_singleton_Some in H as [<- <-].
  exists ac. split; [|exact Hm]. cbn. apply lookup_singleton_eq.
Qed.

(** C2 (as amended).  A pair whose reception instants differ by more than
    10000 whole milliseconds -- in particular by 10.001 s or more, 11 s
    included -- is unresolved by [Adsb.DecodeCPRPosition] whatever the raw
    fields are.  processModeS stores reception times in whole milliseconds:
    on an airborne-position frame of a track in the store, when the report
    it stores and the report of the other parity are more than 10000 ms
    apart, it returns with the track at the same pointer and the track's
    latitude, longitude, position time and trail as they were. *)
Theorem cpr_stale_pair_rejected
  (evenPos oddPos : Adsb.Aircraft.t)
  (wall : nat -> GoTime.instant) (Atan2 : float -> float -> float)
  (data : App.slice) (timestamp : Z) (w : App.t) (p : MapAdsb.loc)
  (ac : MapAdsb.Aircraft.t) :
  (10000 < Z.abs (GoTime.Milliseconds
                    (GoTime.Sub (Adsb.Aircraft.EvenCPRTime evenPos)
                                (Adsb.Aircraft.OddCPRTime oddPos))) ->
   Adsb.DecodeCPRPosition evenPos oddPos = Ok (0%float, 0%float, false)) /\
  (10001 * GoTime.Millisecond
     <= Z.abs (Adsb.Aircraft.EvenCPRTime evenPos
               - Adsb.Aircraft.OddCPRTime oddPos) ->
   Adsb.DecodeCPRPosition evenPos oddPos = Ok (0%float, 0%float, false)) /\
  (App.validState w ->
   Spec.positionFrame data ->
   MapAdsb.data (App.aircraft w) !! Spec.frameICAO (App.visible data)
   = Some p ->
   MapAdsb.mem (App.aircraft w) !! p = Some ac ->
   10000 < Z.abs ((Spec.pairTimes wall data w ac).1
                  - (Spec.pairTimes wall data w ac).2) ->
   exists w' ac',
     App.processModeS wall Atan2 data timestamp w = Ok (tt, w') /\
     MapAdsb.data (App.aircraft w') !! Spec.frameICAO (App.visible data)
     = Some p /\
     MapAdsb.mem (App.aircraft w') !! p = Some ac' /\
     MapAdsb.Aircraft.Lat ac' = MapAdsb.Aircraft.Lat ac /\
     MapAdsb.Aircraft.Lon ac' = MapAdsb.Aircraft.Lon ac /\
     MapAdsb.Aircraft.SeenLatLon ac' = MapAdsb.Aircraft.SeenLatLon ac /\
     MapAdsb.Aircraft.Trail ac' = MapAdsb.Aircraft.Trail ac).
Proof.
  split; [apply cpr_rejects_stale|].
  split; [|apply processModeS_stale].
  intros H. apply cpr_rejects_stale. now apply milliseconds_beyond_window.
Qed.

Lemma cpr_stale_pair_rejected_witness :
  10001 * GoTime.Millisecond <= Z.abs (1000000000 - 12000000000) /\
  Adsb.DecodeCPRPosition (Spec.cprExample 1000000000 12000000000)
                         (Spec.cprExample 1000000000 12000000000)
    = Ok (0%float, 0%float, false) /\
  App.validState (Spec.stateWith (Spec.staleTrack 1000 500)) /\
  Spec.positionFrame Spec.staleOddFrame /\
  Spec.pairTimes (Spec.wallAt 12000) Spec.staleOddFrame
    (Spec.stateWith (Spec.staleTrack 1000 500)) (Spec.staleTrack 1000 500)
  = (1000, 12000) /\
  exists w' ac',
    App.processModeS (Spec.wallAt 12000) Spec.noAtan2 Spec.staleOddFrame 0
                     (Spec.stateWith (Spec.staleTrack 1000 500))
    = Ok (tt, w') /\
    MapAdsb.mem (App.aircraft w') !! 1%positive = Some ac' /\
    MapAdsb.Aircraft.Lat ac' = 0%float /\
    MapAdsb.Aircraft.Lon ac' = 0%float /\
    MapAdsb.Aircraft.SeenLatLon ac' = 0 /\
    MapAdsb.Aircraft.Trail ac' = [].
Proof.
  assert (Hv : App.validState (Spec.stateWith (Spec.staleTrack 1000 500)))
    by (apply stateWith_valid; cbn; lia).
  assert (Hf : Spec.positionFrame Spec.staleOddFrame).
  { split; [left; reflexivity|]. split; [cbn; lia|].
    vm_compute. split; discriminate. }
  assert (Ht : Spec.pairTimes (Spec.wallAt 12000) Spec.staleOddFrame
                 (Spec.stateWith (Spec.staleTrack 1000 500))
                 (Spec.staleTrack 1000 500) = (1000, 12000))
    by (vm_compute; reflexivity).
  destruct (cpr_stale_pair_rejected
              (Spec.cprExample 1000000000 12000000000)
              (Spec.cprExample 1000000000 12000000000)
              (Spec.wallAt 12000) Spec.noAtan2 Spec.staleOddFrame 0
              (Spec.stateWith (Spec.staleTrack 1000 500)) 1%positive
              (Spec.staleTrack 1000 500)) as (_ & Hns & Hms).
  split; [vm_compute; discriminate|].
  split; [apply Hns; vm_compute; discriminate|].
  split; [exact Hv|]. split; [exact Hf|]. split; [exact Ht|].
  destruct (Hms Hv Hf) as (w' & ac' & Hrun & _ & Hmem & Hlat & Hlon & Hseen
                           & Htrail);
    [reflexivity | reflexivity | rewrite Ht; vm_compute; reflexivity |].
  exists w', ac'. split; [exact Hrun|]. split; [exact Hmem|].
  split; [exact Hlat|]. split; [exact Hlon|]. split; [exact Hseen|].
  exact Htrail.
Defined.

(** C7, at the failing input.  With a configured trail length of 0
    ([--traillen 0]) processModeS takes the even frame of the worked example
    and then, on the odd frame, resolves the position and panics in the
    trail update: it reslices the empty trail from index 1.  With the
    default length 50 the same two frames leave a trail of one position. *)
Theorem trail_zero_length_panics :
  length <$> Spec.trailOf 0x40621D
               (Spec.feed (Spec.wallAt 1000) [Spec.evenFrame]
                          (Spec.stateOfLength 0)) = Some 0%nat /\
  Spec.feed (Spec.wallAt 1000) [Spec.evenFrame; Spec.oddFrame]
            (Spec.stateOfLength 0) = Panic /\
  length <$> Spec.trailOf 0x40621D
               (Spec.feed (Spec.wallAt 1000) [Spec.evenFrame; Spec.oddFrame]
                          (Spec.stateOfLength 50)) = Some 1%nat.
Proof.
  split; [vm_compute; reflexivity|].
  split; vm_compute; reflexivity.
Qed.
(** * Properties of the remaining code *)

(** ** Field decoders *)

Lemma land_below (x m n : Z) :
  0 <= n -> Z.land m (Z.ones n) = m -> 0 <= Z.land x m < 2 ^ n.
Proof.
  intros Hn Hm. rewrite <- Hm, Z.land_assoc, Z.land_ones by lia.
  apply Z.mod_pos_bound. lia.
Qed.

Lemma orIf_mask (field m mask bit hex : Z) :
  Z.land m mask = mask ->
  Adsb.orIf (Z.land field m) mask bit hex = Adsb.orIf field mask bit hex.
Proof.
  intros H. unfold Adsb.orIf. now rewrite <- Z.land_assoc, H.
Qed.

Lemma decodeID13Field_mask (field : Z) :
  Adsb.decodeID13Field (Z.land field 0x1FBF) = Adsb.decodeID13Field field.
Proof.
  unfold Adsb.decodeID13Field. cbv zeta.
  rewrite !orIf_mask by reflexivity. reflexivity.
Qed.

Lemma id13Check_all (field : Z) :
  0 <= field < 8192 -> Ref.id13Check field = true.
Proof. apply (forall_below (Z.to_nat 8192)). vm_compute. reflexivity. Qed.

(** X2.  [decodeID13Field] yields four octal digits, one per hexadecimal
    place; it reads the twelve identity bits of its argument and nothing
    else, and two fields have the same squawk exactly when they agree on
    those twelve bits. *)
Theorem decodeID13Field_octal (f g : Z) :
  Z.land (Adsb.decodeID13Field f) 0x8888 = 0 /\
  0 <= Adsb.decodeID13Field f <= 0x7777 /\
  Ref.encodeID13 (Adsb.decodeID13Field f) = Z.land f 0x1FBF /\
  (Adsb.decodeID13Field f = Adsb.decodeID13Field g <->
   Z.land f 0x1FBF = Z.land g 0x1FBF).
Proof.
  assert (Hall : forall x,
    Ref.id13Check (Z.land x 0x1FBF) = true).
  { intros x. apply id13Check_all. apply (land_below x 0x1FBF 13); [lia|].
    reflexivity. }
  assert (Hidem : forall x, Z.land (Z.land x 0x1FBF) 0x1FBF = Z.land x 0x1FBF).
  { intros x. rewrite <- Z.land_assoc. reflexivity. }
  assert (Henc : forall x,
    Ref.encodeID13 (Adsb.decodeID13Field x) = Z.land x 0x1FBF).
  { intros x. specialize (Hall x). unfold Ref.id13Check in Hall.
    cbv zeta in Hall. rewrite decodeID13Field_mask, Hidem in Hall.
    rewrite !andb_true_iff in Hall. lia. }
  pose proof (Hall f) as Hf. unfold Ref.id13Check in Hf. cbv zeta in Hf.
  rewrite decodeID13Field_mask in Hf. rewrite !andb_true_iff in Hf.
  split; [lia|]. split; [lia|]. split; [apply Henc|].
  split; intros H.
  - rewrite <- (Henc f), <- (Henc g). now rewrite H.
  - rewrite <- (decodeID13Field_mask f), <- (decodeID13Field_mask g).
    now rewrite H.
Qed.

(** X3.  The ground-speed table of [decodeGroundMovement] never decreases
    over the movement codes up to 124, stays within 0..199 knots, and maps
    every code outside 1..124 to 0. *)
Theorem decodeGroundMovement_monotone (m n : Z) :
  m <= n ->
  (n <= 124 ->
   0 <= Adsb.decodeGroundMovement m <= Adsb.decodeGroundMovement n /\
   Adsb.decodeGroundMovement n <= 199) /\
  (125 <= n -> Adsb.decodeGroundMovement n = 0) /\
  (m <= 0 -> Adsb.decodeGroundMovement m = 0).
Proof.
  intros Hmn. unfold Adsb.decodeGroundMovement.
  rewrite !Z.shiftr_div_pow2 by lia.
  change (2 ^ 1) with 2. change (2 ^ 2) with 4.
  repeat match goal with
         | |- context [?a <=? ?b] => destruct (Z.leb_spec a b)
         | |- context [?a <? ?b] => destruct (Z.ltb_spec a b)
         end; cbn [orb]; repeat split; intros;
    try (Z.div_mod_to_equations; lia).
Qed.

Lemma decodeGroundMovement_monotone_witness :
  (0 <= Adsb.decodeGroundMovement 12 <= Adsb.decodeGroundMovement 13 /\
   Adsb.decodeGroundMovement 13 <= 199) /\
  Adsb.decodeGroundMovement 13 = 3.
Proof.
  split; [|reflexivity].
  apply (decodeGroundMovement_monotone 12 13); lia.
Defined.

Lemma ac13Check_all (field : Z) :
  0 <= field < 8192 -> Ref.ac13Check field = true.
Proof. apply (forall_below (Z.to_nat 8192)). vm_compute. reflexivity. Qed.

(** X4.  On a 13-bit altitude field [decodeAC13Field] returns 0 when the
    M bit is set; with M clear and Q set it returns N * 25 - 1000 where N is
    the field without its M and Q bits, which is what [decodeAC12Field]
    returns on the field with the M bit removed; with both clear it returns
    the field times 100. *)
Theorem decodeAC13Field_cases (field : Z) :
  0 <= field < 8192 ->
  (Z.land field 0x40 <> 0 -> Adsb.decodeAC13Field field = 0) /\
  (Z.land field 0x40 = 0 -> Z.land field 0x10 <> 0 ->
   Adsb.decodeAC13Field field = Ref.removeMQBits field * 25 - 1000 /\
   Adsb.decodeAC13Field field = Adsb.decodeAC12Field (Ref.removeMBit field) /\
   -1000 <= Adsb.decodeAC13Field field <= 50175) /\
  (Z.land field 0x40 = 0 -> Z.land field 0x10 = 0 ->
   Adsb.decodeAC13Field field = field * 100).
Proof.
  intros Hr. pose proof (ac13Check_all field Hr) as H.
  unfold Ref.ac13Check in H.
  split; [|split].
  - intros HM. apply Z.eqb_neq in HM. rewrite HM in H. simpl in H. lia.
  - intros HM HQ. apply Z.eqb_eq in HM. apply Z.eqb_neq in HQ.
    rewrite HM, HQ in H. simpl in H. apply andb_true_iff in H.
    destruct H as [H1 H2]. apply Z.eqb_eq in H1. apply Z.eqb_eq in H2.
    split; [exact H1|]. split; [exact H2|].
    rewrite H1. unfold Ref.removeMQBits. Z.div_mod_to_equations. lia.
  - intros HM HQ. apply Z.eqb_eq in HM. apply Z.eqb_eq in HQ.
    rewrite HM, HQ in H. simpl in H. lia.
Qed.

Lemma decodeAC13Field_cases_witness :
  Adsb.decodeAC13Field 0x0C38 = Ref.removeMQBits 0x0C38 * 25 - 1000 /\
  Adsb.decodeAC13Field 0x0C38 = Adsb.decodeAC12Field (Ref.removeMBit 0x0C38) /\
  -1000 <= Adsb.decodeAC13Field 0x0C38 <= 50175.
Proof.
  apply (decodeAC13Field_cases 0x0C38); [lia | reflexivity | discriminate].
Defined.
(** ** DecodeMessage *)

Lemma vertRateOf_stamp (data : list byte) (msg : Adsb.Message.t) :
  Adsb.Message.Timestamp (Adsb.vertRateOf data msg)
  = Adsb.Message.Timestamp msg /\
  Adsb.Message.Valid (Adsb.vertRateOf data msg) = Adsb.Message.Valid msg /\
  Adsb.Message.TypeCode (Adsb.vertRateOf data msg)
  = Adsb.Message.TypeCode msg.
Proof.
  unfold Adsb.vertRateOf. cbv zeta. split_ifs; repeat split; reflexivity.
Qed.

Lemma decodeVelocityTC_stamp (Atan2 : float -> float -> float)
  (data : list byte) (msg : Adsb.Message.t) :
  Adsb.Message.Timestamp (Adsb.decodeVelocityTC Atan2 data msg)
  = Adsb.Message.Timestamp msg /\
  Adsb.Message.Valid (Adsb.decodeVelocityTC Atan2 data msg)
  = Adsb.Message.Valid msg /\
  Adsb.Message.TypeCode (Adsb.decodeVelocityTC Atan2 data msg)
  = Adsb.Message.TypeCode msg.
Proof.
  unfold Adsb.decodeVelocityTC.
  destruct (_ || _).
  - match goal with
    | |- context [Adsb.vertRateOf data ?m] =>
        destruct (vertRateOf_stamp data m) as (-> & -> & ->)
    end.
    split_ifs; repeat split; reflexivity.
  - destruct (_ || _); [|repeat split; reflexivity].
    match goal with
    | |- context [Adsb.vertRateOf data ?m] =>
        destruct (vertRateOf_stamp data m) as (-> & -> & ->)
    end.
    split_ifs; repeat split; reflexivity.
Qed.

Lemma decodeExtendedSquitter_stamp (Atan2 : float -> float -> float)
  (df : Z) (data : list byte) (msg : Adsb.Message.t) :
  Adsb.Message.Timestamp (Adsb.decodeExtendedSquitter Atan2 df data msg)
  = Adsb.Message.Timestamp msg /\
  Adsb.Message.Valid (Adsb.decodeExtendedSquitter Atan2 df data msg)
  = Adsb.Message.Valid msg /\
  Adsb.Message.TypeCode (Adsb.decodeExtendedSquitter Atan2 df data msg)
  = Spec.frameTypeCode data.
Proof.
  unfold Adsb.decodeExtendedSquitter. cbv zeta.
  repeat match goal with
         | |- context [if ?c then _ else _] =>
             lazymatch c with
             | context [Adsb.decodeVelocityTC] => fail
             | _ => destruct c
             end
         | |- context [Adsb.decodeVelocityTC Atan2 data ?m] =>
             destruct (decodeVelocityTC_stamp Atan2 data m) as (-> & -> & ->)
         end;
    repeat split; reflexivity.
Qed.

(** X5.  [DecodeMessage] returns nil exactly when the frame is shorter than
    its downlink format needs: 14 bytes for DF17 and DF18, 4 bytes for DF4,
    DF5, DF11, DF20 and DF21, 2 bytes for every other format.  A message it
    returns carries the frame's format in [DF], the caller's timestamp, and
    [Valid] set. *)
Theorem DecodeMessage_nil_iff (Atan2 : float -> float -> float)
  (data : list byte) (timestamp : GoTime.instant) :
  match Adsb.DecodeMessage Atan2 data timestamp with
  | None => (length data < Ref.minLength (Spec.frameDF data))%nat
  | Some msg =>
      (Ref.minLength (Spec.frameDF data) <= length data)%nat /\
      Adsb.Message.DF msg = Spec.frameDF data /\
      Adsb.Message.Timestamp msg = timestamp /\
      Adsb.Message.Valid msg = true
  end.
Proof.
  unfold Adsb.DecodeMessage, Ref.minLength.
  fold (Spec.frameDF data). set (df := Spec.frameDF data).
  unfold Adsb.DF0, Adsb.DF16, Adsb.DF4, Adsb.DF20, Adsb.DF5, Adsb.DF21,
    Adsb.DF11, Adsb.DF17, Adsb.DF18.
  destruct (Nat.ltb_spec (length data) 2) as [H2|H2].
  { split_ifs; lia. }
  cbv zeta.
  destruct (Z.eqb_spec df 0) as [E|N0];
    [rewrite E; cbn; repeat split; lia|].
  destruct (Z.eqb_spec df 16) as [E|N16];
    [rewrite E; cbn; repeat split; lia|].
  destruct (Z.eqb_spec df 4) as [E|N4];
    [rewrite E; cbn [orb Z.eqb Pos.eqb];
     destruct (Nat.ltb_spec (length data) 4); [lia | repeat split; lia]|].
  destruct (Z.eqb_spec df 20) as [E|N20];
    [rewrite E; cbn [orb Z.eqb Pos.eqb];
     destruct (Nat.ltb_spec (length data) 4); [lia | repeat split; lia]|].
  destruct (Z.eqb_spec df 5) as [E|N5];
    [rewrite E; cbn [orb Z.eqb Pos.eqb];
     destruct (Nat.ltb_spec (length data) 4); [lia | repeat split; lia]|].
  destruct (Z.eqb_spec df 21) as [E|N21];
    [rewrite E; cbn [orb Z.eqb Pos.eqb];
     destruct (Nat.ltb_spec (length data) 4); [lia | repeat split; lia]|].
  destruct (Z.eqb_spec df 11) as [E|N11].
  { rewrite E; cbn [orb Z.eqb Pos.eqb].
    destruct (Nat.ltb_spec (length data) 4); [lia|].
    split_ifs; repeat split; lia. }
  cbn [orb].
  destruct (Z.eqb_spec df 17) as [E|N17].
  { cbn [orb]. destruct (Nat.ltb_spec (length data) 14); [lia|].
    destruct (decodeExtendedSquitter_stamp Atan2 df data
                (Adsb.newMessage df timestamp)) as (-> & -> & _).
    destruct (decodeExtendedSquitter_key Atan2 df data
                (Adsb.newMessage df timestamp)) as (-> & _).
    repeat split; lia. }
  destruct (Z.eqb_spec df 18) as [E|N18].
  { cbn [orb]. destruct (Nat.ltb_spec (length data) 14); [lia|].
    destruct (decodeExtendedSquitter_stamp Atan2 df data
                (Adsb.newMessage df timestamp)) as (-> & -> & _).
    destruct (decodeExtendedSquitter_key Atan2 df data
                (Adsb.newMessage df timestamp)) as (-> & _).
    repeat split; lia. }
  cbn [orb]. repeat split; lia.
Qed.
(** ** The CPR helpers *)

Lemma cprModFunction_ok (a b : Z) :
  b <> 0 ->
  Adsb.cprModFunction a b
  = Ok (if Z.rem a b <? 0 then Z.rem a b + b else Z.rem a b).
Proof.
  intros Hb. unfold Adsb.cprModFunction.
  destruct (Z.eqb_spec b 0); [contradiction | reflexivity].
Qed.

(** X6.  With a positive modulus both [cprModFunction]s return the
    mathematical residue, in [0, b), whatever the sign of the dividend; with
    modulus 0 the division panics. *)
Theorem cprModFunction_residue (a b : Z) :
  (0 < b ->
   Adsb.cprModFunction a b = Ok (a mod b) /\
   MapAdsb.cprModFunction a b = Ok (a mod b) /\
   0 <= a mod b < b) /\
  Adsb.cprModFunction a 0 = Panic /\
  MapAdsb.cprModFunction a 0 = Panic.
Proof.
  split; [|split; reflexivity].
  intros Hb. unfold Adsb.cprModFunction, MapAdsb.cprModFunction.
  destruct (Z.eqb_spec b 0); [lia|]. cbv zeta.
  assert (E : (if Z.rem a b <? 0 then Z.rem a b + b else Z.rem a b) = a mod b).
  { pose proof (Z.quot_rem' a b) as Hq.
    destruct (Z.ltb_spec (Z.rem a b) 0) as [Hn|Hn].
    - assert (Ha : a < 0).
      { destruct (Z.lt_ge_cases a 0) as [?|Hge]; [assumption|].
        pose proof (Z.rem_bound_pos a b Hge Hb). lia. }
      pose proof (Z.rem_bound_pos (- a) b ltac:(lia) Hb) as Hr.
      rewrite Z.rem_opp_l in Hr by lia.
      apply (Z.mod_unique_pos a b (Z.quot a b - 1)); lia.
    - assert (Hr : Z.rem a b < b).
      { destruct (Z.lt_ge_cases a 0) as [Hlt|Hge].
        - pose proof (Z.rem_bound_pos (- a) b ltac:(lia) Hb) as Hr.
          rewrite Z.rem_opp_l in Hr by lia. lia.
        - pose proof (Z.rem_bound_pos a b Hge Hb). lia. }
      apply (Z.mod_unique_pos a b (Z.quot a b)); lia. }
  rewrite E. repeat split; try apply Z.mod_pos_bound; lia.
Qed.

Lemma cprModFunction_residue_witness :
  Adsb.cprModFunction (-7) 60 = Ok 53 /\
  MapAdsb.cprModFunction (-7) 60 = Ok 53 /\
  0 <= 53 < 60.
Proof.
  apply (proj1 (cprModFunction_residue (-7) 60)). lia.
Defined.

Lemma cprNLFunction_bounds (lat : float) : 1 <= Adsb.cprNLFunction lat <= 59.
Proof.
  unfold Adsb.cprNLFunction. cbv zeta.
  destruct (lat <? 0)%float;
    repeat match goal with
           | |- context [if ?c then _ else _] => destruct c; [lia|]
           end; lia.
Qed.

(** X7.  Whatever the latitude -- a NaN included -- the threshold NL
    function of package adsb returns a zone count from 1 to 59, so that
    [cprN] is from 0 to 59; the table of map.go, when its index is in range,
    returns 1 or a count from 33 to 59. *)
Theorem cprNLFunction_range (lat : float) (odd : bool) :
  1 <= Adsb.cprNLFunction lat <= 59 /\
  0 <= Adsb.cprN lat odd <= 59 /\
  match MapAdsb.cprNLFunction lat with
  | Ok n => n = 1 \/ 33 <= n <= 59
  | Panic => True
  end.
Proof.
  pose proof (cprNLFunction_bounds lat) as H.
  split; [exact H|]. split.
  - unfold Adsb.cprN. cbv zeta. destruct odd; cbn [negb]; lia.
  - unfold MapAdsb.cprNLFunction. cbv zeta.
    destruct (_ <=? _)%float; [left; reflexivity|].
    destruct (_ <? 0); [exact I|].
    destruct (MapAdsb.nl_table !! _) as [n|] eqn:E; [|exact I].
    right. apply list_elem_of_lookup_2 in E.
    assert (Hall : Forall (fun n => 33 <= n <= 59) MapAdsb.nl_table).
    { unfold MapAdsb.nl_table. repeat constructor; lia. }
    rewrite Forall_forall in Hall. apply Hall. exact E.
Qed.

Lemma DecodeCPRPosition_ok (evenPos oddPos : Adsb.Aircraft.t) :
  exists lat lon ok,
    Adsb.DecodeCPRPosition evenPos oddPos = Ok (lat, lon, ok) /\
    (ok = false -> lat = 0%float /\ lon = 0%float) /\
    (ok = true ->
     GoTime.IsZero (Adsb.Aircraft.EvenCPRTime evenPos) = false /\
     GoTime.IsZero (Adsb.Aircraft.OddCPRTime oddPos) = false /\
     Z.abs (GoTime.Milliseconds
              (GoTime.Sub (Adsb.Aircraft.EvenCPRTime evenPos)
                          (Adsb.Aircraft.OddCPRTime oddPos))) <= 10000 /\
     (lat <? -90)%float = false /\ (90 <? lat)%float = false).
Proof.
  unfold Adsb.DecodeCPRPosition.
  destruct (GoTime.IsZero (Adsb.Aircraft.EvenCPRTime evenPos)) eqn:Ze;
    [eexists _, _, _; split; [reflexivity|]; split; [auto | discriminate]|].
  destruct (GoTime.IsZero (Adsb.Aircraft.OddCPRTime oddPos)) eqn:Zo;
    [eexists _, _, _; split; [reflexivity|]; split; [auto | discriminate]|].
  cbn [orb].
  destruct (Z.ltb_spec 10000
              (Z.abs (GoTime.Milliseconds
                        (GoTime.Sub (Adsb.Aircraft.EvenCPRTime evenPos)
                                    (Adsb.Aircraft.OddCPRTime oddPos)))))
    as [Hst|Hst];
    [eexists _, _, _; split; [reflexivity|]; split; [auto | discriminate]|].
  cbv zeta.
  rewrite (cprModFunction_ok _ 60), (cprModFunction_ok _ 59) by discriminate.
  unfold mbind, outcome_bind.
  match goal with
  | |- context [if ?a || ?b || ?c || ?d then _ else _] =>
      destruct a eqn:Ha; [cbn [orb]|];
      [eexists _, _, _; split; [reflexivity|]; split; [auto | discriminate]|];
      destruct b eqn:Hb; [cbn [orb]|];
      [eexists _, _, _; split; [reflexivity|]; split; [auto | discriminate]|];
      destruct c eqn:Hc; [cbn [orb]|];
      [eexists _, _, _; split; [reflexivity|]; split; [auto | discriminate]|];
      destruct d eqn:Hd; [cbn [orb]|];
      [eexists _, _, _; split; [reflexivity|]; split; [auto | discriminate]|]
  end.
  cbn [orb].
  destruct (negb (_ =? _));
    [eexists _, _, _; split; [reflexivity|]; split; [auto | discriminate]|].
  match goal with
  | |- context [negb (?ni =? 0)] => destruct (Z.eqb_spec ni 0) as [E0|N0]
  end; cbn [negb];
    [eexists _, _, _; split; [reflexivity|]; split; [auto | discriminate]|].
  rewrite cprModFunction_ok by exact N0.
  eexists _, _, _. split; [reflexivity|]. split; [discriminate|].
  intros _. repeat split; try assumption.
  - destruct (GoTime.After _ _); assumption.
  - destruct (GoTime.After _ _); assumption.
Qed.

(** X8.  [DecodeCPRPosition] of package adsb never panics: its three
    modulo operations have a non-zero modulus.  An unresolved pair comes
    back as (0, 0, false); a pair with a missing (zero) reception time is
    unresolved; a resolved latitude is neither below -90 nor above 90. *)
Theorem DecodeCPRPosition_total (evenPos oddPos : Adsb.Aircraft.t) :
  exists lat lon ok,
    Adsb.DecodeCPRPosition evenPos oddPos = Ok (lat, lon, ok) /\
    (ok = false -> lat = 0%float /\ lon = 0%float) /\
    (ok = true ->
     GoTime.IsZero (Adsb.Aircraft.EvenCPRTime evenPos) = false /\
     GoTime.IsZero (Adsb.Aircraft.OddCPRTime oddPos) = false /\
     Z.abs (GoTime.Milliseconds
              (GoTime.Sub (Adsb.Aircraft.EvenCPRTime evenPos)
                          (Adsb.Aircraft.OddCPRTime oddPos))) <= 10000 /\
     (lat <? -90)%float = false /\ (90 <? lat)%float = false).
Proof. exact (DecodeCPRPosition_ok evenPos oddPos). Qed.

(** ** ProcessMessage *)

Lemma tryResolve_cases (now : GoTime.instant) (msg : Adsb.Message.t)
  (a : Adsb.Aircraft.t) :
  Tracker.tryResolve now msg a = Ok a \/
  exists lat lon,
    (Adsb.DecodeCPRPosition a a = Ok (lat, lon, true) /\
     GoTime.IsZero (Adsb.Aircraft.EvenCPRTime a) = false /\
     GoTime.IsZero (Adsb.Aircraft.OddCPRTime a) = false /\
     Z.abs (GoTime.Milliseconds
              (GoTime.Sub (Adsb.Aircraft.EvenCPRTime a)
                          (Adsb.Aircraft.OddCPRTime a))) <= 10000) /\
    Tracker.tryResolve now msg a
    = Ok (Adsb.addToTrail now
            (Tracker.set_SeenLatLon (Adsb.Message.Timestamp msg)
               (Tracker.set_Lon lon (Tracker.set_Lat lat a))) lat lon).
Proof.
  unfold Tracker.tryResolve.
  destruct (_ && _); [|left; reflexivity].
  destruct (DecodeCPRPosition_ok a a) as (lat & lon & ok & Hrun & _ & Hok).
  rewrite Hrun. unfold mbind, outcome_bind.
  destruct ok; [|left; reflexivity].
  right. exists lat, lon.
  destruct (Hok eq_refl) as (He & Ho & Hw & _).
  repeat split; assumption.
Qed.

Lemma shiftSignal_cons (level : byte) (history : list byte) :
  length history = 8%nat ->
  Tracker.shiftSignal level history = level :: take 7 history.
Proof.
  intros H.
  destruct history as [|b0 [|b1 [|b2 [|b3 [|b4 [|b5 [|b6 [|b7 [|b8 r]]]]]]]]];
    try discriminate.
  reflexivity.
Qed.

Ltac tracker_simpl :=
  cbn [
    Adsb.Aircraft.ICAO Adsb.Aircraft.Flight Adsb.Aircraft.Altitude
    Adsb.Aircraft.Speed Adsb.Aircraft.Heading Adsb.Aircraft.VertRate
    Adsb.Aircraft.Lat Adsb.Aircraft.Lon Adsb.Aircraft.Seen
    Adsb.Aircraft.SeenLatLon Adsb.Aircraft.X Adsb.Aircraft.Y
    Adsb.Aircraft.OnGround Adsb.Aircraft.SignalLevel
    Adsb.Aircraft.EvenCPRLat Adsb.Aircraft.EvenCPRLon
    Adsb.Aircraft.OddCPRLat Adsb.Aircraft.OddCPRLon
    Adsb.Aircraft.EvenCPRTime Adsb.Aircraft.OddCPRTime Adsb.Aircraft.Trail
    Adsb.Aircraft.LabelX Adsb.Aircraft.LabelY Adsb.Aircraft.LabelW
    Adsb.Aircraft.LabelH Adsb.Aircraft.LabelDX Adsb.Aircraft.LabelDY
    Adsb.Aircraft.LabelOpacity Adsb.Aircraft.LabelLevel
    Adsb.Aircraft.LastUpdateTime Tracker.set_Seen Tracker.set_Flight
    Tracker.set_OnGround Tracker.set_Speed Tracker.set_Heading
    Tracker.set_VertRate Tracker.set_Altitude Tracker.set_OddCPRLat
    Tracker.set_OddCPRLon Tracker.set_OddCPRTime Tracker.set_EvenCPRLat
    Tracker.set_EvenCPRLon Tracker.set_EvenCPRTime Tracker.set_Lat
    Tracker.set_Lon Tracker.set_SeenLatLon Tracker.set_SignalLevel
    Adsb.Aircraft.set_Trail Adsb.addToTrail
  ].

Ltac tracker_simpl_all :=
  cbn [
    Adsb.Aircraft.ICAO Adsb.Aircraft.Flight Adsb.Aircraft.Altitude
    Adsb.Aircraft.Speed Adsb.Aircraft.Heading Adsb.Aircraft.VertRate
    Adsb.Aircraft.Lat Adsb.Aircraft.Lon Adsb.Aircraft.Seen
    Adsb.Aircraft.SeenLatLon Adsb.Aircraft.X Adsb.Aircraft.Y
    Adsb.Aircraft.OnGround Adsb.Aircraft.SignalLevel
    Adsb.Aircraft.EvenCPRLat Adsb.Aircraft.EvenCPRLon
    Adsb.Aircraft.OddCPRLat Adsb.Aircraft.OddCPRLon
    Adsb.Aircraft.EvenCPRTime Adsb.Aircraft.OddCPRTime Adsb.Aircraft.Trail
    Adsb.Aircraft.LabelX Adsb.Aircraft.LabelY Adsb.Aircraft.LabelW
    Adsb.Aircraft.LabelH Adsb.Aircraft.LabelDX Adsb.Aircraft.LabelDY
    Adsb.Aircraft.LabelOpacity Adsb.Aircraft.LabelLevel
    Adsb.Aircraft.LastUpdateTime Tracker.set_Seen Tracker.set_Flight
    Tracker.set_OnGround Tracker.set_Speed Tracker.set_Heading
    Tracker.set_VertRate Tracker.set_Altitude Tracker.set_OddCPRLat
    Tracker.set_OddCPRLon Tracker.set_OddCPRTime Tracker.set_EvenCPRLat
    Tracker.set_EvenCPRLon Tracker.set_EvenCPRTime Tracker.set_Lat
    Tracker.set_Lon Tracker.set_SeenLatLon Tracker.set_SignalLevel
    Adsb.Aircraft.set_Trail Adsb.addToTrail
  ] in *.

Ltac tracker_open now msg :=
  unfold Tracker.ProcessMessage, Tracker.storeCPR; cbv zeta;
  unfold Adsb.DF0, Adsb.DF4, Adsb.DF5, Adsb.DF11, Adsb.DF16, Adsb.DF17,
    Adsb.DF18, Adsb.DF20, Adsb.DF21;
  repeat match goal with
         | |- context [if ?c then _ else _] =>
             lazymatch c with
             | context [Tracker.tryResolve] => fail
             | _ => destruct c eqn:?
             end
         | |- context [Tracker.tryResolve now msg ?x] =>
             let lat := fresh "lat" in
             let lon := fresh "lon" in
             let Hd := fresh "Hd" in
             let Hr := fresh "Hr" in
             destruct (tryResolve_cases now msg x)
               as [Hr | (lat & lon & Hd & Hr)]; rewrite Hr; clear Hr
         end;
  unfold mbind, outcome_bind.

(** X9.  [ProcessMessage] never panics.  Whatever the message, the track
    keeps its ICAO address and its display fields, its last-seen time
    becomes the message's timestamp, the message's signal level enters the
    8-entry history at the front and the oldest entry leaves, and the trail
    either stays or receives one sample stamped with the clock, within the
    bound of 120 if it was within it. *)
Theorem ProcessMessage_bookkeeping (now : GoTime.instant)
  (a : Adsb.Aircraft.t) (msg : Adsb.Message.t) :
  exists a',
    Tracker.ProcessMessage now a msg = Ok a' /\
    RefTrack.display a' = RefTrack.display a /\
    Adsb.Aircraft.Seen a' = Adsb.Message.Timestamp msg /\
    Adsb.Aircraft.SignalLevel a'
    = Tracker.shiftSignal (Adsb.Message.SignalLevel msg)
        (Adsb.Aircraft.SignalLevel a) /\
    (length (Adsb.Aircraft.SignalLevel a) = 8%nat ->
     Adsb.Aircraft.SignalLevel a'
     = Adsb.Message.SignalLevel msg :: take 7 (Adsb.Aircraft.SignalLevel a)) /\
    (Adsb.Aircraft.Trail a' = Adsb.Aircraft.Trail a \/
     exists pos,
       Adsb.Aircraft.Trail a'
       = Spec.pushBounded Adsb.TrailLength (Adsb.Aircraft.Trail a) pos /\
       Adsb.Position.Timestamp pos = now) /\
    ((length (Adsb.Aircraft.Trail a) <= Adsb.TrailLength)%nat ->
     (length (Adsb.Aircraft.Trail a') <= Adsb.TrailLength)%nat).
Proof.
  assert (Hcore : exists a',
    Tracker.ProcessMessage now a msg = Ok a' /\
    RefTrack.display a' = RefTrack.display a /\
    Adsb.Aircraft.Seen a' = Adsb.Message.Timestamp msg /\
    Adsb.Aircraft.SignalLevel a'
    = Tracker.shiftSignal (Adsb.Message.SignalLevel msg)
        (Adsb.Aircraft.SignalLevel a) /\
    (Adsb.Aircraft.Trail a' = Adsb.Aircraft.Trail a \/
     exists pos,
       Adsb.Aircraft.Trail a'
       = Spec.pushBounded Adsb.TrailLength (Adsb.Aircraft.Trail a) pos /\
       Adsb.Position.Timestamp pos = now)).
  { tracker_open now msg;
      (eexists; split; [reflexivity|]); tracker_simpl;
      (split; [reflexivity|]); (split; [reflexivity|]);
      (split; [reflexivity|]);
      lazymatch goal with
      | |- context [_ ++ [_]] =>
          right; eexists; split; [unfold Spec.pushBounded|]; reflexivity
      | _ => left; reflexivity
      end. }
  destruct Hcore as (a' & Hrun & Hd & Hs & Hl & Ht).
  exists a'. repeat (split; [assumption|]).
  split; [|split; [exact Ht|]].
  - intros H8. rewrite Hl. now apply shiftSignal_cons.
  - intros Hb. destruct Ht as [Ht | (pos & Ht & _)]; rewrite Ht; [exact Hb|].
    rewrite pushBounded_lastN by (unfold Adsb.TrailLength in *; lia).
    unfold Spec.lastN. rewrite length_drop, length_app. cbn [length].
    unfold Adsb.TrailLength in *. lia.
Qed.

Lemma ProcessMessage_bookkeeping_witness :
  Adsb.Aircraft.SignalLevel RefTrack.sampleTrack = replicate 8 x00 /\
  exists a',
    Tracker.ProcessMessage 9 RefTrack.sampleTrack
      (Adsb.Message.mk 17 0 0 0 0 0 4 0 "KLM1023" 0 0 0 0 0%float 0%float 0
         0 false false x2a 7 0 0 true) = Ok a' /\
    Adsb.Aircraft.SignalLevel a' = x2a :: replicate 7 x00 /\
    (length (Adsb.Aircraft.Trail a') <= Adsb.TrailLength)%nat.
Proof.
  split; [reflexivity|].
  destruct (ProcessMessage_bookkeeping 9 RefTrack.sampleTrack
              (Adsb.Message.mk 17 0 0 0 0 0 4 0 "KLM1023" 0 0 0 0 0%float
                 0%float 0 0 false false x2a 7 0 0 true))
    as (a' & Hrun & _ & _ & _ & Hl & _ & Hb).
  exists a'. split; [exact Hrun|]. split.
  - apply Hl. reflexivity.
  - apply Hb. unfold Adsb.TrailLength. cbn. lia.
Defined.
(** Boolean tests to arithmetic, then [lia]. *)
Ltac bool_lia :=
  repeat match goal with
         | H : _ && _ = true |- _ => apply andb_true_iff in H; destruct H
         | H : _ || _ = false |- _ => apply orb_false_iff in H; destruct H
         | H : (_ <=? _) = true |- _ => apply Z.leb_le in H
         | H : (_ <=? _) = false |- _ => apply Z.leb_gt in H
         | H : (_ =? _) = true |- _ => apply Z.eqb_eq in H
         | H : (_ =? _) = false |- _ => apply Z.eqb_neq in H
         end;
  repeat match goal with
         | H : _ && _ = false |- _ => apply andb_false_iff in H; destruct H
         | H : _ || _ = true |- _ => apply orb_true_iff in H; destruct H
         | H : _ && _ = true |- _ => apply andb_true_iff in H; destruct H
         | H : _ || _ = false |- _ => apply orb_false_iff in H; destruct H
         | H : (_ <=? _) = true |- _ => apply Z.leb_le in H
         | H : (_ <=? _) = false |- _ => apply Z.leb_gt in H
         | H : (_ =? _) = true |- _ => apply Z.eqb_eq in H
         | H : (_ =? _) = false |- _ => apply Z.eqb_neq in H
         end;
  lia.

(** X10.  A message that is not a position message (DF17 or DF18 with a type
    code from 5 to 18 or from 20 to 22) never touches what the track knows
    of its position: resolved coordinates, their time, the trail and the two
    raw CPR slots are as before. *)
Theorem ProcessMessage_keeps_position (now : GoTime.instant)
  (a : Adsb.Aircraft.t) (msg : Adsb.Message.t) :
  RefTrack.isPosition msg = false ->
  exists a',
    Tracker.ProcessMessage now a msg = Ok a' /\
    RefTrack.positionState a' = RefTrack.positionState a.
Proof.
  intros H. unfold RefTrack.isPosition in H.
  unfold Adsb.DF17, Adsb.DF18 in H.
  tracker_open now msg;
    first [ exfalso; bool_lia
          | eexists; split; [reflexivity|]; tracker_simpl; reflexivity ].
Qed.

Lemma ProcessMessage_keeps_position_witness :
  RefTrack.isPosition RefTrack.identMessage = false /\
  exists a',
    Tracker.ProcessMessage 9 RefTrack.sampleTrack RefTrack.identMessage
    = Ok a' /\
    RefTrack.positionState a' = RefTrack.positionState RefTrack.sampleTrack.
Proof.
  split; [reflexivity|].
  apply (ProcessMessage_keeps_position 9 RefTrack.sampleTrack
           RefTrack.identMessage).
  reflexivity.
Defined.
(** The resolver reads the six CPR fields of its arguments and nothing
    else. *)
Lemma DecodeCPRPosition_ext (e o e' o' : Adsb.Aircraft.t) :
  Adsb.Aircraft.EvenCPRLat e = Adsb.Aircraft.EvenCPRLat e' ->
  Adsb.Aircraft.EvenCPRLon e = Adsb.Aircraft.EvenCPRLon e' ->
  Adsb.Aircraft.EvenCPRTime e = Adsb.Aircraft.EvenCPRTime e' ->
  Adsb.Aircraft.OddCPRLat o = Adsb.Aircraft.OddCPRLat o' ->
  Adsb.Aircraft.OddCPRLon o = Adsb.Aircraft.OddCPRLon o' ->
  Adsb.Aircraft.OddCPRTime o = Adsb.Aircraft.OddCPRTime o' ->
  Adsb.DecodeCPRPosition e o = Adsb.DecodeCPRPosition e' o'.
Proof.
  intros H1 H2 H3 H4 H5 H6. unfold Adsb.DecodeCPRPosition.
  rewrite H1, H2, H3, H4, H5, H6. reflexivity.
Qed.

(** Storing a report and trying to resolve, as both position branches of
    [ProcessMessage] do. *)
Lemma storeResolve_spec (now : GoTime.instant) (msg : Adsb.Message.t)
  (x : Adsb.Aircraft.t) :
  exists a1,
    Tracker.tryResolve now msg (Tracker.storeCPR msg x) = Ok a1 /\
    (if Adsb.Message.OddFlag msg then
       (Adsb.Aircraft.OddCPRLat a1, Adsb.Aircraft.OddCPRLon a1,
        Adsb.Aircraft.OddCPRTime a1)
       = (Adsb.Message.RawLat msg, Adsb.Message.RawLon msg,
          Adsb.Message.Timestamp msg) /\
       (Adsb.Aircraft.EvenCPRLat a1, Adsb.Aircraft.EvenCPRLon a1,
        Adsb.Aircraft.EvenCPRTime a1)
       = (Adsb.Aircraft.EvenCPRLat x, Adsb.Aircraft.EvenCPRLon x,
          Adsb.Aircraft.EvenCPRTime x)
     else
       (Adsb.Aircraft.EvenCPRLat a1, Adsb.Aircraft.EvenCPRLon a1,
        Adsb.Aircraft.EvenCPRTime a1)
       = (Adsb.Message.RawLat msg, Adsb.Message.RawLon msg,
          Adsb.Message.Timestamp msg) /\
       (Adsb.Aircraft.OddCPRLat a1, Adsb.Aircraft.OddCPRLon a1,
        Adsb.Aircraft.OddCPRTime a1)
       = (Adsb.Aircraft.OddCPRLat x, Adsb.Aircraft.OddCPRLon x,
          Adsb.Aircraft.OddCPRTime x)) /\
    (RefTrack.resolved a1 = RefTrack.resolved x \/
     exists lat lon,
       Adsb.DecodeCPRPosition a1 a1 = Ok (lat, lon, true) /\
       Adsb.Aircraft.Lat a1 = lat /\ Adsb.Aircraft.Lon a1 = lon /\
       Adsb.Aircraft.SeenLatLon a1 = Adsb.Message.Timestamp msg /\
       Adsb.Aircraft.Trail a1
       = Spec.pushBounded Adsb.TrailLength (Adsb.Aircraft.Trail x)
           (Adsb.Position.mk lat lon (Adsb.Aircraft.Altitude x)
                             (Adsb.Aircraft.Heading x) now)) /\
    (GoTime.IsZero (RefTrack.otherTime msg x) = true \/
     10001 * GoTime.Millisecond
     <= Z.abs (Adsb.Message.Timestamp msg - RefTrack.otherTime msg x) ->
     RefTrack.resolved a1 = RefTrack.resolved x) /\
    Adsb.Aircraft.Altitude a1 = Adsb.Aircraft.Altitude x /\
    Adsb.Aircraft.Heading a1 = Adsb.Aircraft.Heading x.
Proof.
  destruct (tryResolve_cases now msg (Tracker.storeCPR msg x))
    as [Hr | (lat & lon & (Hdec & Hze & Hzo & Hwin) & Hr)];
    rewrite Hr; clear Hr; eexists; (split; [reflexivity|]).
  - unfold Tracker.storeCPR, RefTrack.otherTime.
    destruct (Adsb.Message.OddFlag msg); tracker_simpl;
      (split; [split; reflexivity|]);
      (split; [left; reflexivity|]);
      (split; [intros _; reflexivity|]); split; reflexivity.
  - unfold RefTrack.otherTime. unfold Tracker.storeCPR in *.
    destruct (Adsb.Message.OddFlag msg); tracker_simpl_all;
      (split; [split; reflexivity|]).
    + split.
      { right. exists lat, lon. split; [|repeat split; reflexivity].
        rewrite <- Hdec. apply DecodeCPRPosition_ext; reflexivity. }
      split; [|split; reflexivity].
      intros [Hz | Hst]; [congruence|]. exfalso.
      assert (Hb : 10001 * GoTime.Millisecond
                   <= Z.abs (Adsb.Aircraft.EvenCPRTime x
                             - Adsb.Message.Timestamp msg)) by lia.
      pose proof (milliseconds_beyond_window _ _ Hb). lia.
    + split.
      { right. exists lat, lon. split; [|repeat split; reflexivity].
        rewrite <- Hdec. apply DecodeCPRPosition_ext; reflexivity. }
      split; [|split; reflexivity].
      intros [Hz | Hst]; [congruence|]. exfalso.
      pose proof (milliseconds_beyond_window _ _ Hst). lia.
Qed.
(** X11.  A position message stores its raw CPR report and reception time
    in the slot of its parity and leaves the other slot alone.  The resolved
    position then either stays as it was, or is the position the resolver
    returns for the two slots, stamped with the message's time and appended
    to the trail with the clock reading.  It stays as it was whenever the
    other parity has no report yet, or its report was received 10.001 s or
    more before or after this one. *)
Theorem ProcessMessage_position (now : GoTime.instant)
  (a : Adsb.Aircraft.t) (msg : Adsb.Message.t) :
  RefTrack.isPosition msg = true ->
  exists a',
    Tracker.ProcessMessage now a msg = Ok a' /\
    (if Adsb.Message.OddFlag msg then
       (Adsb.Aircraft.OddCPRLat a', Adsb.Aircraft.OddCPRLon a',
        Adsb.Aircraft.OddCPRTime a')
       = (Adsb.Message.RawLat msg, Adsb.Message.RawLon msg,
          Adsb.Message.Timestamp msg) /\
       (Adsb.Aircraft.EvenCPRLat a', Adsb.Aircraft.EvenCPRLon a',
        Adsb.Aircraft.EvenCPRTime a')
       = (Adsb.Aircraft.EvenCPRLat a, Adsb.Aircraft.EvenCPRLon a,
          Adsb.Aircraft.EvenCPRTime a)
     else
       (Adsb.Aircraft.EvenCPRLat a', Adsb.Aircraft.EvenCPRLon a',
        Adsb.Aircraft.EvenCPRTime a')
       = (Adsb.Message.RawLat msg, Adsb.Message.RawLon msg,
          Adsb.Message.Timestamp msg) /\
       (Adsb.Aircraft.OddCPRLat a', Adsb.Aircraft.OddCPRLon a',
        Adsb.Aircraft.OddCPRTime a')
       = (Adsb.Aircraft.OddCPRLat a, Adsb.Aircraft.OddCPRLon a,
          Adsb.Aircraft.OddCPRTime a)) /\
    (RefTrack.resolved a' = RefTrack.resolved a \/
     exists lat lon,
       Adsb.DecodeCPRPosition a' a' = Ok (lat, lon, true) /\
       Adsb.Aircraft.Lat a' = lat /\ Adsb.Aircraft.Lon a' = lon /\
       Adsb.Aircraft.SeenLatLon a' = Adsb.Message.Timestamp msg /\
       Adsb.Aircraft.Trail a'
       = Spec.pushBounded Adsb.TrailLength (Adsb.Aircraft.Trail a)
           (Adsb.Position.mk lat lon (Adsb.Aircraft.Altitude a')
                             (Adsb.Aircraft.Heading a') now)) /\
    (GoTime.IsZero (RefTrack.otherTime msg a) = true \/
     10001 * GoTime.Millisecond
     <= Z.abs (Adsb.Message.Timestamp msg - RefTrack.otherTime msg a) ->
     RefTrack.resolved a' = RefTrack.resolved a).
Proof.
  intros H. unfold RefTrack.isPosition in H.
  unfold Adsb.DF17, Adsb.DF18 in H.
  unfold Tracker.ProcessMessage. cbv zeta.
  unfold Adsb.DF0, Adsb.DF4, Adsb.DF5, Adsb.DF11, Adsb.DF16, Adsb.DF17,
    Adsb.DF18, Adsb.DF20, Adsb.DF21.
  repeat match goal with
         | |- context [if ?c then _ else _] =>
             lazymatch c with
             | context [Tracker.tryResolve] => fail
             | _ => destruct c eqn:?
             end
         end;
    try (exfalso; bool_lia).
  all: match goal with
       | |- context [Tracker.tryResolve ?n ?m (Tracker.storeCPR ?m ?x)] =>
           destruct (storeResolve_spec n m x)
             as (a1 & Hrun & Hslot & Hres & Hstale & Halt & Hhdg);
           rewrite Hrun; unfold mbind, outcome_bind;
           eexists; (split; [reflexivity|]);
           unfold RefTrack.otherTime, RefTrack.resolved in *;
           tracker_simpl_all;
           match goal with
           | Hf : Adsb.Message.OddFlag _ = _ |- _ =>
               rewrite ?Hf in Hslot; rewrite ?Hf in Hstale; rewrite ?Hf
           end;
           (split; [exact Hslot|]);
           split; [|exact Hstale];
           destruct Hres as [Hres | (lat & lon & Hdec & Hres)];
           [ left; exact Hres
           | right; exists lat, lon; split;
             [ rewrite <- Hdec; apply DecodeCPRPosition_ext; reflexivity
             | rewrite Halt, Hhdg; exact Hres ] ]
       end.
Qed.

Lemma ProcessMessage_position_witness :
  RefTrack.isPosition (RefTrack.oddMessage 20000000000) = true /\
  10001 * GoTime.Millisecond
  <= Z.abs (Adsb.Message.Timestamp (RefTrack.oddMessage 20000000000)
            - RefTrack.otherTime (RefTrack.oddMessage 20000000000)
                (Spec.cprExample 1000000000 0)) /\
  exists a',
    Tracker.ProcessMessage 9 (Spec.cprExample 1000000000 0)
      (RefTrack.oddMessage 20000000000) = Ok a' /\
    Adsb.Aircraft.OddCPRTime a' = 20000000000 /\
    RefTrack.resolved a'
    = RefTrack.resolved (Spec.cprExample 1000000000 0).
Proof.
  assert (Hp : RefTrack.isPosition (RefTrack.oddMessage 20000000000) = true)
    by reflexivity.
  assert (Hs : 10001 * GoTime.Millisecond
               <= Z.abs (Adsb.Message.Timestamp
                           (RefTrack.oddMessage 20000000000)
                         - RefTrack.otherTime
                             (RefTrack.oddMessage 20000000000)
                             (Spec.cprExample 1000000000 0)))
    by (vm_compute; discriminate).
  split; [exact Hp|]. split; [exact Hs|].
  destruct (ProcessMessage_position 9 (Spec.cprExample 1000000000 0)
              (RefTrack.oddMessage 20000000000) Hp)
    as (a' & Hrun & Hslot & _ & Hstale).
  exists a'. split; [exact Hrun|]. split.
  - change (Adsb.Message.OddFlag (RefTrack.oddMessage 20000000000))
      with true in Hslot.
    destruct Hslot as [Hodd _]. now inversion Hodd.
  - apply Hstale. right. exact Hs.
Defined.
(** ** Identification frames, from the bytes to the track *)

Lemma decodeExtendedSquitter_ident (Atan2 : float -> float -> float)
  (df : Z) (data : list byte) (msg : Adsb.Message.t) :
  1 <= Spec.frameTypeCode data <= 4 ->
  Adsb.Message.Flight (Adsb.decodeExtendedSquitter Atan2 df data msg)
  = Adsb.decodeAircraftID (take 6 (drop 5 data)).
Proof.
  intros Htc. unfold Adsb.decodeExtendedSquitter. cbv zeta.
  assert (Hc : forall m,
            Adsb.Message.TypeCode
              (Adsb.Message.set_SubType (Z.land (at_ data 4) 7)
                 (Adsb.Message.set_TypeCode (Z.shiftr (at_ data 4) 3) m))
            = Spec.frameTypeCode data) by reflexivity.
  rewrite !Hc.
  destruct (Z.leb_spec 1 (Spec.frameTypeCode data)); [|lia].
  destruct (Z.leb_spec (Spec.frameTypeCode data) 4); [|lia].
  reflexivity.
Qed.

Lemma ProcessMessage_ident (now : GoTime.instant) (a : Adsb.Aircraft.t)
  (msg : Adsb.Message.t) :
  RefTrack.isIdent msg = true ->
  exists a',
    Tracker.ProcessMessage now a msg = Ok a' /\
    Adsb.Aircraft.Flight a' = Adsb.Message.Flight msg /\
    Adsb.Aircraft.Seen a' = Adsb.Message.Timestamp msg /\
    RefTrack.positionState a' = RefTrack.positionState a.
Proof.
  intros H. unfold RefTrack.isIdent in H.
  unfold Adsb.DF17, Adsb.DF18 in H.
  tracker_open now msg;
    first [ exfalso; bool_lia
          | eexists; split; [reflexivity|]; tracker_simpl;
            repeat split; reflexivity ].
Qed.

(** X12.  An identification frame (DF17 or DF18, type code 1 to 4, at
    least 14 bytes) passes through [DecodeMessage] and [ProcessMessage]
    without a panic: the track's flight becomes the callsign of bytes 5 to
    10 -- the eight six-bit groups through the ICAO character set, trailing
    spaces trimmed, and so the empty string for a blank callsign -- its
    last-seen time becomes the frame's timestamp, and nothing it knows of
    its position changes. *)
Theorem identification_reaches_track (Atan2 : float -> float -> float)
  (now timestamp : GoTime.instant) (data : list byte) (a : Adsb.Aircraft.t) :
  Spec.extendedSquitter data ->
  (14 <= length data)%nat ->
  1 <= Spec.frameTypeCode data <= 4 ->
  exists msg a',
    Adsb.DecodeMessage Atan2 data timestamp = Some msg /\
    Tracker.ProcessMessage now a msg = Ok a' /\
    Adsb.Aircraft.Flight a' = Spec.callsignOf (take 6 (drop 5 data)) /\
    Adsb.Aircraft.Seen a' = timestamp /\
    RefTrack.positionState a' = RefTrack.positionState a.
Proof.
  intros Hdf Hlen Htc.
  assert (Hrun : Adsb.DecodeMessage Atan2 data timestamp
                 = Some (Adsb.decodeExtendedSquitter Atan2 (Spec.frameDF data)
                           data
                           (Adsb.newMessage (Spec.frameDF data) timestamp))).
  { unfold Adsb.DecodeMessage.
    destruct (Nat.ltb_spec (length data) 2) as [?|_]; [lia|]. cbv zeta.
    fold (Spec.frameDF data).
    destruct (Nat.ltb_spec (length data) 14) as [?|_]; [lia|].
    destruct Hdf as [E | E]; rewrite E; reflexivity. }
  set (msg := Adsb.decodeExtendedSquitter Atan2 (Spec.frameDF data) data
                (Adsb.newMessage (Spec.frameDF data) timestamp)) in *.
  destruct (decodeExtendedSquitter_key Atan2 (Spec.frameDF data) data
              (Adsb.newMessage (Spec.frameDF data) timestamp)) as (Hd & _).
  destruct (decodeExtendedSquitter_stamp Atan2 (Spec.frameDF data) data
              (Adsb.newMessage (Spec.frameDF data) timestamp))
    as (Hts & _ & Htcode).
  fold msg in Hd, Hts, Htcode. cbn in Hd, Hts.
  assert (Hid : RefTrack.isIdent msg = true).
  { unfold RefTrack.isIdent. rewrite Hd, Htcode.
    unfold Adsb.DF17, Adsb.DF18.
    destruct (Z.leb_spec 1 (Spec.frameTypeCode data)); [|lia].
    destruct (Z.leb_spec (Spec.frameTypeCode data) 4); [|lia].
    destruct Hdf as [-> | ->]; reflexivity. }
  destruct (ProcessMessage_ident now a msg Hid)
    as (a' & Hp & Hfl & Hseen & Hpos).
  exists msg, a'. split; [exact Hrun|]. split; [exact Hp|].
  split; [|split; [congruence | exact Hpos]].
  rewrite Hfl. unfold msg.
  rewrite decodeExtendedSquitter_ident by exact Htc.
  apply decodeAircraftID_spec.
  rewrite length_take, length_drop. lia.
Qed.

Lemma identification_reaches_track_witness :
  Spec.extendedSquitter
    [x8d; x48; x40; xd6; x20; x2c; xc3; x71; xc3; x2c; xe0; x57; x60; x98] /\
  exists msg a',
    Adsb.DecodeMessage Spec.noAtan2
      [x8d; x48; x40; xd6; x20; x2c; xc3; x71; xc3; x2c; xe0; x57; x60; x98]
      7 = Some msg /\
    Tracker.ProcessMessage 9 RefTrack.sampleTrack msg = Ok a' /\
    Adsb.Aircraft.Flight a' = "KLM1023"%string /\
    Adsb.Aircraft.Seen a' = 7.
Proof.
  assert (Hdf : Spec.extendedSquitter
    [x8d; x48; x40; xd6; x20; x2c; xc3; x71; xc3; x2c; xe0; x57; x60; x98])
    by (left; reflexivity).
  split; [exact Hdf|].
  destruct (identification_reaches_track Spec.noAtan2 9 7
    [x8d; x48; x40; xd6; x20; x2c; xc3; x71; xc3; x2c; xe0; x57; x60; x98]
    RefTrack.sampleTrack Hdf)
    as (msg & a' & Hrun & Hp & Hfl & Hseen & _);
    [cbn; lia | vm_compute; split; discriminate |].
  exists msg, a'. split; [exact Hrun|]. split; [exact Hp|].
  split; [|exact Hseen].
  rewrite Hfl. reflexivity.
Defined.
